(** * web-ifc-three: property manager and geometry parser

    A shallow embedding of [PropertyManager] (spatial structure, relation
    chunks, property resolution, express ids of faces) and of [IFCParser]
    (opening a model, vertex data, geometries grouped by material), with the
    properties stated about them.

    Conventions of the embedding:
    - JavaScript values are the inductive [JSValue]; numbers are the integers
      the code handles (express ids, type tags, indices).
    - A JavaScript object is an association list in [Object.keys] order; an
      object used as a dictionary whose order is never observed is a [gmap]
      keyed by property name.
    - A function that can throw returns a [Result]; [async] functions are
      sequenced by [await], so they are embedded as the same monad, a
      rejected promise being [Throw].
    - Recursion that the source does not bound takes a [fuel]; [OutOfFuel]
      stands for a recursion deeper than the fuel given.
    - Properties inherited from [Object.prototype] and the built-in
      properties of arrays and strings are not part of the embedding: the
      keys read are express ids and the field names of the records. *)

From Stdlib Require Import ZArith String Ascii DecimalString DecimalZ DecimalPos.
From Stdlib Require PrimFloat.
From stdpp Require Import base option list gmap strings relations.

Set Warnings "-register-all".
Local Open Scope string_scope.
Local Open Scope list_scope.
Local Open Scope Z_scope.

(** ** JavaScript values *)

Inductive JSValue : Type :=
| JSUndefined
| JSNull
| JSBool (b : bool)
| JSNumber (n : Z)
| JSString (s : string)
| JSArray (items : list JSValue)
| JSObject (props : list (string * JSValue)).

(** A record of the model: the own enumerable properties of an object. *)
Abbreviation JSONObject := (list (string * JSValue)).

(** ** Exceptions and results *)

Inductive Exception : Type :=
| TypeNotFound (type : Z)   (* new Error(`Type not found: ${type}`) *)
| TypeError                 (* property read of undefined or null, call of a non-function *)
| Rejected.                 (* a rejected promise of the web-ifc API *)

Inductive Result (A : Type) : Type :=
| Ok (a : A)
| Throw (e : Exception)
| OutOfFuel.
Arguments Ok {A} a.
Arguments Throw {A} e.
Arguments OutOfFuel {A}.

Definition bind {A B} (r : Result A) (k : A -> Result B) : Result B :=
  match r with
  | Ok a => k a
  | Throw e => Throw e
  | OutOfFuel => OutOfFuel
  end.

Notation "'let*' x ':=' r 'in' k" := (bind r (fun x => k))
  (at level 10, x name, r at level 100, k at level 200).

(** [array.map(f)] and [array.forEach(f)] with a callback that can throw:
    left to right, the first exception aborts the traversal. *)
Fixpoint mapM {A B} (f : A -> Result B) (l : list A) : Result (list B) :=
  match l with
  | [] => Ok []
  | x :: l' => let* y := f x in let* ys := mapM f l' in Ok (y :: ys)
  end.

Fixpoint foldM {A S} (f : S -> A -> Result S) (l : list A) (s : S) : Result S :=
  match l with
  | [] => Ok s
  | x :: l' => let* s' := f s x in foldM f l' s'
  end.

(** The error taxonomy of the specification, and the exception of the code
    that each kind names.  No exception of the code is a [MissingRoot] or a
    [MalformedHierarchy]. *)
Inductive ErrorKind : Type :=
| UnknownType | MissingRoot | MalformedHierarchy | UpstreamFailure.

Definition classify (e : Exception) : option ErrorKind :=
  match e with
  | TypeNotFound _ => Some UnknownType
  | Rejected => Some UpstreamFailure
  | TypeError => None
  end.

(** ** Primitive operations of the language *)

(** [String(n)] for an integer. *)
Definition Number_toString (n : Z) : string :=
  NilZero.string_of_int (Z.to_int n).

(** [String(v)]; an array prints its elements joined by commas, [null] and
    [undefined] elements as the empty string. *)
Fixpoint toString (v : JSValue) : string :=
  match v with
  | JSUndefined => "undefined"
  | JSNull => "null"
  | JSBool true => "true"
  | JSBool false => "false"
  | JSNumber n => Number_toString n
  | JSString s => s
  | JSArray items =>
      (fix join (l : list JSValue) : string :=
         match l with
         | [] => ""
         | x :: l' =>
             let sx := match x with
                       | JSUndefined | JSNull => ""
                       | _ => toString x
                       end in
             match l' with
             | [] => sx
             | _ :: _ => (sx ++ "," ++ join l')%string
             end
         end) items
  | JSObject _ => "[object Object]"
  end.

(** The property name under which [obj[v]] reads or writes. *)
Definition toPropertyKey (v : JSValue) : string := toString v.
Arguments toPropertyKey : simpl never.

(** Truthiness, as tested by [!v] and [v && ...]. *)
Definition truthy (v : JSValue) : bool :=
  match v with
  | JSUndefined | JSNull => false
  | JSBool b => b
  | JSNumber n => negb (Z.eqb n 0)
  | JSString s => negb (String.eqb s "")
  | JSArray _ | JSObject _ => true
  end.

Definition isArray (v : JSValue) : bool :=
  match v with JSArray _ => true | _ => false end.

(** [v === n] for a number [n]. *)
Definition strict_eq_number (v : JSValue) (n : Z) : bool :=
  match v with JSNumber m => Z.eqb m n | _ => false end.

(** Own property of a record; [undefined] when absent. *)
Fixpoint lookup_prop (key : string) (props : JSONObject) : JSValue :=
  match props with
  | [] => JSUndefined
  | (k, v) :: props' => if String.eqb k key then v else lookup_prop key props'
  end.

(** [obj[key] = v]: replaces the property in place, or adds it last. *)
Fixpoint assign_prop (key : string) (v : JSValue) (props : JSONObject) : JSONObject :=
  match props with
  | [] => [(key, v)]
  | (k, w) :: props' =>
      if String.eqb k key then (k, v) :: props'
      else (k, w) :: assign_prop key v props'
  end.

(** [Object.keys(obj)]: the names of the properties, each once. *)
Definition Object_keys (props : JSONObject) : list string := remove_dups (map fst props).

(** [v.key] for a field name [key] of the model ([type], [value], the
    relating and related fields): a [TypeError] on [undefined] and [null],
    the own property of an object, [undefined] on the other values, which
    have no such property. *)
Definition get (v : JSValue) (key : string) : Result JSValue :=
  match v with
  | JSUndefined | JSNull => Throw TypeError
  | JSObject props => Ok (lookup_prop key props)
  | _ => Ok JSUndefined
  end.

(** [s.toUpperCase()] on the letters a-z. *)
Definition upper_ascii (c : ascii) : ascii :=
  let n := nat_of_ascii c in
  if (97 <=? n)%nat && (n <=? 122)%nat then ascii_of_nat (n - 32) else c.

Fixpoint toUpperCase (s : string) : string :=
  match s with
  | EmptyString => EmptyString
  | String c s' => String (upper_ascii c) (toUpperCase s')
  end.

(** ** Geometry, materials and the state shared by the components *)

(** The elements of the typed array behind a buffer attribute. *)
Inductive Number : Type :=
| Int (n : Z)
| Float (f : PrimFloat.float).

(** [a[i]] for an index that is a number or [undefined]. *)
Definition TypedArray_get (a : list Number) (i : option Z) : option Number :=
  match i with
  | None => None
  | Some i => if Z.ltb i 0 then None else a !! Z.to_nat i
  end.

Record BufferAttribute : Type := {
  array : list Number;
  itemSize : Z
}.

(** [attribute.count]: the number of items held, [array.length / itemSize]
    for an array of whole items. *)
Definition count (a : BufferAttribute) : Z :=
  Z.of_nat (length (array a)) / itemSize a.

(** [attribute.getX(index)] reads [array[index * itemSize]]. *)
Definition getX (a : BufferAttribute) (index : option Z) : option Number :=
  TypedArray_get (array a) ((fun i => i * itemSize a) <$> index).

Record BufferGeometry : Type := {
  attributes : gmap string BufferAttribute;
  index : option (list Z)     (* [geometry.index.array]; [None] for [null] *)
}.

(** A material is an object: [ref] is its identity, given when it is
    constructed. *)
Record Material : Type := {
  ref : nat;
  color : PrimFloat.float * PrimFloat.float * PrimFloat.float;
  transparent : bool;
  opacity : PrimFloat.float
}.

Record Item : Type := {
  material : Material;
  geometries : gmap Z BufferGeometry
}.

(** A model of the state; its mesh is not needed here. *)
Record IfcModel : Type := {
  modelID : Z;
  items : gmap string Item;
  types : gmap string Z;
  jsonData : list (Z * JSONObject)    (* in [Object.keys] order *)
}.

(** The calls of the web-ifc API that the property manager makes; [None] is
    a rejected promise.  A vector of line ids is a list. *)
Record WebIfcAPI : Type := {
  GetLineIDsWithType : Z -> Z -> option (list Z);
  GetLine : Z -> JSValue -> bool -> option JSValue
}.

Record IfcState : Type := {
  models : gmap Z IfcModel;
  api : WebIfcAPI;
  useJSON : bool
}.

(** [await promise]. *)
Definition await {A} (p : option A) : Result A :=
  match p with
  | Some a => Ok a
  | None => Throw Rejected
  end.

(** [vector.get(i)]: [undefined] past the end. *)
Definition Vector_get (v : list Z) (i : nat) : JSValue :=
  match v !! i with
  | Some n => JSNumber n
  | None => JSUndefined
  end.

(** ** Constants imported from modules outside the sources *)

Record pName : Type := {
  name : Z;
  relating : string;
  related : string;
  key : string
}.

Record PropsNamesT : Type := {
  aggregates : pName;
  spatial : pName;
  psets : pName;
  type_ : pName;
  materials : pName
}.

Record Imports : Type := {
  IFCPROJECT : Z;
  IfcTypesMap : gmap Z string;
  IfcElements : gmap Z string;
  PropsNames : PropsNamesT;
  IdAttrName : string
}.

(** ** PropertyManager *)

(** A node of the spatial structure. *)
Inductive Node : Type := mkNode {
  expressID : JSValue;
  type : JSValue;
  children : list Node
}.

(** The chunks of the spatial tree: [treeChunks[relating]] is the array of
    the related ids. *)
Abbreviation Chunks := (gmap string (list JSValue)).

Module PropertyManager.
Section WithState.

Context (env : Imports) (state : IfcState).

(** [this.state.models[modelID]], on which a property is read next. *)
Definition getModel (modelID : Z) : Result IfcModel :=
  match models state !! modelID with
  | Some m => Ok m
  | None => Throw TypeError
  end.

(** [data[id]] on the records of a model, keyed by express id. *)
Fixpoint jsonData_get (data : list (Z * JSONObject)) (id : JSValue) : option JSONObject :=
  match data with
  | [] => None
  | (n, record) :: data' =>
      if String.eqb (Number_toString n) (toPropertyKey id) then Some record
      else jsonData_get data' id
  end.

(** [{ ...record }]: a copy of the own properties, none for [undefined]. *)
Definition spread (record : option JSONObject) : JSONObject :=
  match record with
  | Some props => props
  | None => []
  end.

Definition getExpressId (geometry : BufferGeometry) (faceIndex : Z) : Result (option Number) :=
  match index geometry with
  | None => Ok None
  | Some geoIndex =>
      match attributes geometry !! IdAttrName env with
      | None => Throw TypeError
      | Some idAttribute =>
          let i := if Z.ltb (3 * faceIndex) 0 then None
                   else geoIndex !! Z.to_nat (3 * faceIndex) in
          Ok (getX idAttribute i)
      end
  end.

Definition getItemProperties (modelID : Z) (id : JSValue) (recursive : bool) : Result JSValue :=
  if useJSON state then
    let* m := getModel modelID in
    Ok (JSObject (spread (jsonData_get (jsonData m) id)))
  else await (GetLine (api state) modelID id recursive).

(** [data[numKey].type.toUpperCase()] *)
Definition type_toUpperCase (record : option JSONObject) : Result string :=
  match record with
  | None => Throw TypeError
  | Some props =>
      match lookup_prop "type" props with
      | JSString s => Ok (toUpperCase s)
      | _ => Throw TypeError
      end
  end.

Definition filterJSONItemsByType (data : list (Z * JSONObject)) (typeName : string)
    (verbose : bool) : Result (list JSValue) :=
  foldM (fun result numKey =>
           let* t := type_toUpperCase (jsonData_get data (JSNumber numKey)) in
           if String.eqb t typeName
           then Ok (result ++ [if verbose
                               then JSObject (spread (jsonData_get data (JSNumber numKey)))
                               else JSNumber numKey])
           else Ok result)
        (map fst data) [].

Definition getAllItemsOfTypeJSON (modelID : Z) (type : Z) (verbose : bool) : Result (list JSValue) :=
  let* m := getModel modelID in
  let data := jsonData m in
  match IfcTypesMap env !! type with
  | Some typeName =>
      if negb (truthy (JSString typeName)) then Throw (TypeNotFound type)
      else filterJSONItemsByType data typeName verbose
  | None => Throw (TypeNotFound type)
  end.

Definition getItemsByIDJSON (modelID : Z) (ids : list JSValue) : Result (list JSONObject) :=
  let* m := getModel modelID in
  let data := jsonData m in
  Ok (map (fun id => spread (jsonData_get data id)) ids).

(** [getItemsByIDJSON(modelID, [id])[0]] *)
Definition getItemByIDJSON (modelID : Z) (id : JSValue) : Result JSONObject :=
  let* result := getItemsByIDJSON modelID [id] in
  Ok (default [] (head result)).

(** The body of the callback of [getMultipleJSONItems]; [self] is
    [getJSONReferencesRecursively]. *)
Definition getMultipleJSONItem (self : JSONObject -> Result JSONObject)
    (modelID : Z) (item : JSValue) : Result JSValue :=
  let* t := get item "type" in
  if strict_eq_number t 5 then
    let* id := get item "value" in
    let* fetched := getItemByIDJSON modelID id in
    let* resolved := self fetched in
    Ok (JSObject resolved)
  else Ok item.

Definition getMultipleJSONItems (self : JSONObject -> Result JSONObject)
    (modelID : Z) (jsonObject : JSONObject) (key : string) : Result JSONObject :=
  match lookup_prop key jsonObject with
  | JSArray items =>
      let* mapped := mapM (getMultipleJSONItem self modelID) items in
      Ok (assign_prop key (JSArray mapped) jsonObject)
  | _ => Throw TypeError
  end.

Definition getJSONItem (self : JSONObject -> Result JSONObject)
    (modelID : Z) (jsonObject : JSONObject) (key : string) : Result JSONObject :=
  let value := lookup_prop key jsonObject in
  if isArray value then getMultipleJSONItems self modelID jsonObject key
  else if truthy value then
    let* t := get value "type" in
    if strict_eq_number t 5 then
      let* id := get value "value" in
      let* fetched := getItemByIDJSON modelID id in
      let* resolved := self fetched in
      Ok (assign_prop key (JSObject resolved) jsonObject)
    else Ok jsonObject
  else Ok jsonObject.

(** The object is modified in place; the embedding returns it.  Every
    caller passes an object made by [getItemsByIDJSON], so the guard
    [jsonObject == undefined] never holds and the argument is typed as an
    object. *)
Fixpoint getJSONReferencesRecursively (fuel : nat) (modelID : Z)
    (jsonObject : JSONObject) : Result JSONObject :=
  match fuel with
  | O => OutOfFuel
  | S fuel' =>
      foldM (getJSONItem (getJSONReferencesRecursively fuel' modelID) modelID)
            (Object_keys jsonObject) jsonObject
  end.

(** [rel[propNames.related]] holds the related items. *)
Definition isRelated (id : Z) (rel : JSValue) (propNames : pName) : Result bool :=
  let* relatedItems := get rel (related propNames) in
  match relatedItems with
  | JSArray items =>
      let* values := mapM (fun item => get item "value") items in
      Ok (existsb (fun v => strict_eq_number v id) values)
  | _ =>
      let* v := get relatedItems "value" in
      Ok (strict_eq_number v id)
  end.

Definition getRelated (rel : JSValue) (propNames : pName) (IDs : list JSValue)
    : Result (list JSValue) :=
  let* element := get rel (relating propNames) in
  match element with
  | JSArray items =>
      foldM (fun IDs ele => let* v := get ele "value" in Ok (IDs ++ [v])) items IDs
  | _ =>
      let* v := get element "value" in
      Ok (IDs ++ [v])
  end.

(** The loop shared by the two variants of [getAllRelatedItemsOfType]. *)
Definition collectRelated (id : Z) (propNames : pName) (IDs : list JSValue) (rel : JSValue)
    : Result (list JSValue) :=
  let* isRel := isRelated id rel propNames in
  if isRel then getRelated rel propNames IDs else Ok IDs.

Definition getAllRelatedItemsOfTypeJSON (modelID : Z) (id : Z) (propNames : pName)
    : Result (list JSValue) :=
  let* lines := getAllItemsOfTypeJSON modelID (name propNames) true in
  foldM (collectRelated id propNames) lines [].

Definition getAllRelatedItemsOfTypeWebIfcAPI (modelID : Z) (id : Z) (propNames : pName)
    : Result (list JSValue) :=
  let* lines := await (GetLineIDsWithType (api state) modelID (name propNames)) in
  foldM (fun IDs line =>
           let* rel := await (GetLine (api state) modelID (JSNumber line) false) in
           collectRelated id propNames IDs rel)
        lines [].

Definition getPropertyJSON (fuel : nat) (modelID : Z) (elementID : Z) (recursive : bool)
    (propName : pName) : Result (list JSValue) :=
  let* resultIDs := getAllRelatedItemsOfTypeJSON modelID elementID propName in
  let* result := getItemsByIDJSON modelID resultIDs in
  if recursive then
    let* resolved := mapM (getJSONReferencesRecursively fuel modelID) result in
    Ok (map JSObject resolved)
  else Ok (map JSObject result).

Definition getPropertyWebIfcAPI (modelID : Z) (elementID : Z) (recursive : bool)
    (propName : pName) : Result (list JSValue) :=
  let* propSetIds := getAllRelatedItemsOfTypeWebIfcAPI modelID elementID propName in
  mapM (fun id => await (GetLine (api state) modelID id recursive)) propSetIds.

Definition getAllItemsOfTypeWebIfcAPI (modelID : Z) (type : Z) (verbose : bool)
    : Result (list JSValue) :=
  let* lines := await (GetLineIDsWithType (api state) modelID type) in
  let items := map JSNumber lines in
  if negb verbose then Ok items
  else mapM (fun item => await (GetLine (api state) modelID item false)) items.

Definition getAllItemsOfType (modelID : Z) (type : Z) (verbose : bool) : Result (list JSValue) :=
  if useJSON state then getAllItemsOfTypeJSON modelID type verbose
  else getAllItemsOfTypeWebIfcAPI modelID type verbose.

Definition getProperty (fuel : nat) (modelID elementID : Z) (recursive : bool) (propName : pName)
    : Result (list JSValue) :=
  if useJSON state then getPropertyJSON fuel modelID elementID recursive propName
  else getPropertyWebIfcAPI modelID elementID recursive propName.

Definition getPropertySets (fuel : nat) (modelID elementID : Z) (recursive : bool) :=
  getProperty fuel modelID elementID recursive (psets (PropsNames env)).

Definition getTypeProperties (fuel : nat) (modelID elementID : Z) (recursive : bool) :=
  getProperty fuel modelID elementID recursive (type_ (PropsNames env)).

Definition getMaterialsProperties (fuel : nat) (modelID elementID : Z) (recursive : bool) :=
  getProperty fuel modelID elementID recursive (materials (PropsNames env)).

(** *** The spatial structure *)

(** [rel[propNames.related].map(r => r.value)] *)
Definition related_values (relatedItems : JSValue) : Result (list JSValue) :=
  match relatedItems with
  | JSUndefined | JSNull => Throw TypeError
  | JSArray items => mapM (fun r => get r "value") items
  | _ => Throw TypeError      (* [map] is not a function *)
  end.

Definition saveChunk (chunks : Chunks) (propNames : pName) (rel : JSValue) : Result Chunks :=
  let* relatingItem := get rel (relating propNames) in
  let* relatingValue := get relatingItem "value" in
  let* relatedItems := get rel (related propNames) in
  let* relatedValues := related_values relatedItems in
  match chunks !! toPropertyKey relatingValue with
  | None => Ok (<[toPropertyKey relatingValue := relatedValues]> chunks)
  | Some existing =>
      Ok (<[toPropertyKey relatingValue := existing ++ relatedValues]> chunks)
  end.

Definition getChunksJSON (modelID : Z) (chunks : Chunks) (propNames : pName) : Result Chunks :=
  let* relation := getAllItemsOfTypeJSON modelID (name propNames) true in
  foldM (fun chunks rel => saveChunk chunks propNames rel) relation chunks.

Definition getChunksWebIfcAPI (modelID : Z) (chunks : Chunks) (propNames : pName)
    : Result Chunks :=
  let* relation := await (GetLineIDsWithType (api state) modelID (name propNames)) in
  foldM (fun chunks line =>
           let* rel := await (GetLine (api state) modelID (JSNumber line) false) in
           saveChunk chunks propNames rel)
        relation chunks.

Definition getSpatialTreeChunks (modelID : Z) : Result Chunks :=
  let treeChunks : Chunks := ∅ in
  if useJSON state then
    let* treeChunks := getChunksJSON modelID treeChunks (aggregates (PropsNames env)) in
    getChunksJSON modelID treeChunks (spatial (PropsNames env))
  else
    let* treeChunks := getChunksWebIfcAPI modelID treeChunks (aggregates (PropsNames env)) in
    getChunksWebIfcAPI modelID treeChunks (spatial (PropsNames env)).

Definition getNodeType (modelID : Z) (id : JSValue) : Result JSValue :=
  let* m := getModel modelID in
  if useJSON state then
    match jsonData_get (jsonData m) id with
    | Some record => Ok (lookup_prop "type" record)
    | None => Throw TypeError
    end
  else
    match types m !! toPropertyKey id with
    | Some typeID =>
        Ok (match IfcElements env !! typeID with
            | Some typeName => JSString typeName
            | None => JSUndefined
            end)
    | None => Ok JSUndefined
    end.

Definition newNode (modelID : Z) (id : JSValue) : Result Node :=
  let* typeName := getNodeType modelID id in
  Ok {| expressID := id; type := typeName; children := [] |}.

Definition newIfcProject (id : JSValue) : Node :=
  {| expressID := id; type := JSString "IFCPROJECT"; children := [] |}.

(** [node[prop] = nodes], for the keys of [Node] that hold nodes. *)
Definition set_nodes (prop : string) (nodes : list Node) (node : Node) : Node :=
  if String.eqb prop "children"
  then {| expressID := expressID node; type := type node; children := nodes |}
  else node.

(** [{ ...node, ...properties }] where [properties] is the promise that the
    [async] method [getItemProperties] returns, which is not awaited: a
    promise has no own enumerable property, and what it settles to, value or
    exception, is not observed. *)
Definition spread_promise {A} (node : Node) (properties : Result A) : Node := node.

(** [self] is [getSpatialNode]. *)
Definition getChildren (self : Node -> Result Node) (modelID : Z) (node : Node)
    (treeChunks : Chunks) (propNames : pName) (includeProperties : bool) : Result Node :=
  match treeChunks !! toPropertyKey (expressID node) with
  | None => Ok node
  | Some childIDs =>
      let* nodes :=
        mapM (fun child =>
                let* node := newNode modelID child in
                let node :=
                  if includeProperties
                  then spread_promise node (getItemProperties modelID (expressID node) false)
                  else node in
                self node)
             childIDs in
      Ok (set_nodes (key propNames) nodes node)
  end.

(** The node is modified in place; the embedding returns it. *)
Fixpoint getSpatialNode (fuel : nat) (modelID : Z) (node : Node) (treeChunks : Chunks)
    (includeProperties : bool) : Result Node :=
  match fuel with
  | O => OutOfFuel
  | S fuel' =>
      let self := fun n => getSpatialNode fuel' modelID n treeChunks includeProperties in
      let* node := getChildren self modelID node treeChunks
                     (aggregates (PropsNames env)) includeProperties in
      getChildren self modelID node treeChunks (spatial (PropsNames env)) includeProperties
  end.

Definition getSpatialStructureJSON (fuel : nat) (modelID : Z) (includeProperties : bool)
    : Result Node :=
  let* chunks := getSpatialTreeChunks modelID in
  let* projects := getAllItemsOfTypeJSON modelID (IFCPROJECT env) false in
  let projectID := default JSUndefined (head projects) in
  let project := newIfcProject projectID in
  getSpatialNode fuel modelID project chunks includeProperties.

Definition getSpatialStructureWebIfcAPI (fuel : nat) (modelID : Z) (includeProperties : bool)
    : Result Node :=
  let* chunks := getSpatialTreeChunks modelID in
  let* allLines := await (GetLineIDsWithType (api state) modelID (IFCPROJECT env)) in
  let projectID := Vector_get allLines 0 in
  let project := newIfcProject projectID in
  getSpatialNode fuel modelID project chunks includeProperties.

Definition getSpatialStructure (fuel : nat) (modelID : Z) (includeProperties : bool)
    : Result Node :=
  if useJSON state then getSpatialStructureJSON fuel modelID includeProperties
  else getSpatialStructureWebIfcAPI fuel modelID includeProperties.

End WithState.
End PropertyManager.

(** ** IFCParser: geometry grouped by material *)

(** The placed geometries that web-ifc hands over. *)
Module WebIfc.

Record Color : Type := { x : PrimFloat.float; y : PrimFloat.float;
                         z : PrimFloat.float; w : PrimFloat.float }.

Record PlacedGeometry : Type := {
  color : Color;
  geometryExpressID : Z
}.

End WebIfc.

Module IFCParser.

(** The fields of the parser: the shared state, the model being loaded, and
    the number of materials constructed so far, from which a new material
    takes its identity. *)
Record Parser : Type := {
  state : IfcState;
  currentModelID : Z;
  constructed : nat
}.

(** Modelled from the spec: [newIntAttr] and [merge] of BaseDefinitions,
    which is not among the sources.  [newIntAttr] wraps the numbers in an
    attribute; [merge] makes one geometry out of several, holding the items
    of every attribute one geometry after the other, so that no vertex is
    lost or repeated, the indices of a geometry shifted by the number of
    vertices before it. *)
Definition newIntAttr (data : list Z) (size : Z) : BufferAttribute :=
  {| array := map Int data; itemSize := size |}.

Definition vertexCount (geometry : BufferGeometry) : Z :=
  match attributes geometry !! "position" with
  | Some position => count position
  | None => 0
  end.

Definition merge2 (a b : BufferGeometry) : BufferGeometry :=
  {| attributes :=
       union_with (fun p q => Some {| array := array p ++ array q; itemSize := itemSize p |})
                  (attributes a) (attributes b);
     index :=
       match index a, index b with
       | Some ia, Some ib => Some (ia ++ map (Z.add (vertexCount a)) ib)
       | _, _ => None
       end |}.

Definition merge (geometries : list BufferGeometry) : BufferGeometry :=
  match geometries with
  | [] => {| attributes := ∅; index := None |}
  | first :: rest => foldl merge2 first rest
  end.

Section WithImports.

Context (env : Imports).
(** [String(n)] for the components of a colour. *)
Context (float_toString : PrimFloat.float -> string).

Definition updateItems (p : Parser) (newItems : gmap string Item) : Result Parser :=
  match models (state p) !! currentModelID p with
  | None => Throw TypeError
  | Some m =>
      let m' := {| modelID := modelID m; items := newItems;
                   types := types m; jsonData := jsonData m |} in
      Ok {| state := {| models := <[currentModelID p := m']> (models (state p));
                        api := api (state p); useJSON := useJSON (state p) |};
            currentModelID := currentModelID p;
            constructed := constructed p |}
  end.

(** [this.state.models[this.currentModelID].items] *)
Definition currentItems (p : Parser) : Result (gmap string Item) :=
  match models (state p) !! currentModelID p with
  | None => Throw TypeError
  | Some m => Ok (items m)
  end.

Definition colorKey (c : WebIfc.Color) : string :=
  (float_toString (WebIfc.x c) ++ float_toString (WebIfc.y c)
   ++ float_toString (WebIfc.z c) ++ float_toString (WebIfc.w c))%string.

Definition createMaterial (p : Parser) (colorID : string) (c : WebIfc.Color) : Result Parser :=
  let* items := currentItems p in
  match items !! colorID with
  | Some _ => Ok p
  | None =>
      let isTransparent := negb (PrimFloat.eqb (WebIfc.w c) PrimFloat.one) in
      let newMaterial :=
        {| ref := constructed p;
           color := (WebIfc.x c, WebIfc.y c, WebIfc.z c);
           transparent := isTransparent;
           opacity := if isTransparent then WebIfc.w c else PrimFloat.one |} in
      let* p' := updateItems p (<[colorID := {| material := newMaterial; geometries := ∅ |}]> items) in
      Ok {| state := state p'; currentModelID := currentModelID p';
            constructed := S (constructed p') |}
  end.

(** The geometry is modified in place; the embedding returns it. *)
Definition storeGeometryAttribute (id : Z) (geometry : BufferGeometry) : Result BufferGeometry :=
  match attributes geometry !! "position" with
  | None => Throw TypeError
  | Some position =>
      let size := count position in
      let idAttribute := replicate (Z.to_nat size) id in
      Ok {| attributes := <[IdAttrName env := newIntAttr idAttribute 1]> (attributes geometry);
            index := index geometry |}
  end.

Definition saveGeometryByMaterial (p : Parser) (geom : BufferGeometry)
    (placedGeom : WebIfc.PlacedGeometry) (id : Z) : Result Parser :=
  let c := WebIfc.color placedGeom in
  let colorID := colorKey c in
  let* geom := storeGeometryAttribute id geom in
  let* p := createMaterial p colorID c in
  let* items := currentItems p in
  match items !! colorID with
  | None => Throw TypeError
  | Some item =>
      let stored :=
        match geometries item !! id with
        | None => geom
        | Some currentGeom => merge [currentGeom; geom]
        end in
      updateItems p (<[colorID := {| material := material item;
                                     geometries := <[id := stored]> (geometries item) |}]> items)
  end.

End WithImports.

(** *** Vertex data *)

(** The object [{ vertices, normals }] that [extractVertexData] returns. *)
Record VertexData (A : Type) : Type := {
  vertices : list A;
  normals : list A
}.
Arguments vertices {A} _.
Arguments normals {A} _.

(** The loop of [extractVertexData] from the index [i] on, over the
    elements that are left. *)
Fixpoint extractVertexData_from {A} (i : nat) (vertexData : list A)
    (vertices normals : list A) (isNormalData : bool) : VertexData A :=
  match vertexData with
  | [] => {| vertices := vertices; normals := normals |}
  | x :: rest =>
      let vertices := if isNormalData then vertices else vertices ++ [x] in
      let normals := if isNormalData then normals ++ [x] else normals in
      let isNormalData :=
        if ((i + 1) mod 3 =? 0)%nat then negb isNormalData else isNormalData in
      extractVertexData_from (S i) rest vertices normals isNormalData
  end.

Definition extractVertexData {A} (vertexData : list A) : VertexData A :=
  extractVertexData_from 0 vertexData [] [] false.

(** *** Opening a model *)


Section WithOpenModel.

(** [state.api.OpenModel(data, state.webIfcSettings)] on the bytes of the
    buffer; [None] is a rejected promise. *)
Context (OpenModel : list Byte.byte -> option Z).


End WithOpenModel.

End IFCParser.

(** * Fixtures

    Small models on which the statements below are exercised. *)

Module Fixture.

Definition IFCRELAGGREGATES : Z := 160246688.
Definition IFCRELCONTAINEDINSPATIALSTRUCTURE : Z := 3242617779.
Definition IFCRELDEFINESBYPROPERTIES : Z := 4186316022.
Definition IFCRELDEFINESBYTYPE : Z := 781010003.
Definition IFCRELASSOCIATESMATERIAL : Z := 2655215786.

Definition names : PropsNamesT := {|
  aggregates := {| name := IFCRELAGGREGATES; relating := "RelatingObject";
                   related := "RelatedObjects"; key := "children" |};
  spatial := {| name := IFCRELCONTAINEDINSPATIALSTRUCTURE; relating := "RelatingStructure";
                related := "RelatedElements"; key := "children" |};
  psets := {| name := IFCRELDEFINESBYPROPERTIES; relating := "RelatingPropertyDefinition";
              related := "RelatedObjects"; key := "hasPsets" |};
  type_ := {| name := IFCRELDEFINESBYTYPE; relating := "RelatingType";
              related := "RelatedObjects"; key := "hasType" |};
  materials := {| name := IFCRELASSOCIATESMATERIAL; relating := "RelatingMaterial";
                  related := "RelatedObjects"; key := "hasMaterial" |}
|}.

Definition env : Imports := {|
  IFCPROJECT := 103090709;
  IfcTypesMap :=
    <[103090709 := "IFCPROJECT"]>
      (<[IFCRELAGGREGATES := "IFCRELAGGREGATES"]>
         (<[IFCRELCONTAINEDINSPATIALSTRUCTURE := "IFCRELCONTAINEDINSPATIALSTRUCTURE"]>
            (<[IFCRELDEFINESBYPROPERTIES := "IFCRELDEFINESBYPROPERTIES"]> ∅)));
  IfcElements := <[103090709 := "IFCPROJECT"]> ∅;
  PropsNames := names;
  IdAttrName := "expressID"
|}.

(** A reference to the record [id], and a record of a type with fields. *)
Definition handle (id : Z) : JSValue :=
  JSObject [("type", JSNumber 5); ("value", JSNumber id)].

Definition record (typeName : string) (fields : JSONObject) : JSONObject :=
  ("type", JSString typeName) :: fields.

(** An API that knows no line. *)
Definition emptyAPI : WebIfcAPI :=
  {| GetLineIDsWithType := fun _ _ => Some []; GetLine := fun _ _ _ => None |}.

Definition jsonState (data : list (Z * JSONObject)) : IfcState :=
  {| models := {[ 0 := {| modelID := 0; items := ∅; types := ∅; jsonData := data |} ]};
     api := emptyAPI;
     useJSON := true |}.

Definition apiState (a : WebIfcAPI) : IfcState :=
  {| models := {[ 0 := {| modelID := 0; items := ∅; types := ∅; jsonData := [] |} ]};
     api := a;
     useJSON := false |}.

(** A project with a site and a wall; the wall is aggregated by the project
    and also contained in it. *)
Definition building : list (Z * JSONObject) :=
  [ (1, record "IfcProject" []);
    (2, record "IfcSite" []);
    (3, record "IfcWall" []);
    (7, record "IfcRelAggregates"
          [("RelatingObject", handle 1); ("RelatedObjects", JSArray [handle 2; handle 3])]);
    (8, record "IfcRelContainedInSpatialStructure"
          [("RelatingStructure", handle 1); ("RelatedElements", JSArray [handle 3])]);
    (9, record "IfcRelContainedInSpatialStructure"
          [("RelatingStructure", handle 2); ("RelatedElements", JSArray [handle 3])]) ].

(** A geometry without index and without attribute. *)
Definition bareGeometry : BufferGeometry := {| attributes := ∅; index := None |}.

End Fixture.

(** * Notions used in the statements *)

(** The record has the type name, read as [filterJSONItemsByType] reads it. *)
Definition record_has_type (typeName : string) (record : JSONObject) : Prop :=
  exists s, lookup_prop "type" record = JSString s /\ toUpperCase s = typeName.

(** The record of the model stored under the id, when its type name can be
    read, is of the type. *)
Definition is_type (data : list (Z * JSONObject)) (typeName : string) (id : Z) : bool :=
  match PropertyManager.type_toUpperCase (PropertyManager.jsonData_get data (JSNumber id)) with
  | Ok t => String.eqb t typeName
  | _ => false
  end.

(** What [filterJSONItemsByType] pushes for an id. *)
Definition item_of (data : list (Z * JSONObject)) (verbose : bool) (id : Z) : JSValue :=
  if verbose then JSObject (PropertyManager.spread (PropertyManager.jsonData_get data (JSNumber id)))
  else JSNumber id.

(** The type name of every record of the model can be read. *)
Definition all_typed (data : list (Z * JSONObject)) : Prop :=
  Forall (fun id => exists t,
            PropertyManager.type_toUpperCase (PropertyManager.jsonData_get data (JSNumber id))
            = Ok t)
         (map fst data).

(** More models: without project, with two projects, with a cycle, and with
    a relation whose related field is a single reference. *)
Module Fixture2.
Import Fixture.

Definition noProject : list (Z * JSONObject) :=
  [ (2, record "IfcSite" []);
    (3, record "IfcWall" []);
    (9, record "IfcRelContainedInSpatialStructure"
          [("RelatingStructure", handle 2); ("RelatedElements", JSArray [handle 3])]) ].

Definition twoProjects : list (Z * JSONObject) :=
  [ (2, record "IfcSite" []);
    (4, record "IfcProject" []);
    (6, record "IfcProject" []);
    (7, record "IfcRelAggregates"
          [("RelatingObject", handle 4); ("RelatedObjects", JSArray [handle 2])]) ].

(** The project aggregates the site and the site aggregates the project. *)
Definition cycle : list (Z * JSONObject) :=
  [ (1, record "IfcProject" []);
    (2, record "IfcSite" []);
    (7, record "IfcRelAggregates"
          [("RelatingObject", handle 1); ("RelatedObjects", JSArray [handle 2])]);
    (8, record "IfcRelAggregates"
          [("RelatingObject", handle 2); ("RelatedObjects", JSArray [handle 1])]) ].

Definition singleRelated : list (Z * JSONObject) :=
  [ (1, record "IfcProject" []);
    (2, record "IfcSite" []);
    (7, record "IfcRelAggregates"
          [("RelatingObject", handle 1); ("RelatedObjects", handle 2)]) ].

(** The chunks of a JSON model, empty when they cannot be built. *)
Definition chunksOf (data : list (Z * JSONObject)) : Chunks :=
  match PropertyManager.getSpatialTreeChunks env (jsonState data) 0 with
  | Ok chunks => chunks
  | _ => ∅
  end.

Definition modelOf (data : list (Z * JSONObject)) : IfcModel :=
  {| modelID := 0; items := ∅; types := ∅; jsonData := data |}.

(** An API with two project lines and no relation. *)
Definition projectsAPI : WebIfcAPI :=
  {| GetLineIDsWithType := fun _ type => if Z.eqb type 103090709 then Some [4; 6] else Some [];
     GetLine := fun _ _ _ => None |}.

End Fixture2.

(** ** Relations, as the statements read them *)

(** [v[key]] where it can be read, [undefined] elsewhere. *)
Definition field (v : JSValue) (key : string) : JSValue :=
  match get v key with
  | Ok x => x
  | _ => JSUndefined
  end.

(** Neither [undefined] nor [null]: a value whose properties can be read. *)
Definition defined (v : JSValue) : Prop := v <> JSUndefined /\ v <> JSNull.

(** The chunk under which a relation is saved, and the ids that it adds. *)
Definition relating_key (propNames : pName) (rel : JSValue) : string :=
  toPropertyKey (field (field rel (relating propNames)) "value").

Definition related_ids (propNames : pName) (rel : JSValue) : list JSValue :=
  match field rel (related propNames) with
  | JSArray items => map (fun r => field r "value") items
  | _ => []
  end.

(** A relation whose relating field is a reference and whose related field
    is an array of references. *)
Definition well_formed_relation (propNames : pName) (rel : JSValue) : Prop :=
  defined rel
  /\ defined (field rel (relating propNames))
  /\ exists items, field rel (related propNames) = JSArray items /\ Forall defined items.

(** The relations saved under a key, in the order of the records, and the
    chunk that they make: their related ids one relation after the other;
    no chunk when no relation is saved under the key. *)
Definition relations_of (propNames : pName) (rels : list JSValue) (k : string) : list JSValue :=
  List.filter (fun rel => String.eqb (relating_key propNames rel) k) rels.

Definition chunk_of (propNames : pName) (rels : list JSValue) (k : string)
    : option (list JSValue) :=
  match relations_of propNames rels k with
  | [] => None
  | matching => Some (concat (map (related_ids propNames) matching))
  end.

(** A chunk extended by the chunk of further relations. *)
Definition append_chunk (existing added : option (list JSValue)) : option (list JSValue) :=
  match existing, added with
  | None, _ => added
  | Some ids, None => Some ids
  | Some ids, Some more => Some (ids ++ more)
  end.

(** Two relations that aggregate under the same project. *)
Module Fixture3.
Import Fixture.

Definition aggregatesSite : JSONObject :=
  record "IfcRelAggregates"
    [("RelatingObject", handle 1); ("RelatedObjects", JSArray [handle 2])].

Definition aggregatesBuildings : JSONObject :=
  record "IfcRelAggregates"
    [("RelatingObject", handle 1); ("RelatedObjects", JSArray [handle 3; handle 4])].

Definition twoRelations : list (Z * JSONObject) :=
  [ (1, record "IfcProject" []);
    (2, record "IfcSite" []);
    (3, record "IfcBuilding" []);
    (4, record "IfcBuilding" []);
    (7, aggregatesSite);
    (8, aggregatesBuildings) ].

End Fixture3.

(** ** The spatial tree, as the statements read it *)

(** [m] is a node of the tree under [n], [n] included. *)
Inductive subnode : Node -> Node -> Prop :=
| subnode_refl n : subnode n n
| subnode_child m c n : c ∈ children n -> subnode m c -> subnode m n.

(** The chunks of one kind of relation, by either variant, added to the
    chunks given; [getSpatialTreeChunks] builds the aggregates, then the
    spatial containment, in one map. *)
Definition getChunks (env : Imports) (state : IfcState) (modelID : Z) (chunks : Chunks)
    (propNames : pName) : Result Chunks :=
  if useJSON state then PropertyManager.getChunksJSON env state modelID chunks propNames
  else PropertyManager.getChunksWebIfcAPI state modelID chunks propNames.

(** The id that [getSpatialStructure] gives to the root. *)
Definition projectID (env : Imports) (state : IfcState) (modelID : Z) : Result JSValue :=
  if useJSON state then
    let* projects := PropertyManager.getAllItemsOfTypeJSON env state modelID (IFCPROJECT env) false in
    Ok (default JSUndefined (head projects))
  else
    let* allLines := await (GetLineIDsWithType (api state) modelID (IFCPROJECT env)) in
    Ok (Vector_get allLines 0).

(** An edge of the chunks, between property keys: the second is the key of
    an id of the chunk of the first. *)
Definition chunk_edge (chunks : Chunks) (parent child : string) : Prop :=
  exists ids id, chunks !! parent = Some ids /\ id ∈ ids /\ toPropertyKey id = child.

(** A cycle of the chunks can be reached from the key. *)
Definition reaches_cycle (chunks : Chunks) (k : string) : Prop :=
  exists k', rtc (chunk_edge chunks) k k' /\ tc (chunk_edge chunks) k' k'.

(** Every path of the chunks from the id has fewer than [depth] nodes. *)
Fixpoint within_depth (chunks : Chunks) (depth : nat) (id : JSValue) : Prop :=
  match depth with
  | O => False
  | S depth' =>
      forall ids, chunks !! toPropertyKey id = Some ids ->
                  Forall (within_depth chunks depth') ids
  end.

(** The type of a node with this id can be read: the model is registered
    and, for the JSON variant, holds a record under the id. *)
Definition node_type_known (state : IfcState) (modelID : Z) (id : JSValue) : Prop :=
  exists m, models state !! modelID = Some m
            /\ (useJSON state = true ->
                is_Some (PropertyManager.jsonData_get (jsonData m) id)).

(** The types of all the ids held by the chunks can be read. *)
Definition chunk_ids_known (state : IfcState) (modelID : Z) (chunks : Chunks) : Prop :=
  forall k ids, chunks !! k = Some ids -> Forall (node_type_known state modelID) ids.

(** The run needs more than any fuel: the recursion has no end. *)
Definition exhausts_every_fuel {A} (run : nat -> Result A) : Prop :=
  forall fuel, run fuel = OutOfFuel.


(** In the tree under [n], the children of every node whose id has a chunk
    are the nodes of the ids of the chunk, in the order of the chunk. *)
Definition children_follow_chunks (chunks : Chunks) (n : Node) : Prop :=
  forall m, subnode m n ->
  forall ids, chunks !! toPropertyKey (expressID m) = Some ids ->
              map expressID (children m) = ids.

(** The chunks of the building. *)
Module Fixture4.

Definition aggregatesChunks : Chunks := {[ "1" := [JSNumber 2; JSNumber 3] ]}.

Definition spatialChunks : Chunks :=
  <["1" := [JSNumber 3]]> {[ "2" := [JSNumber 3] ]}.

Definition treeChunks : Chunks :=
  <["1" := [JSNumber 2; JSNumber 3; JSNumber 3]]> {[ "2" := [JSNumber 3] ]}.

End Fixture4.

(** The chunks of the model with a cycle. *)
Module Fixture5.

Definition cycleChunks : Chunks := <["1" := [JSNumber 2]]> {[ "2" := [JSNumber 1] ]}.

End Fixture5.

(** ** Draw batches, as the statements read them *)

(** A geometry fragment: the geometry of a placed geometry, the placed
    geometry and the express id of its element. *)
Definition Fragment : Type := BufferGeometry * WebIfc.PlacedGeometry * Z.

Definition fragmentKey (float_toString : PrimFloat.float -> string) (f : Fragment) : string :=
  IFCParser.colorKey float_toString (WebIfc.color (snd (fst f))).

(** The calls of [saveGeometryByMaterial] that loading a model makes, one
    for each placed geometry in turn. *)
Definition saveFragments (env : Imports) (float_toString : PrimFloat.float -> string)
    (p : IFCParser.Parser) (fragments : list Fragment) : Result IFCParser.Parser :=
  foldM (fun p f => IFCParser.saveGeometryByMaterial env float_toString p
                      (fst (fst f)) (snd (fst f)) (snd f))
        fragments p.

(** The item, the material and the geometry of an element that the model
    being loaded holds under a colour key. *)
Definition itemOf (p : IFCParser.Parser) (colorID : string) : option Item :=
  match IFCParser.currentItems p with
  | Ok items => items !! colorID
  | _ => None
  end.

Definition materialOf (p : IFCParser.Parser) (colorID : string) : option Material :=
  material <$> itemOf p colorID.

Definition geometryOf (p : IFCParser.Parser) (colorID : string) (id : Z)
    : option BufferGeometry :=
  itemOf p colorID ≫= fun item => geometries item !! id.

(** The position attribute holds whole items of the size. *)
Definition whole_positions (size : Z) (geometry : BufferGeometry) : Prop :=
  exists position,
    attributes geometry !! "position" = Some position
    /\ itemSize position = size
    /\ (size | Z.of_nat (length (array position))).


(** The materials of the model are distinct objects, constructed before. *)
Definition materials_distinct (p : IFCParser.Parser) : Prop :=
  (forall k m, materialOf p k = Some m -> (ref m < IFCParser.constructed p)%nat)
  /\ (forall k1 k2 m1 m2,
        materialOf p k1 = Some m1 -> materialOf p k2 = Some m2 ->
        ref m1 = ref m2 -> k1 = k2).

(** A model being loaded and fragments of two colours. *)
Module Fixture6.

Definition float_toString (f : PrimFloat.float) : string :=
  if PrimFloat.eqb f PrimFloat.one then "1"
  else if PrimFloat.eqb f PrimFloat.zero then "0"
  else "0.5".

Definition red : WebIfc.Color :=
  {| WebIfc.x := PrimFloat.one; WebIfc.y := PrimFloat.zero;
     WebIfc.z := PrimFloat.zero; WebIfc.w := PrimFloat.one |}.

Definition blue : WebIfc.Color :=
  {| WebIfc.x := PrimFloat.zero; WebIfc.y := PrimFloat.zero;
     WebIfc.z := PrimFloat.one; WebIfc.w := PrimFloat.one |}.

Definition placed (c : WebIfc.Color) (geometryID : Z) : WebIfc.PlacedGeometry :=
  {| WebIfc.color := c; WebIfc.geometryExpressID := geometryID |}.

(** One triangle: three vertices of three coordinates. *)
Definition triangle : BufferGeometry :=
  {| attributes :=
       {[ "position" :=
            {| array := [Float PrimFloat.zero; Float PrimFloat.zero; Float PrimFloat.zero;
                         Float PrimFloat.one; Float PrimFloat.zero; Float PrimFloat.zero;
                         Float PrimFloat.zero; Float PrimFloat.one; Float PrimFloat.zero];
               itemSize := 3 |} ]};
     index := Some [0; 1; 2] |}.

Definition parser : IFCParser.Parser :=
  {| IFCParser.state := Fixture.jsonState [];
     IFCParser.currentModelID := 0;
     IFCParser.constructed := 0 |}.

Definition fragments : list Fragment :=
  [ (triangle, placed red 100, 21);
    (triangle, placed blue 101, 22);
    (triangle, placed red 100, 21) ].

Definition loaded : IFCParser.Parser :=
  match saveFragments Fixture.env float_toString parser fragments with
  | Ok p => p
  | _ => parser
  end.

End Fixture6.

(** ** Related records, as the statements read them *)

(** The element id appears in the related field of the relation, a single
    value or an array. *)
Definition related_contains (propNames : pName) (id : Z) (rel : JSValue) : bool :=
  match field rel (related propNames) with
  | JSArray items => existsb (fun item => strict_eq_number (field item "value") id) items
  | single => strict_eq_number (field single "value") id
  end.

(** The ids of the relating field of the relation, a single value or an
    array. *)
Definition relating_values (propNames : pName) (rel : JSValue) : list JSValue :=
  match field rel (relating propNames) with
  | JSArray items => map (fun element => field element "value") items
  | single => [field single "value"]
  end.

(** The ids collected for an element from relations: the relating ids of
    the relations that hold the element, relation after relation. *)
Definition related_to (propNames : pName) (id : Z) (rels : list JSValue) : list JSValue :=
  flat_map (relating_values propNames) (List.filter (related_contains propNames id) rels).

(** The full record of an id: a copy of the record of the model. *)
Definition full_record (data : list (Z * JSONObject)) (id : JSValue) : JSValue :=
  JSObject (PropertyManager.spread (PropertyManager.jsonData_get data id)).

(** The fields of the relation that [isRelated] and [getRelated] read can be
    read without exception. *)
Definition relation_readable (propNames : pName) (id : Z) (rel : JSValue) : Prop :=
  exists isRel, PropertyManager.isRelated id rel propNames = Ok isRel
                /\ (isRel = true -> exists ids, PropertyManager.getRelated rel propNames [] = Ok ids).

(** The state with the records of one model in another order. *)
Definition with_jsonData (state : IfcState) (model : Z) (data : list (Z * JSONObject))
    : IfcState :=
  {| models := alter (fun m => {| modelID := modelID m; items := items m;
                                  types := types m; jsonData := data |})
                     model (models state);
     api := api state;
     useJSON := useJSON state |}.

(** A wall and a slab with property sets, and a property set that refers to
    its properties. *)
Module Fixture7.
Import Fixture.

Definition wallProperties : JSONObject :=
  record "IfcPropertySet"
    [("Name", JSObject [("type", JSNumber 1); ("value", JSString "Pset_WallCommon")]);
     ("HasProperties", JSArray [handle 22; handle 23])].

Definition sharedProperties : JSONObject :=
  record "IfcPropertySet"
    [("Name", JSObject [("type", JSNumber 1); ("value", JSString "Pset_Shared")]);
     ("HasProperties", JSArray [])].

Definition loadBearing : JSONObject :=
  record "IfcPropertySingleValue"
    [("Name", JSObject [("type", JSNumber 1); ("value", JSString "LoadBearing")]);
     ("Unit", JSNull)].

Definition fireRating : JSONObject :=
  record "IfcPropertySingleValue"
    [("Name", JSObject [("type", JSNumber 1); ("value", JSString "FireRating")]);
     ("Unit", handle 24)].

Definition unit : JSONObject :=
  record "IfcSIUnit" [("Name", JSObject [("type", JSNumber 3); ("value", JSString "METRE")])].

Definition definesWall : JSONObject :=
  record "IfcRelDefinesByProperties"
    [("RelatedObjects", JSArray [handle 3]);
     ("RelatingPropertyDefinition", handle 20)].

Definition definesBoth : JSONObject :=
  record "IfcRelDefinesByProperties"
    [("RelatedObjects", JSArray [handle 4; handle 3]);
     ("RelatingPropertyDefinition", handle 21)].

Definition definesSlab : JSONObject :=
  record "IfcRelDefinesByProperties"
    [("RelatedObjects", handle 4);
     ("RelatingPropertyDefinition", JSArray [handle 20; handle 21])].

Definition properties : list (Z * JSONObject) :=
  [ (3, record "IfcWall" []);
    (4, record "IfcSlab" []);
    (20, wallProperties);
    (21, sharedProperties);
    (22, loadBearing);
    (23, fireRating);
    (24, unit);
    (30, definesWall);
    (31, definesBoth);
    (32, definesSlab) ].

(** The same records, the relations first and in the opposite order. *)
Definition reordered : list (Z * JSONObject) :=
  [ (32, definesSlab);
    (31, definesBoth);
    (30, definesWall);
    (3, record "IfcWall" []);
    (4, record "IfcSlab" []);
    (20, wallProperties);
    (21, sharedProperties);
    (22, loadBearing);
    (23, fireRating);
    (24, unit) ].

End Fixture7.

(** ** Resolved references, as the statements read them *)

(** A value of reference type: an object whose [type] is 5. *)
Definition is_reference (v : JSValue) : bool :=
  match v with
  | JSObject props => strict_eq_number (lookup_prop "type" props) 5
  | _ => false
  end.

Definition is_defined (v : JSValue) : bool :=
  match v with
  | JSUndefined | JSNull => false
  | _ => true
  end.

(** The copy of the record that a reference points to. *)
Definition fetch (data : list (Z * JSONObject)) (reference : JSValue) : JSONObject :=
  PropertyManager.spread (PropertyManager.jsonData_get data (field reference "value")).

(** The field is a reference or an array with an element that is one. *)
Definition references_in (v : JSValue) : bool :=
  is_reference v
  || match v with
     | JSArray items => existsb is_reference items
     | _ => false
     end.

(** A field of the record is a reference, or an array that holds one. *)
Definition has_reference_field (record : JSONObject) : bool :=
  existsb (fun key => references_in (lookup_prop key record)) (Object_keys record).

(** An array field of the record holds [undefined] or [null]. *)
Definition has_undefined_element (record : JSONObject) : bool :=
  existsb (fun key => match lookup_prop key record with
                      | JSArray items => existsb (fun item => negb (is_defined item)) items
                      | _ => false
                      end)
          (Object_keys record).

(** The record [out] is the record [raw] with its references resolved:
    an array field is mapped element by element, an element of reference
    type being replaced by the copy of its target, itself resolved; a field
    of reference type is replaced in the same way; every other field and
    element is as it was. *)
Inductive Resolved (data : list (Z * JSONObject)) : JSONObject -> JSONObject -> Prop :=
| Resolved_record raw out :
    map fst out = map fst raw ->
    (forall key, key ∈ Object_keys raw ->
                 ResolvedField data (lookup_prop key raw) (lookup_prop key out)) ->
    Resolved data raw out
with ResolvedField (data : list (Z * JSONObject)) : JSValue -> JSValue -> Prop :=
| ResolvedField_array items outs :
    Forall2 (ResolvedItem data) items outs ->
    ResolvedField data (JSArray items) (JSArray outs)
| ResolvedField_single v out :
    isArray v = false ->
    ResolvedItem data v out ->
    ResolvedField data v out
with ResolvedItem (data : list (Z * JSONObject)) : JSValue -> JSValue -> Prop :=
| ResolvedItem_reference item out :
    is_reference item = true ->
    Resolved data (fetch data item) out ->
    ResolvedItem data item (JSObject out)
| ResolvedItem_other item :
    is_reference item = false ->
    ResolvedItem data item item.

(** The references that can be reached from the record are fewer than
    [depth] deep, and the arrays met on the way hold neither [undefined]
    nor [null]. *)
Fixpoint resolvable_within (data : list (Z * JSONObject)) (depth : nat) (record : JSONObject)
    : Prop :=
  match depth with
  | O => False
  | S depth' =>
      has_undefined_element record = false
      /\ forall key item,
           key ∈ Object_keys record ->
           (item = lookup_prop key record
            \/ exists items, lookup_prop key record = JSArray items /\ item ∈ items) ->
           is_reference item = true ->
           resolvable_within data depth' (fetch data item)
  end.


(** What the expansion does to an element and to a field, [self] resolving
    the records that are fetched. *)
Definition item_step (self : JSONObject -> Result JSONObject) (data : list (Z * JSONObject))
    (item out : JSValue) : Prop :=
  (is_reference item = true
   /\ exists resolved, self (fetch data item) = Ok resolved /\ out = JSObject resolved)
  \/ (is_reference item = false /\ out = item).

Definition field_step (self : JSONObject -> Result JSONObject) (data : list (Z * JSONObject))
    (v out : JSValue) : Prop :=
  match v with
  | JSArray items =>
      exists outs, out = JSArray outs
                   /\ Forall2 (item_step self data) items outs
                   /\ Forall (fun item => is_defined item = true) items
  | _ => item_step self data v out
  end.


(** The records that [getPropertyJSON] fetches for an element, before any
    expansion. *)
Definition related_records (env : Imports) (state : IfcState) (model elementID : Z)
    (propName : pName) : Result (list JSONObject) :=
  let* resultIDs := PropertyManager.getAllRelatedItemsOfTypeJSON env state model elementID
                      propName in
  PropertyManager.getItemsByIDJSON state model resultIDs.

(** A property set whose array of properties holds [null]. *)
Module Fixture8.
Import Fixture.

Definition nullElement : JSONObject :=
  record "IfcPropertySet" [("HasProperties", JSArray [JSNull])].

Definition definesWall : JSONObject :=
  record "IfcRelDefinesByProperties"
    [("RelatedObjects", JSArray [handle 3]);
     ("RelatingPropertyDefinition", handle 20)].

Definition withNull : list (Z * JSONObject) :=
  [ (3, record "IfcWall" []);
    (20, nullElement);
    (30, definesWall) ].

(** The property set of the wall of [Fixture7], resolved. *)
Definition wallPropertiesResolved : JSONObject :=
  record "IfcPropertySet"
    [("Name", JSObject [("type", JSNumber 1); ("value", JSString "Pset_WallCommon")]);
     ("HasProperties",
      JSArray
        [JSObject Fixture7.loadBearing;
         JSObject
           (record "IfcPropertySingleValue"
              [("Name", JSObject [("type", JSNumber 1); ("value", JSString "FireRating")]);
               ("Unit", JSObject Fixture7.unit)])])].

End Fixture8.


(** A reference of the first record, a field or an element of an array
    field, points to the second record. *)
Definition reference_edge (data : list (Z * JSONObject)) (record target : JSONObject) : Prop :=
  exists key item,
    key ∈ Object_keys record
    /\ (item = lookup_prop key record
        \/ exists items, lookup_prop key record = JSArray items /\ item ∈ items)
    /\ is_reference item = true
    /\ target = fetch data item.

(** A cycle of references can be reached from the record. *)
Definition reaches_reference_cycle (data : list (Z * JSONObject)) (record : JSONObject) : Prop :=
  exists record', rtc (reference_edge data) record record'
                  /\ tc (reference_edge data) record' record'.

(** No fuel makes the run return. *)
Definition never_returns {A} (run : nat -> Result A) : Prop :=
  forall fuel a, run fuel <> Ok a.

(** Two records that refer to each other, the first being a property
    definition of the wall. *)
Module Fixture9.
Import Fixture.

Definition first : JSONObject := record "IfcComplexProperty" [("Next", handle 41)].
Definition second : JSONObject := record "IfcComplexProperty" [("Next", handle 40)].

Definition definesWall : JSONObject :=
  record "IfcRelDefinesByProperties"
    [("RelatedObjects", JSArray [handle 3]);
     ("RelatingPropertyDefinition", handle 40)].

Definition cyclic : list (Z * JSONObject) :=
  [ (3, record "IfcWall" []);
    (30, definesWall);
    (40, first);
    (41, second) ].

End Fixture9.

(** ** Vertex data, as the statements read it *)

(** The array that web-ifc hands over for vertices and normals: three
    coordinates of a vertex, the three of its normal, and so on. *)
Fixpoint interleave {A} (vertices normals : list A) : list A :=
  match vertices with
  | a :: b :: c :: vertices' =>
      a :: b :: c :: take 3 normals ++ interleave vertices' (drop 3 normals)
  | short => short
  end.

(** ** The tree of the chunks *)

(** The tree under [n] is the tree of the chunks: the children of every
    node are nodes for the ids of the chunk of its id, in the order of the
    chunk, each of the type that [getNodeType] reads for its id; a node
    whose id has no chunk has no child. *)
Definition tree_of_chunks (env : Imports) (state : IfcState) (modelID : Z) (chunks : Chunks)
    (n : Node) : Prop :=
  forall m, subnode m n ->
    match chunks !! toPropertyKey (expressID m) with
    | Some ids =>
        Forall2 (fun id c => expressID c = id
                             /\ PropertyManager.getNodeType env state modelID id = Ok (type c))
                ids (children m)
    | None => children m = []
    end.

(** The number of levels of the tree under a node. *)
Fixpoint levels (n : Node) : nat :=
  S ((fix deepest (nodes : list Node) : nat :=
        match nodes with
        | [] => O
        | c :: nodes' => Nat.max (levels c) (deepest nodes')
        end) (children n)).

(** ** What the property manager reads of the state *)

(** Two states hold the same records: the same flag, the same API when it
    is the API that is asked, and under every id models with the same JSON
    data and the same types. *)
Definition same_records (s1 s2 : IfcState) : Prop :=
  useJSON s1 = useJSON s2
  /\ (useJSON s1 = false -> api s1 = api s2)
  /\ forall id,
       option_Forall2 (fun m1 m2 => jsonData m1 = jsonData m2 /\ types m1 = types m2)
                      (models s1 !! id) (models s2 !! id).

(** The second parser differs from the first in the items of the model
    being loaded, and in the number of materials constructed, only. *)
Definition items_only (p p' : IFCParser.Parser) : Prop :=
  api (IFCParser.state p') = api (IFCParser.state p)
  /\ useJSON (IFCParser.state p') = useJSON (IFCParser.state p)
  /\ IFCParser.currentModelID p' = IFCParser.currentModelID p
  /\ forall id,
       option_Forall2 (fun m m' => modelID m' = modelID m
                                   /\ types m' = types m
                                   /\ jsonData m' = jsonData m
                                   /\ (id <> IFCParser.currentModelID p -> m' = m))
                      (models (IFCParser.state p) !! id)
                      (models (IFCParser.state p') !! id).

(** A model with a record that has no type, and a model with a property
    set that refers to a record that the model does not hold. *)
Module Fixture10.
Import Fixture.

Definition untyped : list (Z * JSONObject) :=
  [ (1, record "IfcProject" []);
    (2, [("Name", JSString "Site")]) ].

Definition dangling : JSONObject :=
  record "IfcPropertySet"
    [("OwnerHistory", handle 99); ("HasProperties", JSArray [handle 98])].

Definition withDangling : list (Z * JSONObject) :=
  [ (3, record "IfcWall" []);
    (20, dangling) ].

End Fixture10.

(** ** The exceptions of a run *)

(** Every exception that the run can throw is one of [P]. *)
Definition throws_only {A} (P : Exception -> Prop) (r : Result A) : Prop :=
  forall e, r = Throw e -> P e.

(** An API that serves the records of JSON data: the lines of a type are the
    ids of its records, and the line of an id is its record. *)
Module Fixture11.

Definition recordsAPI (data : list (Z * JSONObject)) : WebIfcAPI :=
  {| GetLineIDsWithType := fun _ type =>
       match IfcTypesMap Fixture.env !! type with
       | Some typeName => Some (List.filter (is_type data typeName) (map fst data))
       | None => Some []
       end;
     GetLine := fun _ id _ => JSObject <$> PropertyManager.jsonData_get data id |}.

End Fixture11.

(** A parser that has loaded one model with JSON data, and a web-ifc that
    opens every buffer as its model 0. *)
Module Fixture12.



End Fixture12.

(** A model whose relation names an id, 5, for which it holds no record. *)
Module Fixture13.
Import Fixture.

Definition missingChild : list (Z * JSONObject) :=
  [ (1, record "IfcProject" []);
    (2, record "IfcSite" []);
    (7, record "IfcRelAggregates"
          [("RelatingObject", handle 1); ("RelatedObjects", JSArray [handle 2; handle 5])]) ].

Definition chunks : Chunks := {[ "1" := [JSNumber 2; JSNumber 5] ]}.

End Fixture13.

(** * Properties *)

(** ** The result monad *)

Lemma bind_Ok {A B} (r : Result A) (k : A -> Result B) (b : B) :
  bind r k = Ok b -> exists a, r = Ok a /\ k a = Ok b.
Proof. destruct r; simpl; intros H; try discriminate. eauto. Qed.

Lemma bind_Throw {A B} (r : Result A) (k : A -> Result B) (e : Exception) :
  bind r k = Throw e -> r = Throw e \/ exists a, r = Ok a /\ k a = Throw e.
Proof. destruct r; simpl; intros H; try discriminate; eauto. left. congruence. Qed.

(** Inverts the hypotheses that say a sequence of steps returned. *)
Ltac inv_bind :=
  repeat match goal with
         | H : bind _ _ = Ok _ |- _ =>
             let a := fresh "a" in
             let Ha := fresh "Ha" in
             apply bind_Ok in H; destruct H as (a & Ha & H)
         | H : Ok _ = Ok _ |- _ => injection H as H; try subst
         | H : Throw _ = Ok _ |- _ => discriminate H
         | H : OutOfFuel = Ok _ |- _ => discriminate H
         end.

Lemma mapM_Ok_Forall2 {A B} (f : A -> Result B) (l : list A) (l' : list B) :
  mapM f l = Ok l' <-> Forall2 (fun a b => f a = Ok b) l l'.
Proof.
  split.
  - revert l'. induction l as [|a l IH]; simpl; intros l' H; inv_bind; constructor; auto.
  - induction 1 as [|a b l l' Hab _ IH]; simpl; [done|]. by rewrite Hab, IH.
Qed.

Lemma mapM_total {A B} (f : A -> Result B) (g : A -> B) (l : list A) :
  Forall (fun a => f a = Ok (g a)) l -> mapM f l = Ok (map g l).
Proof. induction 1 as [|a l Ha _ IH]; simpl; [done|]. by rewrite Ha, IH. Qed.

Lemma foldM_app {A S} (f : S -> A -> Result S) (l1 l2 : list A) (s : S) :
  foldM f (l1 ++ l2) s = bind (foldM f l1 s) (foldM f l2).
Proof.
  revert s. induction l1 as [|a l1 IH]; simpl; intros s; [done|].
  destruct (f s a); simpl; auto.
Qed.

(** ** Express id of a face *)

(** With an index but no id attribute, the read of the attribute throws. *)
Lemma getExpressId_reads_attribute env geometry faceIndex geoIndex :
  index geometry = Some geoIndex ->
  attributes geometry !! IdAttrName env = None ->
  PropertyManager.getExpressId env geometry faceIndex = Throw TypeError.
Proof. intros Hi Ha. unfold PropertyManager.getExpressId. by rewrite Hi, Ha. Qed.

(** C10: on a geometry without index buffer [getExpressId] returns
    [undefined]; it neither throws nor reads the id attribute, whatever the
    attributes of the geometry are (none at all included). *)
Theorem getExpressId_no_index env geometry faceIndex :
  index geometry = None ->
  PropertyManager.getExpressId env geometry faceIndex = Ok None.
Proof. intros Hi. unfold PropertyManager.getExpressId. by rewrite Hi. Qed.

Lemma getExpressId_no_index_witness :
  PropertyManager.getExpressId Fixture.env Fixture.bareGeometry 4 = Ok None.
Proof. apply (getExpressId_no_index Fixture.env Fixture.bareGeometry 4). reflexivity. Defined.

(** ** Items of a type *)

Lemma getAllItemsOfTypeJSON_unknown env state modelID type verbose m :
  models state !! modelID = Some m ->
  (forall typeName, IfcTypesMap env !! type = Some typeName -> typeName = "") ->
  PropertyManager.getAllItemsOfTypeJSON env state modelID type verbose
  = Throw (TypeNotFound type).
Proof.
  intros Hm Hty. unfold PropertyManager.getAllItemsOfTypeJSON, PropertyManager.getModel.
  rewrite Hm. simpl. destruct (IfcTypesMap env !! type) as [typeName|]; [|done].
  by rewrite (Hty typeName eq_refl).
Qed.

Lemma getAllItemsOfTypeWebIfcAPI_Throw state modelID type verbose e :
  PropertyManager.getAllItemsOfTypeWebIfcAPI state modelID type verbose = Throw e ->
  e = Rejected.
Proof.
  unfold PropertyManager.getAllItemsOfTypeWebIfcAPI.
  destruct (GetLineIDsWithType (api state) modelID type) as [lines|]; simpl;
    [|intros H; congruence].
  destruct verbose; simpl; [|discriminate].
  generalize (map JSNumber lines). intros items. revert e.
  induction items as [|item items IH]; simpl; intros e; [discriminate|].
  destruct (GetLine (api state) modelID item false); simpl; [|congruence].
  destruct (mapM _ items) eqn:Hrest; simpl; try discriminate.
  intros H. apply IH. congruence.
Qed.

(** C7, as the code has it: a type id without type name makes the JSON
    variant throw [Type not found], the [UnknownType] of the specification.
    The variant that queries the API never consults the type names: it
    returns the line ids that the API gives for the type id, and the only
    exception it lets through is a rejection of the API. *)
Theorem getAllItemsOfType_unknown_type env state modelID type verbose :
  IfcTypesMap env !! type = None ->
  (useJSON state = true ->
   forall m, models state !! modelID = Some m ->
   PropertyManager.getAllItemsOfType env state modelID type verbose
   = Throw (TypeNotFound type)
   /\ classify (TypeNotFound type) = Some UnknownType)
  /\ (useJSON state = false ->
      (forall lines, GetLineIDsWithType (api state) modelID type = Some lines ->
       PropertyManager.getAllItemsOfType env state modelID type false
       = Ok (map JSNumber lines))
      /\ (forall e, PropertyManager.getAllItemsOfType env state modelID type verbose = Throw e ->
          classify e = Some UpstreamFailure)).
Proof.
  intros Hty. unfold PropertyManager.getAllItemsOfType. split.
  - intros -> m Hm. split; [|done].
    apply getAllItemsOfTypeJSON_unknown with m; [done|]. intros n Hn. congruence.
  - intros ->. split.
    + intros lines Hl. unfold PropertyManager.getAllItemsOfTypeWebIfcAPI. by rewrite Hl.
    + intros e He. by rewrite (getAllItemsOfTypeWebIfcAPI_Throw _ _ _ _ _ He).
Qed.

Lemma getAllItemsOfType_unknown_type_witness :
  PropertyManager.getAllItemsOfType Fixture.env (Fixture.jsonState Fixture.building) 0 99 true
  = Throw (TypeNotFound 99)
  /\ PropertyManager.getAllItemsOfType Fixture.env (Fixture.apiState Fixture.emptyAPI) 0 99 false
     = Ok [].
Proof.
  split.
  - exact (proj1 (proj1 (getAllItemsOfType_unknown_type Fixture.env
                           (Fixture.jsonState Fixture.building) 0 99 true eq_refl)
                        eq_refl _ eq_refl)).
  - exact (proj1 (proj2 (getAllItemsOfType_unknown_type Fixture.env
                           (Fixture.apiState Fixture.emptyAPI) 0 99 false eq_refl)
                        eq_refl) [] eq_refl).
Defined.

(** The claim C7 fails on the variant that queries the API: type id 99 has
    no type name, and the request returns the empty list of lines. *)
Lemma getAllItemsOfType_api_no_UnknownType :
  IfcTypesMap Fixture.env !! 99 = None
  /\ PropertyManager.getAllItemsOfType Fixture.env (Fixture.apiState Fixture.emptyAPI) 0 99 false
     = Ok [].
Proof. split; reflexivity. Qed.

(** ** The records of a model *)

Lemma Number_toString_inj (a b : Z) : Number_toString a = Number_toString b -> a = b.
Proof.
  unfold Number_toString. intros H.
  assert (Hnn : forall n, Z.to_int n <> Decimal.Pos Decimal.Nil
                          /\ Z.to_int n <> Decimal.Neg Decimal.Nil).
  { intros [|p|p]; simpl; split; try discriminate; intros [= Hp];
      by apply DecimalPos.Unsigned.to_uint_nonnil in Hp. }
  apply (f_equal NilZero.int_of_string) in H.
  rewrite !NilZero.isi in H by apply Hnn.
  injection H as H. apply (f_equal Z.of_int) in H. by rewrite !DecimalZ.of_to in H.
Qed.

Lemma jsonData_get_elem data id record :
  PropertyManager.jsonData_get data id = Some record ->
  exists n, (n, record) ∈ data /\ Number_toString n = toPropertyKey id.
Proof.
  induction data as [|[n r] data IH]; simpl; [discriminate|].
  destruct (String.eqb_spec (Number_toString n) (toPropertyKey id)) as [Heq|Hne].
  - intros [= <-]. exists n. split; [left|done].
  - intros H. destruct (IH H) as (n' & Hin & Hn'). exists n'. split; [by right|done].
Qed.

(** A record is found under any value that names its key. *)
Lemma jsonData_get_key data id n :
  Number_toString n = toPropertyKey id ->
  PropertyManager.jsonData_get data id = PropertyManager.jsonData_get data (JSNumber n).
Proof.
  intros Hn. induction data as [|[n' r] data IH]; simpl; [done|].
  change (toPropertyKey (JSNumber n)) with (Number_toString n). by rewrite IH, Hn.
Qed.

Lemma jsonData_get_app_r pre post k :
  k ∉ map fst pre ->
  PropertyManager.jsonData_get (pre ++ post) (JSNumber k)
  = PropertyManager.jsonData_get post (JSNumber k).
Proof.
  induction pre as [|[n r] pre IH]; simpl; intros Hk; [done|].
  apply not_elem_of_cons in Hk as [Hne Hk].
  destruct (String.eqb_spec (Number_toString n) (toPropertyKey (JSNumber k))) as [Heq|_].
  - apply Number_toString_inj in Heq. congruence.
  - by apply IH.
Qed.

Lemma jsonData_get_head k record post :
  PropertyManager.jsonData_get ((k, record) :: post) (JSNumber k) = Some record.
Proof.
  simpl. change (toPropertyKey (JSNumber k)) with (Number_toString k).
  by rewrite String.eqb_refl.
Qed.

Lemma jsonData_get_unique data k record :
  NoDup (map fst data) -> (k, record) ∈ data ->
  PropertyManager.jsonData_get data (JSNumber k) = Some record.
Proof.
  intros Hnd Hin. apply list_elem_of_split in Hin as (pre & post & ->).
  rewrite map_app in Hnd. simpl in Hnd. apply NoDup_app in Hnd as (_ & Hdisj & _).
  rewrite jsonData_get_app_r; [apply jsonData_get_head|].
  intros Hk. apply (Hdisj k Hk). left.
Qed.

(** The keys under which a record is stored find a record of the model. *)
Lemma jsonData_get_stored data k :
  k ∈ map fst data ->
  exists record, PropertyManager.jsonData_get data (JSNumber k) = Some record
                 /\ (exists n, (n, record) ∈ data).
Proof.
  intros Hk. induction data as [|[n r] data IH]; simpl in *; [by apply elem_of_nil in Hk|].
  destruct (String.eqb_spec (Number_toString n) (toPropertyKey (JSNumber k))) as [Heq|Hne].
  - exists r. split; [done|]. exists n. left.
  - apply elem_of_cons in Hk as [->|Hk]; [done|].
    destruct (IH Hk) as (r' & Hr' & n' & Hin). exists r'. split; [done|].
    exists n'. by right.
Qed.

(** ** Items of a type, JSON variant *)

Lemma filter_fold_Ok {A B T} (g : A -> Result T) (p : T -> bool) (h : A -> B)
    (ks : list A) (acc r : list B) :
  foldM (fun result k => let* t := g k in
                         if p t then Ok (result ++ [h k]) else Ok result) ks acc = Ok r ->
  Forall (fun k => exists t, g k = Ok t) ks
  /\ r = acc ++ map h (List.filter (fun k => match g k with Ok t => p t | _ => false end) ks).
Proof.
  revert acc. induction ks as [|k ks IH]; simpl; intros acc H.
  - inv_bind. by rewrite app_nil_r.
  - apply bind_Ok in H as (acc' & Hstep & H). apply bind_Ok in Hstep as (t & Ht & Hstep).
    rewrite Ht. destruct (p t) eqn:Hp; injection Hstep as <-.
    + apply IH in H as [Hall ->]. split; [constructor; eauto|]. simpl. by rewrite <- app_assoc.
    + apply IH in H as [Hall ->]. split; [constructor; eauto|done].
Qed.

Lemma filter_fold_total {A B T} (g : A -> Result T) (p : T -> bool) (h : A -> B)
    (ks : list A) (acc : list B) :
  Forall (fun k => exists t, g k = Ok t) ks ->
  foldM (fun result k => let* t := g k in
                         if p t then Ok (result ++ [h k]) else Ok result) ks acc
  = Ok (acc ++ map h (List.filter (fun k => match g k with Ok t => p t | _ => false end) ks)).
Proof.
  intros Hall. revert acc. induction Hall as [|k ks [t Ht] _ IH]; simpl; intros acc.
  - by rewrite app_nil_r.
  - rewrite Ht. simpl. destruct (p t); simpl; rewrite IH; simpl; [by rewrite <- app_assoc|done].
Qed.

Lemma filterJSONItemsByType_Ok data typeName verbose r :
  PropertyManager.filterJSONItemsByType data typeName verbose = Ok r ->
  all_typed data
  /\ r = map (item_of data verbose) (List.filter (is_type data typeName) (map fst data)).
Proof.
  unfold PropertyManager.filterJSONItemsByType. intros H.
  apply (filter_fold_Ok
           (fun k => PropertyManager.type_toUpperCase
                       (PropertyManager.jsonData_get data (JSNumber k)))
           (fun t => String.eqb t typeName) (item_of data verbose)) in H.
  exact H.
Qed.

Lemma filterJSONItemsByType_total data typeName verbose :
  all_typed data ->
  PropertyManager.filterJSONItemsByType data typeName verbose
  = Ok (map (item_of data verbose) (List.filter (is_type data typeName) (map fst data))).
Proof.
  intros Hall. unfold PropertyManager.filterJSONItemsByType.
  exact (filter_fold_total
           (fun k => PropertyManager.type_toUpperCase
                       (PropertyManager.jsonData_get data (JSNumber k)))
           (fun t => String.eqb t typeName) (item_of data verbose) _ [] Hall).
Qed.

Lemma getAllItemsOfTypeJSON_Ok env state modelID type verbose r :
  PropertyManager.getAllItemsOfTypeJSON env state modelID type verbose = Ok r ->
  exists m typeName,
    models state !! modelID = Some m
    /\ IfcTypesMap env !! type = Some typeName
    /\ all_typed (jsonData m)
    /\ r = map (item_of (jsonData m) verbose)
               (List.filter (is_type (jsonData m) typeName) (map fst (jsonData m))).
Proof.
  unfold PropertyManager.getAllItemsOfTypeJSON, PropertyManager.getModel. intros H.
  destruct (models state !! modelID) as [m|]; [|discriminate]. simpl in H.
  destruct (IfcTypesMap env !! type) as [typeName|]; [|discriminate].
  destruct (negb _); [discriminate|].
  apply filterJSONItemsByType_Ok in H as [Hall ->]. by exists m, typeName.
Qed.

Lemma getAllItemsOfTypeJSON_total env state modelID type verbose m typeName :
  models state !! modelID = Some m ->
  IfcTypesMap env !! type = Some typeName ->
  typeName <> "" ->
  all_typed (jsonData m) ->
  PropertyManager.getAllItemsOfTypeJSON env state modelID type verbose
  = Ok (map (item_of (jsonData m) verbose)
            (List.filter (is_type (jsonData m) typeName) (map fst (jsonData m)))).
Proof.
  intros Hm Hty Hne Hall.
  unfold PropertyManager.getAllItemsOfTypeJSON, PropertyManager.getModel.
  rewrite Hm. simpl. rewrite Hty.
  destruct (String.eqb_spec typeName "") as [->|_]; [done|]. simpl.
  by apply filterJSONItemsByType_total.
Qed.

Lemma jsonData_get_app_l pre post id record :
  PropertyManager.jsonData_get pre id = Some record ->
  PropertyManager.jsonData_get (pre ++ post) id = Some record.
Proof.
  induction pre as [|[n r] pre IH]; simpl; [discriminate|].
  destruct (String.eqb _ _); [done|]. apply IH.
Qed.

Lemma is_type_record data typeName k record :
  PropertyManager.jsonData_get data (JSNumber k) = Some record ->
  is_type data typeName k = true <-> record_has_type typeName record.
Proof.
  intros Hget. unfold is_type, record_has_type, PropertyManager.type_toUpperCase.
  rewrite Hget. split.
  - destruct (lookup_prop "type" record) as [| | | |s| |]; try discriminate.
    intros H. apply String.eqb_eq in H. eauto.
  - intros (s & -> & <-). apply String.eqb_refl.
Qed.

Lemma filter_is_type_none data typeName keys :
  Forall (fun entry => ~ record_has_type typeName (snd entry)) data ->
  List.filter (is_type data typeName) keys = [].
Proof.
  intros Hnone. induction keys as [|k keys IH]; simpl; [done|].
  destruct (is_type data typeName k) eqn:Hk; [|done]. exfalso.
  destruct (PropertyManager.jsonData_get data (JSNumber k)) as [record|] eqn:Hget.
  - apply (is_type_record _ typeName) in Hget as Hiff. apply Hiff in Hk.
    apply jsonData_get_elem in Hget as (n & Hin & _).
    rewrite Forall_forall in Hnone. by apply (Hnone _ Hin).
  - unfold is_type in Hk. by rewrite Hget in Hk.
Qed.

(** The first record of the type, in the order of the records, is the first
    item that [filterJSONItemsByType] returns. *)
Lemma filter_is_type_first pre k record post typeName :
  NoDup (map fst (pre ++ (k, record) :: post)) ->
  Forall (fun entry => ~ record_has_type typeName (snd entry)) pre ->
  record_has_type typeName record ->
  exists rest,
    List.filter (is_type (pre ++ (k, record) :: post) typeName)
                (map fst (pre ++ (k, record) :: post)) = k :: rest.
Proof.
  intros Hnd Hpre Hrec. set (data := pre ++ (k, record) :: post) in *.
  assert (Hk : is_type data typeName k = true).
  { apply (is_type_record data typeName k record); [|done].
    apply jsonData_get_unique; [done|]. apply elem_of_app. right. left. }
  assert (Hnone : forall keys, Forall (fun k' => k' ∈ map fst pre) keys ->
                               List.filter (is_type data typeName) keys = []).
  { intros keys Hkeys. induction Hkeys as [|k' keys Hk' _ IH]; simpl; [done|].
    destruct (is_type data typeName k') eqn:Hty; [|done]. exfalso.
    destruct (jsonData_get_stored pre k' Hk') as (r' & Hget & n' & Hin).
    apply (jsonData_get_app_l _ ((k, record) :: post)) in Hget.
    apply (is_type_record data typeName k' r' Hget) in Hty.
    rewrite Forall_forall in Hpre. by apply (Hpre _ Hin). }
  unfold data at 2. rewrite map_app, List.filter_app. simpl. rewrite Hk.
  rewrite Hnone; [eauto|]. by apply Forall_forall.
Qed.

(** ** The root of the spatial structure *)

Lemma getChunksJSON_all_typed env state modelID chunks propNames chunks' m :
  models state !! modelID = Some m ->
  PropertyManager.getChunksJSON env state modelID chunks propNames = Ok chunks' ->
  all_typed (jsonData m).
Proof.
  intros Hm H. unfold PropertyManager.getChunksJSON in H.
  apply bind_Ok in H as (relation & Hrel & _).
  apply getAllItemsOfTypeJSON_Ok in Hrel as (m' & typeName & Hm' & _ & Hall & _).
  congruence.
Qed.

Lemma getSpatialTreeChunks_all_typed env state modelID chunks m :
  useJSON state = true ->
  models state !! modelID = Some m ->
  PropertyManager.getSpatialTreeChunks env state modelID = Ok chunks ->
  all_typed (jsonData m).
Proof.
  intros Hjson Hm H. unfold PropertyManager.getSpatialTreeChunks in H. rewrite Hjson in H.
  apply bind_Ok in H as (chunks1 & H1 & _). by eapply getChunksJSON_all_typed.
Qed.

(** A node whose id has no chunk is left as it is. *)
Lemma getSpatialNode_leaf env state fuel modelID node (treeChunks : Chunks) includeProperties :
  treeChunks !! toPropertyKey (expressID node) = None ->
  PropertyManager.getSpatialNode env state (S fuel) modelID node treeChunks includeProperties
  = Ok node.
Proof.
  intros Hnone. simpl. unfold PropertyManager.getChildren. rewrite Hnone. simpl.
  by rewrite Hnone.
Qed.

Lemma getSpatialStructureJSON_root env state fuel modelID includeProperties chunks m typeName :
  PropertyManager.getSpatialTreeChunks env state modelID = Ok chunks ->
  useJSON state = true ->
  models state !! modelID = Some m ->
  IfcTypesMap env !! IFCPROJECT env = Some typeName ->
  typeName <> "" ->
  PropertyManager.getSpatialStructureJSON env state fuel modelID includeProperties
  = PropertyManager.getSpatialNode env state fuel modelID
      (PropertyManager.newIfcProject
         (default JSUndefined
            (head (map JSNumber (List.filter (is_type (jsonData m) typeName)
                                             (map fst (jsonData m)))))))
      chunks includeProperties.
Proof.
  intros Hchunks Hjson Hm Hty Hne. unfold PropertyManager.getSpatialStructureJSON.
  rewrite Hchunks. simpl.
  rewrite (getAllItemsOfTypeJSON_total env state modelID (IFCPROJECT env) false m typeName);
    try done.
  by eapply getSpatialTreeChunks_all_typed.
Qed.

(** C3, as the code has it.  No [MissingRoot] is raised: without a record of
    the project type the root is a project node whose express id is
    [undefined], returned without children; with several, the root is the
    first in the order of the records (of the lines, for the API), in every
    run. *)
Theorem getSpatialStructure_root env state modelID includeProperties chunks :
  PropertyManager.getSpatialTreeChunks env state modelID = Ok chunks ->
  (useJSON state = true ->
   forall m typeName,
     models state !! modelID = Some m ->
     IfcTypesMap env !! IFCPROJECT env = Some typeName ->
     typeName <> "" ->
     (Forall (fun entry => ~ record_has_type typeName (snd entry)) (jsonData m) ->
      chunks !! "undefined" = None ->
      forall fuel,
        PropertyManager.getSpatialStructure env state (S fuel) modelID includeProperties
        = Ok (PropertyManager.newIfcProject JSUndefined))
     /\ (forall pre k record post,
           jsonData m = pre ++ (k, record) :: post ->
           NoDup (map fst (jsonData m)) ->
           Forall (fun entry => ~ record_has_type typeName (snd entry)) pre ->
           record_has_type typeName record ->
           forall fuel,
             PropertyManager.getSpatialStructure env state fuel modelID includeProperties
             = PropertyManager.getSpatialNode env state fuel modelID
                 (PropertyManager.newIfcProject (JSNumber k)) chunks includeProperties))
  /\ (useJSON state = false ->
      forall lines,
        GetLineIDsWithType (api state) modelID (IFCPROJECT env) = Some lines ->
        (lines = [] ->
         chunks !! "undefined" = None ->
         forall fuel,
           PropertyManager.getSpatialStructure env state (S fuel) modelID includeProperties
           = Ok (PropertyManager.newIfcProject JSUndefined))
        /\ (forall k rest,
              lines = k :: rest ->
              forall fuel,
                PropertyManager.getSpatialStructure env state fuel modelID includeProperties
                = PropertyManager.getSpatialNode env state fuel modelID
                    (PropertyManager.newIfcProject (JSNumber k)) chunks includeProperties)).
Proof.
  intros Hchunks. unfold PropertyManager.getSpatialStructure. split.
  - intros Hjson m typeName Hm Hty Hne. rewrite Hjson.
    split.
    + intros Hnone Hundef fuel.
      rewrite (getSpatialStructureJSON_root _ _ _ _ _ chunks m typeName) by done.
      rewrite filter_is_type_none by done. simpl.
      by apply getSpatialNode_leaf.
    + intros pre k record post Hdata Hnd Hpre Hrec fuel.
      rewrite (getSpatialStructureJSON_root _ _ _ _ _ chunks m typeName) by done.
      rewrite Hdata in *.
      destruct (filter_is_type_first pre k record post typeName Hnd Hpre Hrec) as [rest ->].
      done.
  - intros Hapi lines Hlines. rewrite Hapi.
    unfold PropertyManager.getSpatialStructureWebIfcAPI. rewrite Hchunks, Hlines. simpl.
    split.
    + intros -> Hundef fuel. by apply getSpatialNode_leaf.
    + by intros k rest -> fuel.
Qed.

Lemma getSpatialStructure_root_witness :
  PropertyManager.getSpatialStructure Fixture.env (Fixture.jsonState Fixture2.noProject) 1 0 false
  = Ok (PropertyManager.newIfcProject JSUndefined)
  /\ PropertyManager.getSpatialStructure Fixture.env (Fixture.jsonState Fixture2.twoProjects)
       3 0 false
     = PropertyManager.getSpatialNode Fixture.env (Fixture.jsonState Fixture2.twoProjects) 3 0
         (PropertyManager.newIfcProject (JSNumber 4)) (Fixture2.chunksOf Fixture2.twoProjects)
         false
  /\ PropertyManager.getSpatialStructure Fixture.env (Fixture.apiState Fixture2.projectsAPI)
       3 0 false
     = PropertyManager.getSpatialNode Fixture.env (Fixture.apiState Fixture2.projectsAPI) 3 0
         (PropertyManager.newIfcProject (JSNumber 4)) ∅ false.
Proof.
  assert (Hsite : ~ record_has_type "IFCPROJECT" (Fixture.record "IfcSite" [])).
  { intros (s & Hs & Hup). simpl in Hs. injection Hs as <-. vm_compute in Hup. discriminate. }
  assert (Hwall : ~ record_has_type "IFCPROJECT" (Fixture.record "IfcWall" [])).
  { intros (s & Hs & Hup). simpl in Hs. injection Hs as <-. vm_compute in Hup. discriminate. }
  split; [|split].
  - refine (proj1 (proj1 (getSpatialStructure_root Fixture.env
                            (Fixture.jsonState Fixture2.noProject) 0 false
                            (Fixture2.chunksOf Fixture2.noProject) _)
                         eq_refl (Fixture2.modelOf Fixture2.noProject) "IFCPROJECT"
                         eq_refl eq_refl _) _ _ 0%nat).
    + vm_compute. reflexivity.
    + discriminate.
    + repeat constructor; simpl; try assumption.
      intros (s & Hs & Hup). simpl in Hs. injection Hs as <-. vm_compute in Hup. discriminate.
    + vm_compute. reflexivity.
  - refine (proj2 (proj1 (getSpatialStructure_root Fixture.env
                            (Fixture.jsonState Fixture2.twoProjects) 0 false
                            (Fixture2.chunksOf Fixture2.twoProjects) _)
                         eq_refl (Fixture2.modelOf Fixture2.twoProjects) "IFCPROJECT"
                         eq_refl eq_refl _)
                  [(2, Fixture.record "IfcSite" [])] 4 (Fixture.record "IfcProject" []) _
                  eq_refl _ _ _ 3%nat).
    + vm_compute. reflexivity.
    + discriminate.
    + apply (bool_decide_unpack _). vm_compute. exact I.
    + repeat constructor; simpl; assumption.
    + exists "IfcProject". split; [reflexivity|]. vm_compute. reflexivity.
  - refine (proj2 (proj2 (getSpatialStructure_root Fixture.env
                            (Fixture.apiState Fixture2.projectsAPI) 0 false ∅ _)
                         eq_refl [4; 6] eq_refl) 4 [6] eq_refl 3%nat).
    vm_compute. reflexivity.
Defined.

(** The claim C3 fails on a model without project: no error is raised, the
    root is a project node whose express id is [undefined]. *)
Lemma getSpatialStructure_no_MissingRoot :
  PropertyManager.getAllItemsOfTypeJSON Fixture.env (Fixture.jsonState Fixture2.noProject) 0
    (IFCPROJECT Fixture.env) false = Ok []
  /\ PropertyManager.getSpatialStructure Fixture.env (Fixture.jsonState Fixture2.noProject)
       1 0 false
     = Ok {| expressID := JSUndefined; type := JSString "IFCPROJECT"; children := [] |}.
Proof. split; vm_compute; reflexivity. Qed.

(** ** Chunks of relations *)

Lemma get_defined v k : defined v -> get v k = Ok (field v k).
Proof. intros [Hu Hn]. unfold field. by destruct v. Qed.

Lemma get_Ok_field v k x : get v k = Ok x -> x = field v k.
Proof. intros H. unfold field. by rewrite H. Qed.

Lemma get_Ok_defined v k x : get v k = Ok x -> defined v.
Proof. destruct v; simpl; intros H; try discriminate; by split. Qed.

Lemma mapM_get_value items values :
  mapM (fun r => get r "value") items = Ok values ->
  values = map (fun r => field r "value") items /\ Forall defined items.
Proof.
  revert values. induction items as [|r items IH]; simpl; intros values H.
  - by injection H as <-.
  - apply bind_Ok in H as (v & Hv & H). apply bind_Ok in H as (vs & Hvs & H).
    injection H as <-. destruct (IH _ Hvs) as [-> Hall]. split.
    + by rewrite (get_Ok_field _ _ _ Hv).
    + constructor; [by eapply get_Ok_defined|done].
Qed.

Lemma mapM_get_value_total items :
  Forall defined items ->
  mapM (fun r => get r "value") items = Ok (map (fun r => field r "value") items).
Proof. intros Hall. apply mapM_total. eapply Forall_impl; [done|]. intros r. apply get_defined. Qed.

(** What a relation that can be read adds to the chunks. *)
Lemma saveChunk_Ok (chunks chunks' : Chunks) propNames rel :
  PropertyManager.saveChunk chunks propNames rel = Ok chunks' ->
  well_formed_relation propNames rel
  /\ chunks' = <[relating_key propNames rel :=
                   default [] (chunks !! relating_key propNames rel)
                   ++ related_ids propNames rel]> chunks.
Proof.
  unfold PropertyManager.saveChunk. intros H.
  apply bind_Ok in H as (relatingItem & H1 & H).
  apply bind_Ok in H as (relatingValue & H2 & H).
  apply bind_Ok in H as (relatedItems & H3 & H).
  apply bind_Ok in H as (relatedValues & H4 & H).
  pose proof (get_Ok_defined _ _ _ H1) as Hrel.
  pose proof (get_Ok_defined _ _ _ H2) as Hrelating.
  apply get_Ok_field in H1 as ->. apply get_Ok_field in H2 as ->.
  apply get_Ok_field in H3 as ->.
  unfold PropertyManager.related_values in H4.
  destruct (field rel (related propNames)) as [| | | | |items|] eqn:Hrelated; try discriminate.
  apply mapM_get_value in H4 as [-> Hitems].
  fold (relating_key propNames rel) in H.
  assert (Hids : related_ids propNames rel = map (fun r => field r "value") items).
  { unfold related_ids. by rewrite Hrelated. }
  rewrite <- Hids in H. split.
  - split; [done|]. split; [done|]. eauto.
  - destruct (chunks !! relating_key propNames rel); simpl; congruence.
Qed.

Lemma saveChunk_total (chunks : Chunks) propNames rel :
  well_formed_relation propNames rel ->
  PropertyManager.saveChunk chunks propNames rel
  = Ok (<[relating_key propNames rel :=
            default [] (chunks !! relating_key propNames rel)
            ++ related_ids propNames rel]> chunks).
Proof.
  intros (Hrel & Hrelating & items & Hrelated & Hitems).
  unfold PropertyManager.saveChunk.
  rewrite (get_defined rel) by done. simpl.
  rewrite (get_defined (field rel (relating propNames))) by done. simpl.
  rewrite (get_defined rel) by done. simpl.
  rewrite Hrelated. simpl. rewrite mapM_get_value_total by done. simpl.
  fold (relating_key propNames rel).
  unfold related_ids. rewrite Hrelated.
  by destruct (chunks !! relating_key propNames rel).
Qed.

Lemma chunk_of_cons propNames rel rels k :
  chunk_of propNames (rel :: rels) k
  = if String.eqb (relating_key propNames rel) k
    then Some (related_ids propNames rel
               ++ default [] (chunk_of propNames rels k))
    else chunk_of propNames rels k.
Proof.
  unfold chunk_of, relations_of. simpl.
  destruct (String.eqb _ _); [|done]. simpl.
  destruct (List.filter _ rels); simpl; [by rewrite app_nil_r|done].
Qed.

(** The chunks after a sequence of relations: under every key, the ids that
    were there followed by the related ids of the relations saved under the
    key, in their order. *)
Lemma saveChunk_fold_Ok propNames rels (chunks chunks' : Chunks) :
  foldM (fun chunks rel => PropertyManager.saveChunk chunks propNames rel) rels chunks
  = Ok chunks' ->
  Forall (well_formed_relation propNames) rels
  /\ forall k, chunks' !! k = append_chunk (chunks !! k) (chunk_of propNames rels k).
Proof.
  revert chunks. induction rels as [|rel rels IH]; simpl; intros chunks H.
  - injection H as <-. split; [done|]. intros k. by destruct (chunks !! k).
  - apply bind_Ok in H as (chunks1 & Hsave & H).
    apply saveChunk_Ok in Hsave as [Hwf ->].
    apply IH in H as [Hall Hk]. split; [by constructor|].
    intros k. rewrite Hk, chunk_of_cons.
    destruct (String.eqb_spec (relating_key propNames rel) k) as [->|Hne].
    + rewrite lookup_insert_eq.
      destruct (chunks !! k), (chunk_of propNames rels k); simpl;
        by rewrite ?app_nil_r, ?app_assoc.
    + by rewrite lookup_insert_ne.
Qed.

Lemma saveChunk_fold_total propNames rels (chunks : Chunks) :
  Forall (well_formed_relation propNames) rels ->
  exists chunks',
    foldM (fun chunks rel => PropertyManager.saveChunk chunks propNames rel) rels chunks
    = Ok chunks'.
Proof.
  intros Hall. revert chunks. induction Hall as [|rel rels Hwf _ IH]; simpl; intros chunks.
  - eauto.
  - rewrite saveChunk_total by done. simpl. apply IH.
Qed.

(** C4, as the code has it: over relation records whose relating field is a
    reference and whose related field is an array of references, building
    the chunks raises no error and leaves, under the key of every relating
    id, the ids that were there followed by the related ids of the relations
    of that relating id, in the order of the records; several relations may
    add to one key; without relation the chunks are unchanged, so that the
    empty input yields the empty map. *)
Theorem getChunksJSON_appends env state modelID propNames rels (chunks : Chunks) :
  PropertyManager.getAllItemsOfTypeJSON env state modelID (name propNames) true = Ok rels ->
  Forall (well_formed_relation propNames) rels ->
  exists chunks',
    PropertyManager.getChunksJSON env state modelID chunks propNames = Ok chunks'
    /\ (forall k, chunks' !! k = append_chunk (chunks !! k) (chunk_of propNames rels k))
    /\ (rels = [] -> chunks' = chunks)
    /\ (rels = [] -> chunks = ∅ -> chunks' = ∅).
Proof.
  intros Hrels Hwf. unfold PropertyManager.getChunksJSON. rewrite Hrels. simpl.
  destruct (saveChunk_fold_total propNames rels chunks Hwf) as [chunks' Hfold].
  exists chunks'. split; [done|]. split; [by apply saveChunk_fold_Ok|].
  split; intros ->; simpl in Hfold; congruence.
Qed.

Lemma getChunksJSON_appends_witness :
  exists chunks',
    PropertyManager.getChunksJSON Fixture.env (Fixture.jsonState Fixture3.twoRelations) 0 ∅
      (aggregates Fixture.names) = Ok chunks'
    /\ chunks' !! "1" = Some [JSNumber 2; JSNumber 3; JSNumber 4]
    /\ chunks' !! "2" = None.
Proof.
  destruct (getChunksJSON_appends Fixture.env (Fixture.jsonState Fixture3.twoRelations) 0
              (aggregates Fixture.names)
              [JSObject Fixture3.aggregatesSite; JSObject Fixture3.aggregatesBuildings] ∅)
    as (chunks' & Hrun & Hk & _).
  - vm_compute. reflexivity.
  - repeat constructor; try discriminate;
      (eexists; split; [reflexivity|]; repeat constructor; discriminate).
  - exists chunks'. split; [exact Hrun|]. split; rewrite Hk; vm_compute; reflexivity.
Defined.

(** The claim C4 fails on a relation whose related field is a single
    reference: [saveChunk] calls [map] on it. *)
Lemma getChunksJSON_single_reference_throws :
  PropertyManager.getAllItemsOfTypeJSON Fixture.env (Fixture.jsonState Fixture2.singleRelated) 0
    (name (aggregates Fixture.names)) true
  = Ok [JSObject (Fixture.record "IfcRelAggregates"
                    [("RelatingObject", Fixture.handle 1);
                     ("RelatedObjects", Fixture.handle 2)])]
  /\ PropertyManager.getChunksJSON Fixture.env (Fixture.jsonState Fixture2.singleRelated) 0 ∅
       (aggregates Fixture.names)
     = Throw TypeError.
Proof. split; vm_compute; reflexivity. Qed.

(** ** The spatial tree *)

Lemma mapM_exists {A B} (f : A -> Result B) (l : list A) :
  Forall (fun a => exists b, f a = Ok b) l -> exists l', mapM f l = Ok l'.
Proof.
  induction 1 as [|a l [b Hb] _ [l' IH]]; simpl; [eauto|].
  rewrite Hb, IH. simpl. eauto.
Qed.

Lemma set_nodes_expressID prop nodes node :
  expressID (PropertyManager.set_nodes prop nodes node) = expressID node.
Proof. unfold PropertyManager.set_nodes. by destruct (String.eqb _ _). Qed.

Lemma newNode_Ok env state modelID id n :
  PropertyManager.newNode env state modelID id = Ok n ->
  expressID n = id /\ children n = [].
Proof.
  unfold PropertyManager.newNode. intros H. apply bind_Ok in H as (t & _ & H).
  by injection H as <-.
Qed.

Lemma newNode_total env state modelID id :
  node_type_known state modelID id ->
  exists n, PropertyManager.newNode env state modelID id = Ok n.
Proof.
  intros (m & Hm & Hjson).
  unfold PropertyManager.newNode, PropertyManager.getNodeType, PropertyManager.getModel.
  rewrite Hm. simpl. destruct (useJSON state).
  - destruct (Hjson eq_refl) as [record ->]. simpl. eauto.
  - destruct (types m !! toPropertyKey id); simpl; eauto.
Qed.

(** The two outcomes of [getChildren] that return. *)
Lemma getChildren_Ok env state self modelID node (chunks : Chunks) propNames
    includeProperties node' :
  PropertyManager.getChildren env state self modelID node chunks propNames includeProperties
  = Ok node' ->
  (chunks !! toPropertyKey (expressID node) = None /\ node' = node)
  \/ (exists ids nodes,
        chunks !! toPropertyKey (expressID node) = Some ids
        /\ Forall2 (fun id n => exists n0,
                      PropertyManager.newNode env state modelID id = Ok n0
                      /\ self n0 = Ok n) ids nodes
        /\ node' = PropertyManager.set_nodes (key propNames) nodes node).
Proof.
  unfold PropertyManager.getChildren.
  destruct (chunks !! toPropertyKey (expressID node)) as [ids|]; intros H.
  - right. apply bind_Ok in H as (nodes & Hmap & H). injection H as <-.
    exists ids, nodes. split; [done|]. split; [|done].
    apply mapM_Ok_Forall2 in Hmap. eapply Forall2_impl; [done|].
    intros id n Hn. simpl in Hn. apply bind_Ok in Hn as (n0 & Hn0 & Hn).
    exists n0. split; [done|].
    unfold PropertyManager.spread_promise in Hn. by destruct includeProperties.
  - left. by injection H as <-.
Qed.

Lemma getChildren_expressID env state self modelID node (chunks : Chunks) propNames
    includeProperties node' :
  PropertyManager.getChildren env state self modelID node chunks propNames includeProperties
  = Ok node' ->
  expressID node' = expressID node.
Proof.
  intros H. apply getChildren_Ok in H as [[_ ->]|(ids & nodes & _ & _ & ->)]; [done|].
  apply set_nodes_expressID.
Qed.

Lemma subnode_leaf m n : children n = [] -> subnode m n -> m = n.
Proof.
  intros Hn Hsub. destruct Hsub as [|m c n Hc _]; [done|].
  rewrite Hn in Hc. by apply elem_of_nil in Hc.
Qed.

(** The children of the tree that [getSpatialNode] builds are the ids of the
    chunks, node after node. *)
Lemma getSpatialNode_children env state fuel modelID node (chunks : Chunks)
    includeProperties node' :
  key (spatial (PropsNames env)) = "children" ->
  children node = [] ->
  PropertyManager.getSpatialNode env state fuel modelID node chunks includeProperties
  = Ok node' ->
  expressID node' = expressID node /\ children_follow_chunks chunks node'.
Proof.
  intros Hkey. revert node node'.
  induction fuel as [|fuel IH]; intros node node' Hleaf H; [discriminate|].
  simpl in H. apply bind_Ok in H as (node1 & H1 & H2).
  pose proof (getChildren_expressID _ _ _ _ _ _ _ _ _ H1) as Hid1.
  pose proof (getChildren_expressID _ _ _ _ _ _ _ _ _ H2) as Hid2.
  split; [congruence|].
  apply getChildren_Ok in H2 as [[Hnone ->]|(ids & nodes & Hids & Hnodes & ->)].
  - rewrite Hid1 in Hnone.
    apply getChildren_Ok in H1 as [[_ ->]|(ids & nodes & Hids & _)]; [|congruence].
    intros m Hm ids Hids. apply (subnode_leaf _ _ Hleaf) in Hm as ->. congruence.
  - rewrite Hkey. unfold PropertyManager.set_nodes. simpl.
    assert (Hall : Forall2 (fun id n => expressID n = id /\ children_follow_chunks chunks n)
                           ids nodes).
    { eapply Forall2_impl; [done|]. intros id n (n0 & Hn0 & Hn). simpl in Hn.
      apply newNode_Ok in Hn0 as [<- Hn0]. by apply IH. }
    intros m Hm ids' Hids'. inversion Hm as [|m' c n' Hc Hmc]; subst.
    + simpl in *. rewrite Hids in Hids'. injection Hids' as <-.
      clear -Hall. induction Hall as [|id n ids nodes [Hn _] _ IHall]; simpl; [done|].
      by rewrite Hn, IHall.
    + simpl in Hc. apply list_elem_of_lookup in Hc as [i Hi].
      destruct (Forall2_lookup_r _ _ _ _ _ Hall Hi) as (id & _ & _ & Hfollow).
      by apply Hfollow.
Qed.

(** Enough fuel builds the tree under a node from which the chunks have a
    bounded depth, when the types of the ids can be read. *)
Lemma getSpatialNode_total env state depth modelID node (chunks : Chunks) includeProperties :
  chunk_ids_known state modelID chunks ->
  within_depth chunks depth (expressID node) ->
  exists node',
    PropertyManager.getSpatialNode env state depth modelID node chunks includeProperties
    = Ok node'.
Proof.
  intros Hknown. revert node. induction depth as [|depth IH]; intros node Hdepth; [done|].
  simpl in Hdepth.
  assert (Hchildren : forall n propNames, expressID n = expressID node ->
            exists n', PropertyManager.getChildren env state
                         (fun n0 => PropertyManager.getSpatialNode env state depth modelID n0
                                      chunks includeProperties)
                         modelID n chunks propNames includeProperties = Ok n').
  { intros n propNames Hn. unfold PropertyManager.getChildren. rewrite Hn.
    destruct (chunks !! toPropertyKey (expressID node)) as [ids|] eqn:Hids; [|eauto].
    match goal with
    | |- context [mapM ?f ids] => destruct (mapM_exists f ids) as [nodes Hnodes]
    end.
    - pose proof (Hknown _ _ Hids) as Hk. pose proof (Hdepth _ eq_refl) as Hd.
      rewrite Forall_forall in Hk, Hd. apply Forall_forall. intros id Hid.
      destruct (newNode_total env state modelID id (Hk _ Hid)) as [n0 Hn0].
      simpl. rewrite Hn0. simpl. apply newNode_Ok in Hn0 as [Hid0 _].
      unfold PropertyManager.spread_promise.
      destruct includeProperties; apply IH; rewrite Hid0; by apply Hd.
    - rewrite Hnodes. simpl. eauto. }
  simpl. destruct (Hchildren node (aggregates (PropsNames env)) eq_refl) as [node1 H1].
  rewrite H1. simpl. apply Hchildren. by eapply getChildren_expressID.
Qed.

Lemma foldM_bind_mapM {A B S} (g : A -> Result B) (f : S -> B -> Result S)
    (l : list A) (s s' : S) :
  foldM (fun s a => let* b := g a in f s b) l s = Ok s' ->
  exists bs, mapM g l = Ok bs /\ foldM f bs s = Ok s'.
Proof.
  revert s. induction l as [|a l IH]; simpl; intros s H.
  - exists []. by split.
  - apply bind_Ok in H as (s1 & Hstep & H). apply bind_Ok in Hstep as (b & Hb & Hstep).
    destruct (IH _ H) as (bs & Hbs & Hfold). exists (b :: bs).
    rewrite Hb, Hbs. simpl. by rewrite Hstep.
Qed.

(** The chunks of one kind of relation are those of a list of relations that
    can all be read, whatever the chunks they are added to. *)
Lemma getChunks_Ok env state modelID (chunks chunks' : Chunks) propNames :
  getChunks env state modelID chunks propNames = Ok chunks' ->
  exists rels,
    Forall (well_formed_relation propNames) rels
    /\ forall (c c' : Chunks),
         getChunks env state modelID c propNames = Ok c' ->
         forall k, c' !! k = append_chunk (c !! k) (chunk_of propNames rels k).
Proof.
  unfold getChunks. destruct (useJSON state).
  - unfold PropertyManager.getChunksJSON. intros H.
    apply bind_Ok in H as (rels & Hrels & H). exists rels. split.
    + by apply saveChunk_fold_Ok in H as [Hwf _].
    + intros c c' Hc. rewrite Hrels in Hc. simpl in Hc.
      by apply saveChunk_fold_Ok in Hc as [_ Hk].
  - unfold PropertyManager.getChunksWebIfcAPI. intros H.
    apply bind_Ok in H as (lines & Hlines & H).
    apply foldM_bind_mapM in H as (rels & Hrels & H). exists rels. split.
    + by apply saveChunk_fold_Ok in H as [Hwf _].
    + intros c c' Hc. rewrite Hlines in Hc. simpl in Hc.
      apply foldM_bind_mapM in Hc as (rels' & Hrels' & Hc).
      rewrite Hrels in Hrels'. injection Hrels' as <-.
      by apply saveChunk_fold_Ok in Hc as [_ Hk].
Qed.

Lemma getSpatialTreeChunks_getChunks env state modelID :
  PropertyManager.getSpatialTreeChunks env state modelID
  = let* chunks := getChunks env state modelID ∅ (aggregates (PropsNames env)) in
    getChunks env state modelID chunks (spatial (PropsNames env)).
Proof.
  unfold PropertyManager.getSpatialTreeChunks, getChunks. by destruct (useJSON state).
Qed.

(** The chunks of the tree hold, under every key, the aggregated ids
    followed by the contained ids. *)
Lemma getSpatialTreeChunks_combined env state modelID
    (chunks aggregatesChunks spatialChunks : Chunks) :
  PropertyManager.getSpatialTreeChunks env state modelID = Ok chunks ->
  getChunks env state modelID ∅ (aggregates (PropsNames env)) = Ok aggregatesChunks ->
  getChunks env state modelID ∅ (spatial (PropsNames env)) = Ok spatialChunks ->
  forall k, chunks !! k = append_chunk (aggregatesChunks !! k) (spatialChunks !! k).
Proof.
  rewrite getSpatialTreeChunks_getChunks. intros H Hagg Hsp k.
  rewrite Hagg in H. simpl in H.
  destruct (getChunks_Ok _ _ _ _ _ _ H) as (rels & _ & Hrels).
  rewrite (Hrels _ _ H k), (Hrels _ _ Hsp k). by rewrite lookup_empty.
Qed.

Lemma getSpatialStructure_projectID env state fuel modelID includeProperties :
  PropertyManager.getSpatialStructure env state fuel modelID includeProperties
  = let* chunks := PropertyManager.getSpatialTreeChunks env state modelID in
    let* id := projectID env state modelID in
    PropertyManager.getSpatialNode env state fuel modelID
      (PropertyManager.newIfcProject id) chunks includeProperties.
Proof.
  unfold PropertyManager.getSpatialStructure, PropertyManager.getSpatialStructureJSON,
    PropertyManager.getSpatialStructureWebIfcAPI, projectID.
  destruct (useJSON state); destruct (PropertyManager.getSpatialTreeChunks _ _ _); simpl;
    try done.
  - by destruct (PropertyManager.getAllItemsOfTypeJSON _ _ _ _ _).
  - by destruct (await _).
Qed.

Lemma map_lookup_Some {A B} (f : A -> B) (l : list A) (i : nat) (b : B) :
  map f l !! i = Some b -> f <$> l !! i = Some b.
Proof.
  revert i. induction l as [|a l IH]; intros [|i]; simpl; try done. apply IH.
Qed.

(** C1: in the tree that [getSpatialStructure] returns, the children of a
    node whose id has a chunk of aggregates and a chunk of spatial
    containment are the aggregated ids, in the order of their chunk,
    followed by the contained ids, in the order of theirs; an id under both
    is a child twice.  The tree is returned, with fuel for its depth, when
    the chunks and the id of the project can be computed, the chunks have a
    bounded depth from the project and the types of their ids can be read. *)
Theorem getSpatialStructure_children env state modelID includeProperties
    (aggregatesChunks spatialChunks : Chunks) :
  key (spatial (PropsNames env)) = "children" ->
  getChunks env state modelID ∅ (aggregates (PropsNames env)) = Ok aggregatesChunks ->
  getChunks env state modelID ∅ (spatial (PropsNames env)) = Ok spatialChunks ->
  (forall chunks rootID depth,
     PropertyManager.getSpatialTreeChunks env state modelID = Ok chunks ->
     projectID env state modelID = Ok rootID ->
     chunk_ids_known state modelID chunks ->
     within_depth chunks depth rootID ->
     exists root,
       PropertyManager.getSpatialStructure env state depth modelID includeProperties = Ok root)
  /\ (forall fuel root,
        PropertyManager.getSpatialStructure env state fuel modelID includeProperties = Ok root ->
        forall node, subnode node root ->
        forall fromAggregates fromSpatial,
          aggregatesChunks !! toPropertyKey (expressID node) = Some fromAggregates ->
          spatialChunks !! toPropertyKey (expressID node) = Some fromSpatial ->
          map expressID (children node) = fromAggregates ++ fromSpatial
          /\ (forall child, child ∈ fromAggregates -> child ∈ fromSpatial ->
              exists i j, (i < j)%nat
                          /\ expressID <$> children node !! i = Some child
                          /\ expressID <$> children node !! j = Some child)).
Proof.
  intros Hkey Hagg Hsp. split.
  - intros chunks rootID depth Hchunks Hroot Hknown Hdepth.
    rewrite getSpatialStructure_projectID, Hchunks, Hroot. simpl.
    by apply getSpatialNode_total.
  - intros fuel root Hrun node Hnode fromAggregates fromSpatial HfromAgg HfromSp.
    rewrite getSpatialStructure_projectID in Hrun.
    apply bind_Ok in Hrun as (chunks & Hchunks & Hrun).
    apply bind_Ok in Hrun as (rootID & Hroot & Hrun).
    apply getSpatialNode_children in Hrun as [_ Hfollow]; [|done..].
    assert (Hids : map expressID (children node) = fromAggregates ++ fromSpatial).
    { apply Hfollow; [done|].
      rewrite (getSpatialTreeChunks_combined _ _ _ _ _ _ Hchunks Hagg Hsp).
      by rewrite HfromAgg, HfromSp. }
    split; [done|]. intros child HinAgg HinSp.
    apply list_elem_of_lookup in HinAgg as [i Hi]. apply list_elem_of_lookup in HinSp as [j Hj].
    exists i, (length fromAggregates + j)%nat.
    pose proof (lookup_lt_Some _ _ _ Hi) as Hlt. split; [lia|].
    split; apply map_lookup_Some; rewrite Hids.
    + by apply lookup_app_l_Some.
    + by rewrite lookup_app_r, Nat.add_comm, Nat.add_sub by lia.
Qed.

Lemma getSpatialStructure_children_witness :
  exists root,
    PropertyManager.getSpatialStructure Fixture.env (Fixture.jsonState Fixture.building)
      3 0 false = Ok root
    /\ map expressID (children root) = [JSNumber 2; JSNumber 3; JSNumber 3].
Proof.
  destruct (getSpatialStructure_children Fixture.env (Fixture.jsonState Fixture.building) 0
              false Fixture4.aggregatesChunks Fixture4.spatialChunks)
    as [Htotal Hchildren]; [reflexivity | vm_compute; reflexivity..|].
  destruct (Htotal Fixture4.treeChunks (JSNumber 1) 3%nat) as [root Hroot].
  - vm_compute. reflexivity.
  - vm_compute. reflexivity.
  - intros k ids Hk. unfold Fixture4.treeChunks in Hk.
    assert (Hknown : forall id, id ∈ [JSNumber 2; JSNumber 3] ->
                       node_type_known (Fixture.jsonState Fixture.building) 0 id).
    { intros id Hid. exists (Fixture2.modelOf Fixture.building). split; [reflexivity|].
      intros _. apply elem_of_cons in Hid as [->|Hid]; [vm_compute; eauto|].
      apply list_elem_of_singleton in Hid as ->. vm_compute. eauto. }
    destruct (decide (k = "1")) as [->|Hne1].
    + rewrite lookup_insert_eq in Hk. injection Hk as <-.
      repeat constructor; apply Hknown; repeat constructor.
    + rewrite lookup_insert_ne in Hk by done.
      apply lookup_singleton_Some in Hk as [_ <-].
      repeat constructor; apply Hknown; repeat constructor.
  - cbn [within_depth]. intros ids1 H1. vm_compute in H1. injection H1 as <-.
    assert (Hwall : forall ids, Fixture4.treeChunks !! toPropertyKey (JSNumber 3) = Some ids ->
                      Forall (within_depth Fixture4.treeChunks 0) ids).
    { intros ids H. vm_compute in H. discriminate. }
    assert (Hsite : forall ids, Fixture4.treeChunks !! toPropertyKey (JSNumber 2) = Some ids ->
                      Forall (within_depth Fixture4.treeChunks 1) ids).
    { intros ids H. vm_compute in H. injection H as <-. repeat constructor. exact Hwall. }
    repeat constructor; try exact Hsite.
    all: intros ids H; vm_compute in H; discriminate.
  - exists root. split; [exact Hroot|].
    vm_compute in Hroot. injection Hroot as <-.
    apply (Hchildren 3%nat _ eq_refl _ (subnode_refl _)
             [JSNumber 2; JSNumber 3] [JSNumber 3] eq_refl eq_refl).
Defined.

(** ** Cycles in the relations *)

Lemma reaches_cycle_step (chunks : Chunks) k :
  reaches_cycle chunks k ->
  exists k', chunk_edge chunks k k' /\ reaches_cycle chunks k'.
Proof.
  assert (Hfirst : forall x y, tc (chunk_edge chunks) x y ->
                     exists z, chunk_edge chunks x z /\ rtc (chunk_edge chunks) z y).
  { intros x y Hxy. destruct Hxy as [x y Hedge|x z y Hedge Hzy].
    - exists y. by split.
    - exists z. split; [done|]. by apply tc_rtc. }
  intros (b & Hpath & Hcycle). destruct Hpath as [k|k c b Hedge Hpath].
  - destruct (Hfirst _ _ Hcycle) as (z & Hedge & Hback).
    exists z. split; [done|]. by exists k.
  - exists c. split; [done|]. by exists b.
Qed.

(** No fuel is enough under a node from which a cycle can be reached:
    [getSpatialNode] has no guard against the ids that it has visited. *)
Lemma getSpatialNode_cycle env state fuel modelID node (chunks : Chunks) includeProperties :
  reaches_cycle chunks (toPropertyKey (expressID node)) ->
  forall node',
    PropertyManager.getSpatialNode env state fuel modelID node chunks includeProperties
    <> Ok node'.
Proof.
  revert node. induction fuel as [|fuel IH]; intros node Hcycle node' H; [discriminate|].
  simpl in H. apply bind_Ok in H as (node1 & H1 & _).
  apply reaches_cycle_step in Hcycle as (k' & (ids & id & Hids & Hid & <-) & Hcycle).
  apply getChildren_Ok in H1 as [[Hnone _]|(ids' & nodes & Hids' & Hnodes & _)]; [congruence|].
  rewrite Hids in Hids'. injection Hids' as <-.
  apply list_elem_of_lookup in Hid as [i Hi].
  destruct (Forall2_lookup_l _ _ _ _ _ Hnodes Hi) as (n & _ & n0 & Hn0 & Hn).
  apply newNode_Ok in Hn0 as [<- _]. by apply IH in Hn.
Qed.

Lemma mapM_Throw {A B} (f : A -> Result B) (l : list A) e :
  mapM f l = Throw e -> exists a, a ∈ l /\ f a = Throw e.
Proof.
  induction l as [|a l IH]; simpl; [discriminate|]. intros H.
  apply bind_Throw in H as [H|(b & Hb & H)].
  - exists a. split; [left|done].
  - apply bind_Throw in H as [H|(bs & _ & H)]; [|discriminate].
    destruct (IH H) as (a' & Hin & Ha'). exists a'. split; [by right|done].
Qed.

(** When the types of the ids can be read, [getSpatialNode] throws nothing. *)
Lemma getSpatialNode_no_Throw env state fuel modelID node (chunks : Chunks)
    includeProperties e :
  chunk_ids_known state modelID chunks ->
  PropertyManager.getSpatialNode env state fuel modelID node chunks includeProperties
  <> Throw e.
Proof.
  intros Hknown. revert node. induction fuel as [|fuel IH]; intros node H; [discriminate|].
  assert (Hchildren : forall n propNames,
            PropertyManager.getChildren env state
              (fun n0 => PropertyManager.getSpatialNode env state fuel modelID n0
                           chunks includeProperties)
              modelID n chunks propNames includeProperties <> Throw e).
  { intros n propNames Hn. unfold PropertyManager.getChildren in Hn.
    destruct (chunks !! toPropertyKey (expressID n)) as [ids|] eqn:Hids; [|discriminate].
    apply bind_Throw in Hn as [Hn|(nodes & _ & Hn)]; [|discriminate].
    apply mapM_Throw in Hn as (id & Hid & Hn). simpl in Hn.
    pose proof (Hknown _ _ Hids) as Hk. rewrite Forall_forall in Hk.
    destruct (newNode_total env state modelID id (Hk _ Hid)) as [n0 Hn0].
    rewrite Hn0 in Hn. simpl in Hn. unfold PropertyManager.spread_promise in Hn.
    destruct includeProperties; by apply IH in Hn. }
  simpl in H. apply bind_Throw in H as [H|(node1 & _ & H)]; by apply Hchildren in H.
Qed.

Lemma classify_not_MalformedHierarchy e : classify e <> Some MalformedHierarchy.
Proof. by destruct e. Qed.

(** The run of [getSpatialStructure] on chunks with a cycle that can be
    reached from the project. *)
Lemma getSpatialStructure_cycle env state modelID includeProperties (chunks : Chunks) rootID :
  PropertyManager.getSpatialTreeChunks env state modelID = Ok chunks ->
  projectID env state modelID = Ok rootID ->
  reaches_cycle chunks (toPropertyKey rootID) ->
  (forall fuel root,
     PropertyManager.getSpatialStructure env state fuel modelID includeProperties <> Ok root)
  /\ (chunk_ids_known state modelID chunks ->
      exhausts_every_fuel
        (fun fuel => PropertyManager.getSpatialStructure env state fuel modelID
                       includeProperties)).
Proof.
  intros Hchunks Hroot Hcycle.
  assert (Hnever : forall fuel root,
            PropertyManager.getSpatialStructure env state fuel modelID includeProperties
            <> Ok root).
  { intros fuel root. rewrite getSpatialStructure_projectID, Hchunks, Hroot. simpl.
    by apply getSpatialNode_cycle. }
  split; [done|]. intros Hknown fuel.
  destruct (PropertyManager.getSpatialStructure env state fuel modelID includeProperties)
    as [root|e|] eqn:Hrun; [by apply Hnever in Hrun| |done].
  rewrite getSpatialStructure_projectID, Hchunks, Hroot in Hrun. simpl in Hrun.
  by apply getSpatialNode_no_Throw in Hrun.
Qed.

(** C2, as the code has it.  The tree builder keeps no record of the ids it
    has visited and raises no [MalformedHierarchy]: when the relations hold
    a cycle that can be reached from the project, no fuel makes
    [getSpatialStructure] return and, the types of the ids being readable,
    it throws nothing either: the recursion goes on until the call stack is
    exhausted. *)
Theorem getSpatialStructure_cycle_unguarded env state modelID includeProperties
    (chunks : Chunks) rootID :
  PropertyManager.getSpatialTreeChunks env state modelID = Ok chunks ->
  projectID env state modelID = Ok rootID ->
  reaches_cycle chunks (toPropertyKey rootID) ->
  (forall fuel root,
     PropertyManager.getSpatialStructure env state fuel modelID includeProperties <> Ok root)
  /\ (forall fuel e,
        PropertyManager.getSpatialStructure env state fuel modelID includeProperties = Throw e ->
        classify e <> Some MalformedHierarchy)
  /\ (chunk_ids_known state modelID chunks ->
      exhausts_every_fuel
        (fun fuel => PropertyManager.getSpatialStructure env state fuel modelID
                       includeProperties)).
Proof.
  intros Hchunks Hroot Hcycle.
  destruct (getSpatialStructure_cycle env state modelID includeProperties chunks rootID)
    as [Hnever Hexhausts]; try done.
  split; [done|]. split; [|done]. intros fuel e _. apply classify_not_MalformedHierarchy.
Qed.

Lemma cycle_fixture_reaches_cycle :
  reaches_cycle Fixture5.cycleChunks (toPropertyKey (JSNumber 1)).
Proof.
  exists "1". split; [apply rtc_refl|].
  apply tc_l with "2"; [|apply tc_once].
  - exists [JSNumber 2], (JSNumber 2). split; [reflexivity|]. split; [left|reflexivity].
  - exists [JSNumber 1], (JSNumber 1). split; [reflexivity|]. split; [left|reflexivity].
Qed.

Lemma cycle_fixture_ids_known :
  chunk_ids_known (Fixture.jsonState Fixture2.cycle) 0 Fixture5.cycleChunks.
Proof.
  intros k ids Hk. unfold Fixture5.cycleChunks in Hk.
  destruct (decide (k = "1")) as [->|Hne].
  - rewrite lookup_insert_eq in Hk. injection Hk as <-. repeat constructor.
    exists (Fixture2.modelOf Fixture2.cycle). split; [reflexivity|]. intros _.
    vm_compute. eauto.
  - rewrite lookup_insert_ne in Hk by done. apply lookup_singleton_Some in Hk as [_ <-].
    repeat constructor.
    exists (Fixture2.modelOf Fixture2.cycle). split; [reflexivity|]. intros _.
    vm_compute. eauto.
Qed.

Lemma cycle_fixture_chunks :
  PropertyManager.getSpatialTreeChunks Fixture.env (Fixture.jsonState Fixture2.cycle) 0
  = Ok Fixture5.cycleChunks
  /\ projectID Fixture.env (Fixture.jsonState Fixture2.cycle) 0 = Ok (JSNumber 1).
Proof. split; vm_compute; reflexivity. Qed.

Lemma getSpatialStructure_cycle_unguarded_witness :
  exhausts_every_fuel
    (fun fuel => PropertyManager.getSpatialStructure Fixture.env
                   (Fixture.jsonState Fixture2.cycle) fuel 0 true)
  /\ classify TypeError <> Some MalformedHierarchy.
Proof.
  destruct (getSpatialStructure_cycle_unguarded Fixture.env (Fixture.jsonState Fixture2.cycle)
              0 true Fixture5.cycleChunks (JSNumber 1)
              (proj1 cycle_fixture_chunks) (proj2 cycle_fixture_chunks)
              cycle_fixture_reaches_cycle) as (_ & _ & Hexhausts).
  split; [exact (Hexhausts cycle_fixture_ids_known)|discriminate].
Defined.

(** The claim C2 fails on the model in which the project aggregates the site
    and the site aggregates the project: whatever the fuel, the run neither
    returns nor throws; no [MalformedHierarchy] is raised. *)
Lemma getSpatialStructure_cycle_never_fails :
  exhausts_every_fuel
    (fun fuel => PropertyManager.getSpatialStructure Fixture.env
                   (Fixture.jsonState Fixture2.cycle) fuel 0 false).
Proof.
  apply (getSpatialStructure_cycle Fixture.env (Fixture.jsonState Fixture2.cycle) 0 false
           Fixture5.cycleChunks (JSNumber 1)).
  - apply cycle_fixture_chunks.
  - apply cycle_fixture_chunks.
  - apply cycle_fixture_reaches_cycle.
  - apply cycle_fixture_ids_known.
Qed.

(** ** Materials and geometries by colour *)

Lemma updateItems_Ok p newItems p' :
  IFCParser.updateItems p newItems = Ok p' ->
  IFCParser.currentItems p' = Ok newItems
  /\ IFCParser.constructed p' = IFCParser.constructed p
  /\ IFCParser.currentModelID p' = IFCParser.currentModelID p.
Proof.
  unfold IFCParser.updateItems, IFCParser.currentItems.
  destruct (models (IFCParser.state p) !! IFCParser.currentModelID p) as [m|];
    [|discriminate].
  intros [= <-]. simpl. by rewrite lookup_insert_eq.
Qed.

Lemma itemOf_currentItems p items colorID :
  IFCParser.currentItems p = Ok items -> itemOf p colorID = items !! colorID.
Proof. intros H. unfold itemOf. by rewrite H. Qed.

Lemma itemOf_constructed p n colorID :
  itemOf {| IFCParser.state := IFCParser.state p;
            IFCParser.currentModelID := IFCParser.currentModelID p;
            IFCParser.constructed := n |} colorID
  = itemOf p colorID.
Proof. done. Qed.

(** [createMaterial] leaves the items that exist and makes, for a key
    without item, an item whose material is a new object. *)
Lemma createMaterial_Ok p colorID c p' :
  IFCParser.createMaterial p colorID c = Ok p' ->
  (forall k item, itemOf p k = Some item -> itemOf p' k = Some item)
  /\ (forall k, k <> colorID -> itemOf p' k = itemOf p k)
  /\ (exists item, itemOf p' colorID = Some item
                   /\ (itemOf p colorID = None ->
                       ref (material item) = IFCParser.constructed p
                       /\ geometries item = ∅))
  /\ (forall item, itemOf p colorID = Some item -> p' = p)
  /\ (itemOf p colorID = None -> IFCParser.constructed p' = S (IFCParser.constructed p)).
Proof.
  unfold IFCParser.createMaterial. intros H.
  apply bind_Ok in H as (items & Hitems & H).
  rewrite !(itemOf_currentItems p items) by done.
  destruct (items !! colorID) as [item|] eqn:Hitem.
  - injection H as <-. rewrite (itemOf_currentItems p items) by done.
    split; [by intros k it; rewrite (itemOf_currentItems p items)|].
    split; [done|]. split; [|split; [done|done]].
    exists item. by rewrite Hitem.
  - apply bind_Ok in H as (p1 & Hp1 & H). injection H as <-.
    apply updateItems_Ok in Hp1 as (Hitems1 & Hcons & _).
    assert (Hk : forall k, itemOf
                   {| IFCParser.state := IFCParser.state p1;
                      IFCParser.currentModelID := IFCParser.currentModelID p1;
                      IFCParser.constructed := S (IFCParser.constructed p1) |} k
                 = <[colorID := {| material :=
                                     {| ref := IFCParser.constructed p;
                                        color := (WebIfc.x c, WebIfc.y c, WebIfc.z c);
                                        transparent :=
                                          negb (PrimFloat.eqb (WebIfc.w c) PrimFloat.one);
                                        opacity :=
                                          if negb (PrimFloat.eqb (WebIfc.w c) PrimFloat.one)
                                          then WebIfc.w c else PrimFloat.one |};
                                   geometries := ∅ |}]> items !! k).
    { intros k. rewrite itemOf_constructed. by apply itemOf_currentItems. }
    simpl. split; [|split; [|split; [|split]]].
    + intros k item. rewrite (itemOf_currentItems p items), Hk by done.
      intros Hitem'. rewrite lookup_insert_ne; [done|]. congruence.
    + intros k Hne. rewrite Hk, (itemOf_currentItems p items) by done.
      by rewrite lookup_insert_ne.
    + eexists. rewrite Hk, lookup_insert_eq. split; [done|]. by intros _.
    + done.
    + intros _. by rewrite Hcons.
Qed.

(** What one call of [saveGeometryByMaterial] leaves in the model. *)
Lemma saveGeometryByMaterial_Ok env float_toString p geom placedGeom id p' :
  IFCParser.saveGeometryByMaterial env float_toString p geom placedGeom id = Ok p' ->
  exists geom' item',
    IFCParser.storeGeometryAttribute env id geom = Ok geom'
    /\ itemOf p' (IFCParser.colorKey float_toString (WebIfc.color placedGeom)) = Some item'
    /\ (forall k, k <> IFCParser.colorKey float_toString (WebIfc.color placedGeom) ->
                  itemOf p' k = itemOf p k)
    /\ match itemOf p (IFCParser.colorKey float_toString (WebIfc.color placedGeom)) with
       | Some item =>
           material item' = material item
           /\ geometries item'
              = <[id := match geometries item !! id with
                        | None => geom'
                        | Some currentGeom => IFCParser.merge [currentGeom; geom']
                        end]> (geometries item)
           /\ IFCParser.constructed p' = IFCParser.constructed p
       | None =>
           ref (material item') = IFCParser.constructed p
           /\ geometries item' = <[id := geom']> ∅
           /\ IFCParser.constructed p' = S (IFCParser.constructed p)
       end.
Proof.
  unfold IFCParser.saveGeometryByMaterial. intros H.
  set (colorID := IFCParser.colorKey float_toString (WebIfc.color placedGeom)) in *.
  apply bind_Ok in H as (geom' & Hgeom & H). apply bind_Ok in H as (p1 & Hp1 & H).
  apply bind_Ok in H as (items1 & Hitems1 & H).
  apply createMaterial_Ok in Hp1 as (Hkept & Hother & (item1 & Hitem1 & Hnew) & Hsame & Hcons).
  rewrite (itemOf_currentItems p1 items1) in Hitem1 by done. rewrite Hitem1 in H.
  apply updateItems_Ok in H as (Hitems' & Hcons' & _).
  exists geom'. eexists. split; [done|].
  rewrite (itemOf_currentItems p' _ colorID Hitems'), lookup_insert_eq. split; [done|]. split.
  - intros k Hne. rewrite (itemOf_currentItems p' _ k Hitems'), lookup_insert_ne by done.
    rewrite <- (itemOf_currentItems p1 items1 k Hitems1). by apply Hother.
  - simpl. destruct (itemOf p colorID) as [item|] eqn:Hitem.
    + pose proof (Hsame _ eq_refl) as ->.
      rewrite (itemOf_currentItems p items1) in Hitem by done.
      rewrite Hitem1 in Hitem. injection Hitem as ->. done.
    + destruct (Hnew eq_refl) as [Href Hempty]. rewrite Hempty, lookup_empty.
      split; [done|]. split; [done|]. rewrite Hcons'. by apply Hcons.
Qed.

Lemma saveGeometryByMaterial_kept env float_toString p geom placedGeom id p' :
  IFCParser.saveGeometryByMaterial env float_toString p geom placedGeom id = Ok p' ->
  forall k m, materialOf p k = Some m -> materialOf p' k = Some m.
Proof.
  intros H k m Hm.
  apply saveGeometryByMaterial_Ok in H as (geom' & item' & _ & Hitem' & Hother & Hcase).
  unfold materialOf in *.
  destruct (decide (k = IFCParser.colorKey float_toString (WebIfc.color placedGeom)))
    as [->|Hne]; [|by rewrite Hother].
  rewrite Hitem'. destruct (itemOf p _) as [item|]; [|discriminate].
  destruct Hcase as (Hmat & _). simpl in *. congruence.
Qed.

Lemma saveGeometryByMaterial_distinct env float_toString p geom placedGeom id p' :
  IFCParser.saveGeometryByMaterial env float_toString p geom placedGeom id = Ok p' ->
  materials_distinct p -> materials_distinct p'.
Proof.
  intros H [Hbound Hinj].
  apply saveGeometryByMaterial_Ok in H as (geom' & item' & _ & Hitem' & Hother & Hcase).
  set (colorID := IFCParser.colorKey float_toString (WebIfc.color placedGeom)) in *.
  assert (Hold : forall k m, materialOf p' k = Some m ->
                   materialOf p k = Some m
                   \/ (k = colorID /\ itemOf p colorID = None
                       /\ ref m = IFCParser.constructed p)).
  { intros k m Hm. unfold materialOf in *.
    destruct (decide (k = colorID)) as [->|Hne]; [|left; by rewrite <- Hother].
    rewrite Hitem' in Hm. injection Hm as <-.
    destruct (itemOf p colorID) as [item|]; [left|right].
    - destruct Hcase as (Hmat & _). simpl. congruence.
    - destruct Hcase as (Href & _). done. }
  assert (Hgrow : (IFCParser.constructed p <= IFCParser.constructed p')%nat).
  { destruct (itemOf p colorID); destruct Hcase as (_ & _ & ->); lia. }
  split.
  - intros k m Hm. destruct (Hold _ _ Hm) as [Hm'|(-> & Hnone & Href)].
    + apply Hbound in Hm'. lia.
    + rewrite Hnone in Hcase. destruct Hcase as (_ & _ & ->). lia.
  - intros k1 k2 m1 m2 Hm1 Hm2 Href.
    destruct (Hold _ _ Hm1) as [Hm1'|(-> & _ & Href1)],
             (Hold _ _ Hm2) as [Hm2'|(-> & _ & Href2)]; try done.
    + by eapply Hinj.
    + apply Hbound in Hm1'. lia.
    + apply Hbound in Hm2'. lia.
Qed.

Lemma saveFragments_app env float_toString p pre post :
  saveFragments env float_toString p (pre ++ post)
  = let* p1 := saveFragments env float_toString p pre in
    saveFragments env float_toString p1 post.
Proof. apply foldM_app. Qed.

Lemma saveFragments_kept env float_toString p fragments p' :
  saveFragments env float_toString p fragments = Ok p' ->
  forall k m, materialOf p k = Some m -> materialOf p' k = Some m.
Proof.
  revert p. induction fragments as [|f fragments IH]; intros p H k m Hm.
  - by injection H as <-.
  - apply bind_Ok in H as (p1 & Hp1 & H). apply (IH _ H).
    by eapply saveGeometryByMaterial_kept.
Qed.

Lemma saveFragments_distinct env float_toString p fragments p' :
  saveFragments env float_toString p fragments = Ok p' ->
  materials_distinct p -> materials_distinct p'.
Proof.
  revert p. induction fragments as [|f fragments IH]; intros p H Hp.
  - by injection H as <-.
  - apply bind_Ok in H as (p1 & Hp1 & H). apply (IH _ H).
    by eapply saveGeometryByMaterial_distinct.
Qed.

(** Fragments of other colours leave a key without material. *)
Lemma saveFragments_absent env float_toString p fragments p' k :
  saveFragments env float_toString p fragments = Ok p' ->
  Forall (fun f => fragmentKey float_toString f <> k) fragments ->
  materialOf p' k = materialOf p k.
Proof.
  revert p. induction fragments as [|f fragments IH]; intros p H Hall.
  - by injection H as <-.
  - apply bind_Ok in H as (p1 & Hp1 & H). apply Forall_cons in Hall as [Hf Hall].
    rewrite (IH _ H Hall).
    apply saveGeometryByMaterial_Ok in Hp1 as (_ & _ & _ & _ & Hother & _).
    unfold materialOf. rewrite Hother; [done|]. by intros ->.
Qed.

(** C8: whatever fragments are processed, a material that the model holds
    for a colour key stays the same object; the fragment that meets a key
    without material has a new material constructed, which is the one that
    the key has after all the fragments; a fragment that meets a key with a
    material leaves it; and the materials of different keys are different
    objects. *)
Theorem material_per_colorKey env float_toString p fragments p' :
  saveFragments env float_toString p fragments = Ok p' ->
  (forall k m, materialOf p k = Some m -> materialOf p' k = Some m)
  /\ (forall pre f post,
        fragments = pre ++ f :: post ->
        exists p1 m,
          saveFragments env float_toString p pre = Ok p1
          /\ materialOf p' (fragmentKey float_toString f) = Some m
          /\ (forall m1, materialOf p1 (fragmentKey float_toString f) = Some m1 -> m = m1)
          /\ (materialOf p1 (fragmentKey float_toString f) = None ->
              ref m = IFCParser.constructed p1)
          /\ (materialOf p (fragmentKey float_toString f) = None ->
              Forall (fun f' => fragmentKey float_toString f' <> fragmentKey float_toString f)
                     pre ->
              ref m = IFCParser.constructed p1))
  /\ (materials_distinct p -> materials_distinct p').
Proof.
  intros H. split; [by eapply saveFragments_kept|]. split; [|by eapply saveFragments_distinct].
  intros pre f post ->. rewrite saveFragments_app in H.
  apply bind_Ok in H as (p1 & Hp1 & H). apply bind_Ok in H as (p2 & Hp2 & H).
  pose proof (saveFragments_kept _ _ _ _ _ H) as Hkept.
  pose proof (saveGeometryByMaterial_kept _ _ _ _ _ _ _ Hp2) as Hkept2.
  apply saveGeometryByMaterial_Ok in Hp2 as (geom' & item' & _ & Hitem' & _ & Hcase).
  fold (fragmentKey float_toString f) in *.
  exists p1, (material item'). split; [done|].
  assert (Hm2 : materialOf p2 (fragmentKey float_toString f) = Some (material item')).
  { unfold materialOf. by rewrite Hitem'. }
  assert (Hnew : materialOf p1 (fragmentKey float_toString f) = None ->
                 ref (material item') = IFCParser.constructed p1).
  { unfold materialOf. destruct (itemOf p1 _); [discriminate|]. by destruct Hcase. }
  split; [by apply Hkept|]. split; [|split; [done|]].
  - intros m1 Hm1. apply Hkept2 in Hm1. congruence.
  - intros Hnone Hpre. apply Hnew. by rewrite (saveFragments_absent _ _ _ _ _ _ Hp1 Hpre).
Qed.

(** ** Vertices of merged fragments *)

Lemma storeGeometryAttribute_position env id geom geom' :
  IdAttrName env <> "position" ->
  IFCParser.storeGeometryAttribute env id geom = Ok geom' ->
  attributes geom' !! "position" = attributes geom !! "position".
Proof.
  intros Hne. unfold IFCParser.storeGeometryAttribute.
  destruct (attributes geom !! "position") as [position|] eqn:Hpos; [|discriminate].
  intros [= <-]. simpl. by rewrite lookup_insert_ne.
Qed.

Lemma storeGeometryAttribute_total env id geom size :
  whole_positions size geom ->
  exists geom', IFCParser.storeGeometryAttribute env id geom = Ok geom'.
Proof.
  intros (position & Hpos & _). unfold IFCParser.storeGeometryAttribute. rewrite Hpos. eauto.
Qed.

Lemma vertexCount_position geom position :
  attributes geom !! "position" = Some position ->
  IFCParser.vertexCount geom = count position.
Proof. intros H. unfold IFCParser.vertexCount. by rewrite H. Qed.

(** The vertices of the merge of two geometries are those of the first
    followed by those of the second. *)
Lemma vertexCount_merge size a b :
  0 < size -> whole_positions size a -> whole_positions size b ->
  IFCParser.vertexCount (IFCParser.merge [a; b])
  = IFCParser.vertexCount a + IFCParser.vertexCount b
  /\ whole_positions size (IFCParser.merge [a; b]).
Proof.
  intros Hsize (pa & Hpa & Hsa & Hda) (pb & Hpb & Hsb & Hdb).
  assert (Hmerged : attributes (IFCParser.merge [a; b]) !! "position"
                    = Some {| array := array pa ++ array pb; itemSize := itemSize pa |}).
  { simpl. unfold IFCParser.merge2. simpl. rewrite lookup_union_with, Hpa, Hpb. done. }
  rewrite (vertexCount_position _ _ Hmerged), (vertexCount_position _ _ Hpa),
    (vertexCount_position _ _ Hpb).
  unfold count. simpl. rewrite Hsa, Hsb, length_app, Nat2Z.inj_add.
  destruct Hda as [qa Hqa], Hdb as [qb Hqb]. split.
  - rewrite Hqa, Hqb, <- Z.mul_add_distr_r, !Z.div_mul by lia. done.
  - eexists. split; [done|]. simpl. rewrite length_app, Nat2Z.inj_add. split; [done|].
    by apply Z.divide_add_r; [exists qa|exists qb].
Qed.

Lemma saveGeometryByMaterial_total env float_toString p items geom placedGeom id size :
  IFCParser.currentItems p = Ok items ->
  whole_positions size geom ->
  exists p', IFCParser.saveGeometryByMaterial env float_toString p geom placedGeom id = Ok p'.
Proof.
  intros Hitems Hgeom. unfold IFCParser.saveGeometryByMaterial.
  destruct (storeGeometryAttribute_total env id geom size Hgeom) as [geom' ->]. simpl.
  set (colorID := IFCParser.colorKey float_toString (WebIfc.color placedGeom)).
  assert (Hupdate : forall q newItems, IFCParser.currentItems q = Ok items ->
                      exists q', IFCParser.updateItems q newItems = Ok q').
  { intros q newItems Hq. unfold IFCParser.updateItems, IFCParser.currentItems in *.
    destruct (models (IFCParser.state q) !! IFCParser.currentModelID q); [eauto|done]. }
  assert (Hcreate : exists p1 items1 item1,
            IFCParser.createMaterial p colorID (WebIfc.color placedGeom) = Ok p1
            /\ IFCParser.currentItems p1 = Ok items1
            /\ items1 !! colorID = Some item1).
  { unfold IFCParser.createMaterial. rewrite Hitems. simpl.
    destruct (items !! colorID) as [item|] eqn:Hitem; [by exists p, items, item|].
    destruct (Hupdate p (<[colorID := {| material :=
                              {| ref := IFCParser.constructed p;
                                 color := (WebIfc.x (WebIfc.color placedGeom),
                                           WebIfc.y (WebIfc.color placedGeom),
                                           WebIfc.z (WebIfc.color placedGeom));
                                 transparent :=
                                   negb (PrimFloat.eqb (WebIfc.w (WebIfc.color placedGeom))
                                           PrimFloat.one);
                                 opacity :=
                                   if negb (PrimFloat.eqb (WebIfc.w (WebIfc.color placedGeom))
                                              PrimFloat.one)
                                   then WebIfc.w (WebIfc.color placedGeom)
                                   else PrimFloat.one |};
                            geometries := ∅ |}]> items) Hitems) as [p1 Hp1].
    rewrite Hp1. simpl. apply updateItems_Ok in Hp1 as (Hitems1 & _ & _).
    eexists _, _, _. split; [done|]. split; [exact Hitems1|]. apply lookup_insert_eq. }
  destruct Hcreate as (p1 & items1 & item1 & -> & Hitems1 & Hitem1). simpl.
  rewrite Hitems1. simpl. rewrite Hitem1.
  unfold IFCParser.updateItems, IFCParser.currentItems in *.
  destruct (models (IFCParser.state p1) !! IFCParser.currentModelID p1); [eauto|done].
Qed.

(** A fragment saved where the model holds a geometry of its element under
    its colour key is merged into that geometry. *)
Lemma saveGeometryByMaterial_merges env float_toString p current geom placedGeom id size :
  IdAttrName env <> "position" ->
  0 < size ->
  geometryOf p (IFCParser.colorKey float_toString (WebIfc.color placedGeom)) id
  = Some current ->
  whole_positions size current ->
  whole_positions size geom ->
  exists p' merged,
    IFCParser.saveGeometryByMaterial env float_toString p geom placedGeom id = Ok p'
    /\ geometryOf p' (IFCParser.colorKey float_toString (WebIfc.color placedGeom)) id
       = Some merged
    /\ IFCParser.vertexCount merged
       = IFCParser.vertexCount current + IFCParser.vertexCount geom
    /\ whole_positions size merged.
Proof.
  intros Hattr Hsize Hcurrent Hwhole Hgeom.
  set (colorID := IFCParser.colorKey float_toString (WebIfc.color placedGeom)) in *.
  assert (Hitems : exists items, IFCParser.currentItems p = Ok items).
  { unfold geometryOf, itemOf in Hcurrent.
    destruct (IFCParser.currentItems p); [eauto|done..]. }
  destruct Hitems as [items Hitems].
  destruct (saveGeometryByMaterial_total env float_toString p items geom placedGeom id size)
    as [p' Hp']; [done..|].
  destruct (saveGeometryByMaterial_Ok _ _ _ _ _ _ _ Hp')
    as (geom' & item' & Hstore & Hitem' & _ & Hcase).
  fold colorID in Hitem', Hcase.
  pose proof (storeGeometryAttribute_position _ _ _ _ Hattr Hstore) as Hpos.
  assert (Hgeom' : whole_positions size geom').
  { destruct Hgeom as (pos & Hp & Hs). exists pos. by rewrite Hpos. }
  unfold geometryOf in Hcurrent. destruct (itemOf p colorID) as [item|]; [|done].
  simpl in Hcurrent. rewrite Hcurrent in Hcase. destruct Hcase as (_ & Hgeoms & _).
  exists p', (IFCParser.merge [current; geom']). split; [done|]. split.
  - unfold geometryOf. rewrite Hitem'. simpl. rewrite Hgeoms. apply lookup_insert_eq.
  - destruct (vertexCount_merge size current geom') as [-> Hmerged]; [done..|].
    split; [|done]. f_equal. unfold IFCParser.vertexCount. by rewrite Hpos.
Qed.

(** C9: two fragments of one element and one colour key, saved one after
    the other when the model holds no geometry of the element under the
    key, leave a geometry whose vertices count as many as those of the two
    fragments together; and a fragment saved where the model holds a
    geometry of the element under the key leaves a geometry whose vertices
    count as many as those of that geometry and of the fragment together. *)
Theorem saveGeometryByMaterial_vertex_count env float_toString p items
    geom1 geom2 placedGeom1 placedGeom2 id size :
  IdAttrName env <> "position" ->
  0 < size ->
  IFCParser.currentItems p = Ok items ->
  IFCParser.colorKey float_toString (WebIfc.color placedGeom1)
  = IFCParser.colorKey float_toString (WebIfc.color placedGeom2) ->
  whole_positions size geom1 ->
  whole_positions size geom2 ->
  (geometryOf p (IFCParser.colorKey float_toString (WebIfc.color placedGeom1)) id = None ->
   exists p1 p2 merged,
     IFCParser.saveGeometryByMaterial env float_toString p geom1 placedGeom1 id = Ok p1
     /\ IFCParser.saveGeometryByMaterial env float_toString p1 geom2 placedGeom2 id = Ok p2
     /\ geometryOf p2 (IFCParser.colorKey float_toString (WebIfc.color placedGeom1)) id
        = Some merged
     /\ IFCParser.vertexCount merged
        = IFCParser.vertexCount geom1 + IFCParser.vertexCount geom2)
  /\ (forall current,
        geometryOf p (IFCParser.colorKey float_toString (WebIfc.color placedGeom1)) id
        = Some current ->
        whole_positions size current ->
        exists p1 merged,
          IFCParser.saveGeometryByMaterial env float_toString p geom1 placedGeom1 id = Ok p1
          /\ geometryOf p1 (IFCParser.colorKey float_toString (WebIfc.color placedGeom1)) id
             = Some merged
          /\ IFCParser.vertexCount merged
             = IFCParser.vertexCount current + IFCParser.vertexCount geom1).
Proof.
  intros Hattr Hsize Hitems Hkey Hgeom1 Hgeom2.
  set (colorID := IFCParser.colorKey float_toString (WebIfc.color placedGeom1)) in *.
  split.
  - intros Hnone.
    destruct (saveGeometryByMaterial_total env float_toString p items geom1 placedGeom1 id
                size) as [p1 Hp1]; [done..|].
    destruct (saveGeometryByMaterial_Ok _ _ _ _ _ _ _ Hp1)
      as (geom1' & item1 & Hstore1 & Hitem1 & _ & Hcase1).
    fold colorID in Hitem1, Hcase1.
    pose proof (storeGeometryAttribute_position _ _ _ _ Hattr Hstore1) as Hpos1.
    assert (Hstored1 : geometryOf p1 colorID id = Some geom1').
    { unfold geometryOf in *. rewrite Hitem1. simpl.
      destruct (itemOf p colorID) as [item|]; simpl in Hnone.
      - destruct Hcase1 as (_ & -> & _). rewrite Hnone. apply lookup_insert_eq.
      - destruct Hcase1 as (_ & -> & _). apply lookup_insert_eq. }
    assert (Hgeom1' : whole_positions size geom1').
    { destruct Hgeom1 as (pos & Hp & Hs). exists pos. by rewrite Hpos1. }
    fold colorID in Hkey. rewrite Hkey in Hstored1.
    destruct (saveGeometryByMaterial_merges env float_toString p1 geom1' geom2 placedGeom2
                id size) as (p2 & merged & Hp2 & Hmerged & Hcount & _); [done..|].
    exists p1, p2, merged. split; [done|]. split; [done|]. rewrite Hkey. split; [done|].
    rewrite Hcount. f_equal. unfold IFCParser.vertexCount. by rewrite Hpos1.
  - intros current Hcurrent Hwhole.
    destruct (saveGeometryByMaterial_merges env float_toString p current geom1 placedGeom1
                id size) as (p1 & merged & Hp1 & Hmerged & Hcount & _); [done..|].
    by exists p1, merged.
Qed.

Lemma material_per_colorKey_witness :
  materials_distinct Fixture6.loaded
  /\ ref <$> materialOf Fixture6.loaded "1001" = Some 0%nat
  /\ ref <$> materialOf Fixture6.loaded "0011" = Some 1%nat.
Proof.
  destruct (material_per_colorKey Fixture.env Fixture6.float_toString Fixture6.parser
              Fixture6.fragments Fixture6.loaded) as (_ & _ & Hdistinct).
  - vm_compute. reflexivity.
  - split; [|split; vm_compute; reflexivity].
    assert (Hnone : forall k, materialOf Fixture6.parser k = None).
    { intros k.
      change (materialOf Fixture6.parser k) with (material <$> (∅ : gmap string Item) !! k).
      by rewrite lookup_empty. }
    apply Hdistinct. split.
    + intros k m Hm. by rewrite Hnone in Hm.
    + intros k1 k2 m1 m2 Hm. by rewrite Hnone in Hm.
Defined.

Lemma saveGeometryByMaterial_vertex_count_witness :
  exists p1 p2 merged,
    IFCParser.saveGeometryByMaterial Fixture.env Fixture6.float_toString Fixture6.parser
      Fixture6.triangle (Fixture6.placed Fixture6.red 100) 21 = Ok p1
    /\ IFCParser.saveGeometryByMaterial Fixture.env Fixture6.float_toString p1
         Fixture6.triangle (Fixture6.placed Fixture6.red 100) 21 = Ok p2
    /\ geometryOf p2 "1001" 21 = Some merged
    /\ IFCParser.vertexCount merged = 6.
Proof.
  assert (Hwhole : whole_positions 3 Fixture6.triangle).
  { eexists. split; [reflexivity|]. split; [reflexivity|]. exists 3. reflexivity. }
  destruct (saveGeometryByMaterial_vertex_count Fixture.env Fixture6.float_toString
              Fixture6.parser ∅ Fixture6.triangle Fixture6.triangle
              (Fixture6.placed Fixture6.red 100) (Fixture6.placed Fixture6.red 100) 21 3)
    as [Hfirst _]; [discriminate | lia | reflexivity | reflexivity | exact Hwhole..|].
  destruct (Hfirst eq_refl) as (p1 & p2 & merged & Hp1 & Hp2 & Hmerged & Hcount).
  exists p1, p2, merged. split; [exact Hp1|]. split; [exact Hp2|]. split; [exact Hmerged|].
  rewrite Hcount. reflexivity.
Defined.

(** ** Related records *)

Lemma isRelated_Ok id rel propNames isRel :
  PropertyManager.isRelated id rel propNames = Ok isRel ->
  isRel = related_contains propNames id rel.
Proof.
  unfold PropertyManager.isRelated, related_contains. intros H.
  apply bind_Ok in H as (relatedItems & Hget & H). apply get_Ok_field in Hget as ->.
  destruct (field rel (related propNames)) as [| | | | |items|] eqn:Hfield;
    try (apply bind_Ok in H as (v & Hv & H); apply get_Ok_field in Hv as ->; congruence).
  apply bind_Ok in H as (values & Hvalues & H). injection H as <-.
  apply mapM_get_value in Hvalues as [-> _].
  clear. induction items as [|item items IH]; simpl; [done|]. by rewrite IH.
Qed.

Lemma push_values_mapM items (acc : list JSValue) :
  foldM (fun IDs ele => let* v := get ele "value" in Ok (IDs ++ [v])) items acc
  = let* values := mapM (fun ele => get ele "value") items in Ok (acc ++ values).
Proof.
  revert acc. induction items as [|item items IH]; simpl; intros acc.
  - by rewrite app_nil_r.
  - destruct (get item "value") as [v| |]; simpl; try done.
    rewrite IH. destruct (mapM _ items); simpl; try done. by rewrite <- app_assoc.
Qed.

(** [getRelated] pushes the same ids whatever ids were collected before. *)
Lemma getRelated_push rel propNames IDs :
  PropertyManager.getRelated rel propNames IDs
  = let* ids := PropertyManager.getRelated rel propNames [] in Ok (IDs ++ ids).
Proof.
  unfold PropertyManager.getRelated.
  destruct (get rel (relating propNames)) as [element| |]; simpl; try done.
  destruct element as [| | | | |items|];
    try (destruct (get _ "value"); simpl; done).
  rewrite !push_values_mapM. by destruct (mapM _ items).
Qed.

Lemma getRelated_Ok rel propNames IDs IDs' :
  PropertyManager.getRelated rel propNames IDs = Ok IDs' ->
  IDs' = IDs ++ relating_values propNames rel.
Proof.
  unfold PropertyManager.getRelated, relating_values. intros H.
  apply bind_Ok in H as (element & Hget & H). apply get_Ok_field in Hget as ->.
  destruct (field rel (relating propNames)) as [| | | | |items|] eqn:Hfield;
    try (apply bind_Ok in H as (v & Hv & H); apply get_Ok_field in Hv as ->; congruence).
  rewrite push_values_mapM in H. apply bind_Ok in H as (values & Hvalues & H).
  injection H as <-. by apply mapM_get_value in Hvalues as [-> _].
Qed.

Lemma collectRelated_fold_Ok id propNames rels IDs IDs' :
  foldM (PropertyManager.collectRelated id propNames) rels IDs = Ok IDs' ->
  IDs' = IDs ++ related_to propNames id rels
  /\ Forall (relation_readable propNames id) rels.
Proof.
  unfold related_to. revert IDs. induction rels as [|rel rels IH]; simpl; intros IDs H.
  - injection H as <-. by rewrite app_nil_r.
  - apply bind_Ok in H as (IDs1 & Hstep & H). unfold PropertyManager.collectRelated in Hstep.
    apply bind_Ok in Hstep as (isRel & HisRel & Hstep).
    pose proof (isRelated_Ok _ _ _ _ HisRel) as Heq. destruct (IH _ H) as [-> Hall].
    rewrite <- Heq. destruct isRel.
    + pose proof (getRelated_Ok _ _ _ _ Hstep) as ->. simpl. rewrite <- app_assoc.
      split; [done|]. constructor; [|done]. exists true. split; [done|]. intros _.
      rewrite getRelated_push in Hstep. apply bind_Ok in Hstep as (ids & Hids & _). eauto.
    + injection Hstep as <-. split; [done|]. constructor; [|done].
      exists false. split; [done|]. discriminate.
Qed.

Lemma collectRelated_fold_total id propNames rels IDs :
  Forall (relation_readable propNames id) rels ->
  foldM (PropertyManager.collectRelated id propNames) rels IDs
  = Ok (IDs ++ related_to propNames id rels).
Proof.
  unfold related_to. intros Hall. revert IDs.
  induction Hall as [|rel rels (isRel & HisRel & Hread) _ IH]; simpl; intros IDs.
  - by rewrite app_nil_r.
  - unfold PropertyManager.collectRelated at 1. rewrite HisRel. simpl.
    rewrite <- (isRelated_Ok _ _ _ _ HisRel). destruct isRel.
    + destruct (Hread eq_refl) as [ids Hids].
      rewrite getRelated_push, Hids. simpl. rewrite IH.
      apply getRelated_Ok in Hids as ->. simpl. by rewrite <- app_assoc.
    + simpl. apply IH.
Qed.

Lemma getAllItemsOfTypeJSON_typeName env state modelID type verbose r :
  PropertyManager.getAllItemsOfTypeJSON env state modelID type verbose = Ok r ->
  exists typeName, IfcTypesMap env !! type = Some typeName /\ typeName <> "".
Proof.
  unfold PropertyManager.getAllItemsOfTypeJSON. intros H. apply bind_Ok in H as (m & _ & H).
  destruct (IfcTypesMap env !! type) as [typeName|]; [|discriminate].
  exists typeName. split; [done|]. intros ->. discriminate.
Qed.

(** The related records, without expansion: when the run returns, and the
    conditions under which it does. *)
Lemma getPropertyJSON_flat_Ok env state fuel modelID elementID propName result :
  PropertyManager.getPropertyJSON env state fuel modelID elementID false propName = Ok result ->
  exists m lines,
    models state !! modelID = Some m
    /\ PropertyManager.getAllItemsOfTypeJSON env state modelID (name propName) true = Ok lines
    /\ Forall (relation_readable propName elementID) lines
    /\ result = map (full_record (jsonData m)) (related_to propName elementID lines).
Proof.
  unfold PropertyManager.getPropertyJSON, PropertyManager.getAllRelatedItemsOfTypeJSON,
    PropertyManager.getItemsByIDJSON, PropertyManager.getModel.
  intros H. apply bind_Ok in H as (resultIDs & HIDs & H).
  apply bind_Ok in HIDs as (lines & Hlines & HIDs).
  apply collectRelated_fold_Ok in HIDs as [-> Hreadable].
  destruct (models state !! modelID) as [m|]; [|discriminate]. simpl in H.
  injection H as <-. exists m, lines. split; [done|]. split; [done|]. split; [done|].
  simpl. by rewrite map_map.
Qed.

Lemma getPropertyJSON_flat_total env state fuel modelID elementID propName m lines :
  models state !! modelID = Some m ->
  PropertyManager.getAllItemsOfTypeJSON env state modelID (name propName) true = Ok lines ->
  Forall (relation_readable propName elementID) lines ->
  PropertyManager.getPropertyJSON env state fuel modelID elementID false propName
  = Ok (map (full_record (jsonData m)) (related_to propName elementID lines)).
Proof.
  intros Hm Hlines Hreadable.
  unfold PropertyManager.getPropertyJSON, PropertyManager.getAllRelatedItemsOfTypeJSON,
    PropertyManager.getItemsByIDJSON, PropertyManager.getModel.
  rewrite Hlines. simpl. rewrite collectRelated_fold_total by done. simpl.
  rewrite Hm. simpl. by rewrite map_map.
Qed.

(** *** The order of the records *)

Lemma jsonData_get_Permutation data data' id :
  NoDup (map fst data) -> data ≡ₚ data' ->
  PropertyManager.jsonData_get data id = PropertyManager.jsonData_get data' id.
Proof.
  intros Hnd Hperm.
  assert (Hnd' : NoDup (map fst data')).
  { change (NoDup (fst <$> data')). change (NoDup (fst <$> data)) in Hnd.
    by rewrite <- Hperm. }
  assert (Hfound : forall d d' record,
            NoDup (map fst d') -> d ≡ₚ d' ->
            PropertyManager.jsonData_get d id = Some record ->
            PropertyManager.jsonData_get d' id = Some record).
  { intros d d' record Hd' Hdd' Hget.
    apply jsonData_get_elem in Hget as (n & Hin & Hn).
    rewrite (jsonData_get_key _ _ _ Hn). apply jsonData_get_unique; [done|].
    by rewrite <- Hdd'. }
  destruct (PropertyManager.jsonData_get data id) as [record|] eqn:Hget.
  - symmetry. by eapply Hfound.
  - destruct (PropertyManager.jsonData_get data' id) as [record|] eqn:Hget'; [|done].
    apply (Hfound data' data) in Hget'; [congruence|done|done].
Qed.

Lemma filter_ext_bool {A} (f g : A -> bool) (l : list A) :
  (forall a, f a = g a) -> List.filter f l = List.filter g l.
Proof.
  intros Hfg. induction l as [|a l IH]; simpl; [done|]. by rewrite Hfg, IH.
Qed.

Lemma filter_Permutation_bool {A} (f : A -> bool) (l l' : list A) :
  l ≡ₚ l' -> List.filter f l ≡ₚ List.filter f l'.
Proof.
  intros Hperm. induction Hperm as [|a l l' _ IH|a b l|l1 l2 l3 _ IH1 _ IH2]; simpl.
  - done.
  - destruct (f a); [by constructor|done].
  - destruct (f a), (f b); try done. apply perm_swap.
  - by etrans.
Qed.

Lemma all_typed_Permutation data data' :
  NoDup (map fst data) -> data ≡ₚ data' -> all_typed data -> all_typed data'.
Proof.
  intros Hnd Hperm Hall. unfold all_typed in *.
  change (map fst data') with (fst <$> data'). rewrite <- Hperm.
  eapply Forall_impl; [exact Hall|]. intros k [t Ht]. exists t.
  by rewrite <- (jsonData_get_Permutation data data').
Qed.

(** The records of a type, for the records of the model in another order,
    are the same records in another order. *)
Lemma getAllItemsOfTypeJSON_Permutation env state model type verbose m data' lines :
  models state !! model = Some m ->
  NoDup (map fst (jsonData m)) ->
  jsonData m ≡ₚ data' ->
  PropertyManager.getAllItemsOfTypeJSON env state model type verbose = Ok lines ->
  exists lines',
    PropertyManager.getAllItemsOfTypeJSON env (with_jsonData state model data') model
      type verbose = Ok lines'
    /\ lines ≡ₚ lines'.
Proof.
  intros Hm Hnd Hperm Hlines.
  destruct (getAllItemsOfTypeJSON_typeName _ _ _ _ _ _ Hlines) as (typeName & Hty & Hne).
  apply getAllItemsOfTypeJSON_Ok in Hlines as (m0 & typeName0 & Hm0 & Hty0 & Hall & ->).
  assert (m0 = m) as -> by congruence. assert (typeName0 = typeName) as -> by congruence.
  eexists. split.
  - apply (getAllItemsOfTypeJSON_total env (with_jsonData state model data') model type
             verbose {| modelID := modelID m; items := items m; types := types m;
                        jsonData := data' |} typeName); try done.
    + simpl. by rewrite lookup_alter_eq, Hm.
    + simpl. by eapply all_typed_Permutation.
  - simpl.
    assert (Hitem : forall k, item_of (jsonData m) verbose k = item_of data' verbose k).
    { intros k. unfold item_of. by rewrite (jsonData_get_Permutation (jsonData m) data'). }
    assert (Htype : forall k, is_type (jsonData m) typeName k = is_type data' typeName k).
    { intros k. unfold is_type. by rewrite (jsonData_get_Permutation (jsonData m) data'). }
    rewrite (filter_ext_bool _ _ _ Htype), (map_ext _ _ Hitem).
    apply Permutation_map, filter_Permutation_bool. by apply Permutation_map.
Qed.

Lemma related_to_elem propNames id rels v :
  v ∈ related_to propNames id rels
  <-> exists rel, rel ∈ rels /\ related_contains propNames id rel = true
                  /\ v ∈ relating_values propNames rel.
Proof.
  unfold related_to. rewrite list_elem_of_In, in_flat_map. split.
  - intros (rel & Hrel & Hv). apply filter_In in Hrel as [Hrel Hcontains].
    exists rel. by rewrite !list_elem_of_In.
  - intros (rel & Hrel & Hcontains & Hv). exists rel. rewrite filter_In.
    by rewrite <- !list_elem_of_In.
Qed.

Lemma related_to_Permutation propNames id rels rels' :
  rels ≡ₚ rels' -> related_to propNames id rels ≡ₚ related_to propNames id rels'.
Proof. intros Hperm. unfold related_to. by apply Permutation_flat_map, filter_Permutation_bool. Qed.

(** C5: without expansion, the related records of an element are the full
    records of the ids read from the relating field, one value or an array,
    of the relations of the descriptor whose related field, one value or an
    array, holds the id of the element; the order of the records of the
    model changes the order of the result and nothing else.  For the variant
    that queries the API, the relations and the full records are the lines
    that the API returns. *)
Theorem getProperty_related env state fuel model elementID propName result :
  PropertyManager.getProperty env state fuel model elementID false propName = Ok result ->
  (useJSON state = true ->
   exists m lines,
     models state !! model = Some m
     /\ PropertyManager.getAllItemsOfTypeJSON env state model (name propName) true = Ok lines
     /\ result = map (full_record (jsonData m)) (related_to propName elementID lines)
     /\ (forall r, r ∈ result <->
           exists line id, line ∈ lines
                           /\ related_contains propName elementID line = true
                           /\ id ∈ relating_values propName line
                           /\ r = full_record (jsonData m) id)
     /\ (forall data',
           NoDup (map fst (jsonData m)) -> jsonData m ≡ₚ data' ->
           exists result',
             PropertyManager.getProperty env (with_jsonData state model data') fuel model
               elementID false propName = Ok result'
             /\ result ≡ₚ result'))
  /\ (useJSON state = false ->
      exists lines rels,
        GetLineIDsWithType (api state) model (name propName) = Some lines
        /\ mapM (fun line => await (GetLine (api state) model (JSNumber line) false)) lines
           = Ok rels
        /\ mapM (fun id => await (GetLine (api state) model id false))
                (related_to propName elementID rels) = Ok result).
Proof.
  unfold PropertyManager.getProperty. intros Hrun. split; intros Hjson; rewrite Hjson in Hrun.
  - destruct (getPropertyJSON_flat_Ok _ _ _ _ _ _ _ Hrun)
      as (m & lines & Hm & Hlines & Hreadable & ->).
    exists m, lines. split; [done|]. split; [done|]. split; [done|]. split.
    + intros r. rewrite list_elem_of_In, in_map_iff. split.
      * intros (id & <- & Hid). apply list_elem_of_In, related_to_elem in Hid
          as (line & Hline & Hcontains & Hid). by exists line, id.
      * intros (line & id & Hline & Hcontains & Hid & ->). exists id. split; [done|].
        apply list_elem_of_In, related_to_elem. by exists line.
    + intros data' Hnd Hperm.
      destruct (getAllItemsOfTypeJSON_Permutation _ _ _ _ _ _ _ _ Hm Hnd Hperm Hlines)
        as (lines' & Hlines' & Hpermlines).
      eexists. split.
      * simpl. rewrite Hjson.
        apply (getPropertyJSON_flat_total env (with_jsonData state model data') fuel model
                 elementID propName
                 {| modelID := modelID m; items := items m; types := types m;
                    jsonData := data' |} lines'); [|done|by rewrite <- Hpermlines].
        simpl. by rewrite lookup_alter_eq, Hm.
      * simpl.
        rewrite (map_ext (full_record (jsonData m)) (full_record data')).
        -- by apply Permutation_map, related_to_Permutation.
        -- intros id. unfold full_record.
           by rewrite (jsonData_get_Permutation (jsonData m) data').
  - unfold PropertyManager.getPropertyWebIfcAPI,
      PropertyManager.getAllRelatedItemsOfTypeWebIfcAPI in Hrun.
    apply bind_Ok in Hrun as (propSetIds & HIDs & Hrun).
    apply bind_Ok in HIDs as (lines & Hlines & HIDs).
    apply foldM_bind_mapM in HIDs as (rels & Hrels & HIDs).
    apply collectRelated_fold_Ok in HIDs as [-> _].
    exists lines, rels. split; [|done].
    destruct (GetLineIDsWithType (api state) model (name propName)); simpl in Hlines;
      congruence.
Qed.

Lemma getProperty_related_witness :
  PropertyManager.getPropertySets Fixture.env (Fixture.jsonState Fixture7.properties)
    0 0 3 false
  = Ok [JSObject Fixture7.wallProperties; JSObject Fixture7.sharedProperties]
  /\ exists result',
       PropertyManager.getProperty Fixture.env
         (with_jsonData (Fixture.jsonState Fixture7.properties) 0 Fixture7.reordered)
         0 0 3 false (psets Fixture.names) = Ok result'
       /\ [JSObject Fixture7.wallProperties; JSObject Fixture7.sharedProperties] ≡ₚ result'.
Proof.
  assert (Hrun : PropertyManager.getProperty Fixture.env
                   (Fixture.jsonState Fixture7.properties) 0 0 3 false (psets Fixture.names)
                 = Ok [JSObject Fixture7.wallProperties; JSObject Fixture7.sharedProperties]).
  { vm_compute. reflexivity. }
  split; [exact Hrun|].
  destruct (proj1 (getProperty_related Fixture.env (Fixture.jsonState Fixture7.properties)
                     0 0 3 (psets Fixture.names) _ Hrun) eq_refl)
    as (m & lines & Hm & _ & _ & _ & Horder).
  vm_compute in Hm. injection Hm as <-.
  apply (Horder Fixture7.reordered).
  - apply (bool_decide_unpack _). vm_compute. exact I.
  - simpl. unfold Fixture7.properties, Fixture7.reordered.
    etrans; [apply (Permutation_app_comm
                      [(3, Fixture.record "IfcWall" []); (4, Fixture.record "IfcSlab" []);
                       (20, Fixture7.wallProperties); (21, Fixture7.sharedProperties);
                       (22, Fixture7.loadBearing); (23, Fixture7.fireRating);
                       (24, Fixture7.unit)]
                      [(30, Fixture7.definesWall); (31, Fixture7.definesBoth);
                       (32, Fixture7.definesSlab)])|].
    simpl. etrans; [apply perm_swap|]. etrans; [apply perm_skip, perm_swap|].
    apply perm_swap.
Defined.

(** ** Resolution of references *)

Lemma lookup_assign_eq key v props : lookup_prop key (assign_prop key v props) = v.
Proof.
  induction props as [|[k w] props IH]; simpl.
  - by rewrite String.eqb_refl.
  - destruct (String.eqb k key) eqn:Hk; simpl; by rewrite Hk.
Qed.

Lemma lookup_assign_ne key k v props :
  k <> key -> lookup_prop k (assign_prop key v props) = lookup_prop k props.
Proof.
  intros Hne. induction props as [|[k' w] props IH]; simpl.
  - destruct (String.eqb_spec key k); [congruence|done].
  - destruct (String.eqb_spec k' key) as [->|Hk']; simpl.
    + destruct (String.eqb_spec key k); [congruence|done].
    + by rewrite IH.
Qed.

Lemma keys_assign key v props :
  key ∈ map fst props -> map fst (assign_prop key v props) = map fst props.
Proof.
  induction props as [|[k w] props IH]; simpl; intros Hin; [by apply elem_of_nil in Hin|].
  destruct (String.eqb_spec k key) as [->|Hne]; simpl; [done|].
  apply elem_of_cons in Hin as [->|Hin]; [done|]. by rewrite IH.
Qed.

Lemma assign_same key props :
  key ∈ map fst props -> assign_prop key (lookup_prop key props) props = props.
Proof.
  induction props as [|[k w] props IH]; simpl; intros Hin; [by apply elem_of_nil in Hin|].
  destruct (String.eqb_spec k key) as [->|Hne]; simpl; [done|].
  apply elem_of_cons in Hin as [->|Hin]; [done|]. by rewrite IH.
Qed.

Lemma lookup_prop_absent key props : key ∉ map fst props -> lookup_prop key props = JSUndefined.
Proof.
  induction props as [|[k w] props IH]; simpl; intros Hin; [done|].
  apply not_elem_of_cons in Hin as [Hne Hin].
  destruct (String.eqb_spec k key); [congruence|]. by apply IH.
Qed.

Lemma Object_keys_elem key props : key ∈ Object_keys props <-> key ∈ map fst props.
Proof. unfold Object_keys. apply elem_of_remove_dups. Qed.

Lemma get_type_reference v t :
  get v "type" = Ok t -> strict_eq_number t 5 = is_reference v.
Proof. destruct v; simpl; intros H; try discriminate; by injection H as <-. Qed.

Lemma getItemByIDJSON_fetch state model m reference id :
  models state !! model = Some m ->
  get reference "value" = Ok id ->
  PropertyManager.getItemByIDJSON state model id = Ok (fetch (jsonData m) reference).
Proof.
  intros Hm Hid. unfold PropertyManager.getItemByIDJSON, PropertyManager.getItemsByIDJSON,
    PropertyManager.getModel, fetch.
  rewrite Hm. simpl. by rewrite (get_Ok_field _ _ _ Hid).
Qed.

Lemma getMultipleJSONItem_Ok state self model m item out :
  models state !! model = Some m ->
  PropertyManager.getMultipleJSONItem state self model item = Ok out ->
  item_step self (jsonData m) item out /\ is_defined item = true.
Proof.
  intros Hm. unfold PropertyManager.getMultipleJSONItem. intros H.
  apply bind_Ok in H as (t & Ht & H).
  assert (Hdef : is_defined item = true) by (by destruct item).
  split; [|done]. rewrite (get_type_reference _ _ Ht) in H.
  destruct (is_reference item) eqn:Href.
  - left. split; [done|]. apply bind_Ok in H as (id & Hid & H).
    rewrite (getItemByIDJSON_fetch _ _ _ _ _ Hm Hid) in H. simpl in H.
    apply bind_Ok in H as (resolved & Hresolved & H). injection H as <-. eauto.
  - right. by injection H as <-.
Qed.

Lemma field_step_unchanged self data v jsonObject key :
  isArray v = false ->
  is_reference v = false ->
  lookup_prop key jsonObject = v ->
  key ∈ map fst jsonObject ->
  exists out, field_step self data v out /\ jsonObject = assign_prop key out jsonObject.
Proof.
  intros Harray Href <- Hkey. exists (lookup_prop key jsonObject). split.
  - destruct (lookup_prop key jsonObject); try discriminate; by right.
  - by rewrite assign_same.
Qed.

Lemma getJSONItem_Ok state self model m jsonObject key jsonObject' :
  models state !! model = Some m ->
  key ∈ map fst jsonObject ->
  PropertyManager.getJSONItem state self model jsonObject key = Ok jsonObject' ->
  exists out, field_step self (jsonData m) (lookup_prop key jsonObject) out
              /\ jsonObject' = assign_prop key out jsonObject.
Proof.
  intros Hm Hkey. unfold PropertyManager.getJSONItem, PropertyManager.getMultipleJSONItems.
  destruct (lookup_prop key jsonObject) as [| |b|n|s|items|props] eqn:Hv; simpl.
  - intros [= <-]. by apply (field_step_unchanged self (jsonData m) JSUndefined).
  - intros [= <-]. by apply (field_step_unchanged self (jsonData m) JSNull).
  - destruct b; intros [= <-];
      by apply (field_step_unchanged self (jsonData m) (JSBool _)).
  - destruct (negb (Z.eqb n 0)); intros [= <-];
      by apply (field_step_unchanged self (jsonData m) (JSNumber n)).
  - destruct (negb (String.eqb s "")); intros [= <-];
      by apply (field_step_unchanged self (jsonData m) (JSString s)).
  - intros H. apply bind_Ok in H as (mapped & Hmapped & H). injection H as <-.
    exists (JSArray mapped). split; [|done]. exists mapped. split; [done|].
    apply mapM_Ok_Forall2 in Hmapped. split.
    + eapply Forall2_impl; [done|]. intros item out Hout.
      by apply (getMultipleJSONItem_Ok _ _ _ _ _ _ Hm) in Hout as [Hstep _].
    + eapply Forall2_Forall_l; [done|]. apply Forall_forall. intros out _ item Hout.
      by apply (getMultipleJSONItem_Ok _ _ _ _ _ _ Hm) in Hout as [_ Hdef].
  - destruct (strict_eq_number (lookup_prop "type" props) 5) eqn:Href.
    + intros H. apply bind_Ok in H as (fetched & Hfetched & H).
      rewrite (getItemByIDJSON_fetch state model m (JSObject props)) in Hfetched by done.
      injection Hfetched as <-. apply bind_Ok in H as (resolved & Hresolved & H).
      injection H as <-. eexists. split; [|done]. left. split; [done|]. eauto.
    + intros [= <-]. by apply (field_step_unchanged self (jsonData m) (JSObject props)).
Qed.

(** The loop over the keys of a record: every key is resolved once, the
    other properties and the order of the properties are kept. *)
Lemma getJSONItem_fold_Ok state self model m keys jsonObject out :
  models state !! model = Some m ->
  NoDup keys ->
  (forall k, k ∈ keys -> k ∈ map fst jsonObject) ->
  foldM (PropertyManager.getJSONItem state self model) keys jsonObject = Ok out ->
  map fst out = map fst jsonObject
  /\ (forall k, k ∈ keys ->
                field_step self (jsonData m) (lookup_prop k jsonObject) (lookup_prop k out))
  /\ (forall k, k ∉ keys -> lookup_prop k out = lookup_prop k jsonObject).
Proof.
  intros Hm. revert jsonObject.
  induction keys as [|key keys IH]; simpl; intros jsonObject Hnd Hkeys H.
  - injection H as <-. split; [done|]. split; [|done]. intros k Hk. by apply elem_of_nil in Hk.
  - apply bind_Ok in H as (jsonObject1 & Hstep & H). apply NoDup_cons in Hnd as [Hfresh Hnd].
    assert (Hkey : key ∈ map fst jsonObject) by (apply Hkeys; left).
    apply (getJSONItem_Ok _ _ _ _ _ _ _ Hm Hkey) in Hstep as (v & Hv & ->).
    destruct (IH (assign_prop key v jsonObject) Hnd) as (Hfst & Hin & Hout); [|done|].
    { intros k Hk. rewrite keys_assign by done. apply Hkeys. by right. }
    split; [by rewrite Hfst, keys_assign|]. split.
    + intros k Hk. apply elem_of_cons in Hk as [->|Hk].
      * by rewrite (Hout key Hfresh), lookup_assign_eq.
      * specialize (Hin k Hk). rewrite lookup_assign_ne in Hin; [done|]. by intros ->.
    + intros k Hk. apply not_elem_of_cons in Hk as [Hne Hk].
      by rewrite (Hout k Hk), lookup_assign_ne.
Qed.

(** What the expansion returns is the record with its references resolved. *)
Lemma getJSONReferencesRecursively_Resolved state model m fuel raw out :
  models state !! model = Some m ->
  PropertyManager.getJSONReferencesRecursively state fuel model raw = Ok out ->
  Resolved (jsonData m) raw out.
Proof.
  intros Hm. revert raw out. induction fuel as [|fuel IH]; intros raw out H; [discriminate|].
  simpl in H.
  apply (getJSONItem_fold_Ok _ _ _ _ _ _ _ Hm) in H as (Hfst & Hin & _);
    [|apply NoDup_remove_dups|by intros k Hk; apply Object_keys_elem].
  assert (Hitem : forall item o,
            item_step (PropertyManager.getJSONReferencesRecursively state fuel model)
                      (jsonData m) item o ->
            ResolvedItem (jsonData m) item o).
  { intros item o [(Href & resolved & Hresolved & ->)|(Href & ->)].
    - apply ResolvedItem_reference; [done|]. by apply IH.
    - by apply ResolvedItem_other. }
  constructor; [done|]. intros key Hkey. specialize (Hin key Hkey).
  destruct (lookup_prop key raw) as [| | | | |items|] eqn:Hv;
    try (apply ResolvedField_single; [done|]; by apply Hitem).
  destruct Hin as (outs & -> & Hsteps & _). apply ResolvedField_array.
  eapply Forall2_impl; [done|]. exact Hitem.
Qed.

(** Resolution makes no reference out of a record that is none. *)
Lemma Resolved_not_reference data raw out :
  Resolved data raw out ->
  is_reference (JSObject raw) = false ->
  is_reference (JSObject out) = false.
Proof.
  intros H Href. inversion H as [raw' out' Hfst Hfields]; subst. simpl in *.
  destruct (decide ("type" ∈ map fst raw)) as [Hin|Hnotin].
  - apply Object_keys_elem in Hin. specialize (Hfields _ Hin).
    inversion Hfields as [items outs Hitems|v o Harray Hitem]; subst; [done|].
    inversion Hitem; subst; [done|congruence].
  - rewrite lookup_prop_absent; [done|]. by rewrite Hfst.
Qed.

Lemma existsb_false {A} (f : A -> bool) (l : list A) :
  existsb f l = false <-> Forall (fun a => f a = false) l.
Proof.
  induction l as [|a l IH]; simpl; [by split|]. rewrite orb_false_iff, IH.
  split; [intros [Ha Hl]; by constructor|]. intros H. by apply Forall_cons in H.
Qed.

(** No field of a resolved record is of reference type, and no element of
    an array field is, when the records of the model are no references. *)
Lemma Resolved_no_reference_field data raw out :
  (forall reference, is_reference (JSObject (fetch data reference)) = false) ->
  Resolved data raw out ->
  has_reference_field out = false.
Proof.
  intros Hdata H. inversion H as [raw' out' Hfst Hfields]; subst.
  assert (Hitem : forall item o, ResolvedItem data item o -> is_reference o = false).
  { intros item o Hitem. inversion Hitem as [item' resolved Href Hres|item' Href]; subst.
    - eapply Resolved_not_reference; [exact Hres|apply Hdata].
    - done. }
  unfold has_reference_field. apply existsb_false, Forall_forall. intros key Hkey.
  assert (Hkey' : key ∈ Object_keys raw) by (unfold Object_keys in *; by rewrite <- Hfst).
  specialize (Hfields key Hkey'). unfold references_in.
  inversion Hfields as [items outs Hitems|v o Harray Hsingle]; subst.
  - simpl. apply existsb_false. clear -Hitems Hitem.
    induction Hitems as [|item o items outs Ho _ IH]; constructor; [|done].
    by eapply Hitem.
  - rewrite (Hitem _ _ Hsingle). simpl.
    inversion Hsingle as [item' resolved Href Hres|item' Href]; subst; [done|].
    match goal with
    | H : isArray ?v = false |- _ => by destruct v
    end.
Qed.

(** The records of a model whose type names can be read are no references. *)
Lemma all_typed_not_reference data reference :
  all_typed data -> is_reference (JSObject (fetch data reference)) = false.
Proof.
  intros Hall. unfold fetch.
  destruct (PropertyManager.jsonData_get data (field reference "value")) as [record|] eqn:Hget;
    [|done].
  destruct (jsonData_get_elem _ _ _ Hget) as (n & Hin & Hn).
  rewrite (jsonData_get_key _ _ _ Hn) in Hget.
  unfold all_typed in Hall. rewrite Forall_forall in Hall.
  destruct (Hall n) as [t Ht].
  { apply list_elem_of_In, in_map_iff. exists (n, record). by rewrite <- list_elem_of_In. }
  rewrite Hget in Ht. simpl in *.
  by destruct (lookup_prop "type" record).
Qed.

(** A field without reference, whose elements can be read, is left as it
    is. *)
Lemma getJSONItem_unchanged state self model jsonObject key :
  key ∈ map fst jsonObject ->
  references_in (lookup_prop key jsonObject) = false ->
  (forall items, lookup_prop key jsonObject = JSArray items ->
                 Forall (fun item => is_defined item = true) items) ->
  PropertyManager.getJSONItem state self model jsonObject key = Ok jsonObject.
Proof.
  intros Hkey Href Hdefined.
  unfold PropertyManager.getJSONItem, PropertyManager.getMultipleJSONItems.
  unfold references_in in Href. apply orb_false_iff in Href as [Href Helems].
  destruct (lookup_prop key jsonObject) as [| |b|n|s|items|props] eqn:Hv; simpl; try done.
  - by destruct b.
  - by destruct (negb _).
  - by destruct (negb _).
  - specialize (Hdefined items eq_refl). apply existsb_false in Helems.
    assert (Hmap : mapM (PropertyManager.getMultipleJSONItem state self model) items
                   = Ok items).
    { clear Hv. induction items as [|item items IH]; simpl; [done|].
      apply Forall_cons in Hdefined as [Hdef Hdefined].
      apply Forall_cons in Helems as [Hitem Helems]. rewrite IH by done.
      unfold PropertyManager.getMultipleJSONItem.
      destruct item as [| | | | | |props]; simpl in *; try done.
      by rewrite Hitem. }
    rewrite Hmap. simpl. by rewrite <- Hv, assign_same.
  - simpl in Href. by rewrite Href.
Qed.

Lemma getJSONReferencesRecursively_unchanged state fuel model record :
  has_reference_field record = false ->
  has_undefined_element record = false ->
  PropertyManager.getJSONReferencesRecursively state (S fuel) model record = Ok record.
Proof.
  intros Href Hdef. simpl.
  unfold has_reference_field in Href. unfold has_undefined_element in Hdef.
  rewrite existsb_false, Forall_forall in Href. rewrite existsb_false, Forall_forall in Hdef.
  assert (Hkeys : forall k, k ∈ Object_keys record -> k ∈ map fst record)
    by (intros k; apply Object_keys_elem).
  revert Href Hdef Hkeys. generalize (Object_keys record). intros keys Href Hdef Hkeys.
  induction keys as [|key keys IH]; simpl; [done|].
  rewrite getJSONItem_unchanged; simpl.
  - apply IH; intros k Hk; [apply Href|apply Hdef|apply Hkeys]; by right.
  - apply Hkeys. left.
  - apply Href. left.
  - intros items Hitems. specialize (Hdef key). rewrite Hitems in Hdef.
    eapply Forall_impl; [apply existsb_false, Hdef; left|].
    intros item Hitem. simpl in Hitem. by destruct (is_defined item).
Qed.

Lemma getMultipleJSONItem_total state self model m item :
  models state !! model = Some m ->
  is_defined item = true ->
  (is_reference item = true -> exists resolved, self (fetch (jsonData m) item) = Ok resolved) ->
  exists out, PropertyManager.getMultipleJSONItem state self model item = Ok out.
Proof.
  intros Hm Hdef Hself. unfold PropertyManager.getMultipleJSONItem.
  destruct item as [| | | | | |props]; simpl in *; try done; eauto.
  destruct (strict_eq_number (lookup_prop "type" props) 5) eqn:Href; [|eauto].
  rewrite (getItemByIDJSON_fetch state model m (JSObject props)) by done. simpl.
  destruct (Hself eq_refl) as [resolved ->]. simpl. eauto.
Qed.

Lemma getJSONItem_total state self model m jsonObject key :
  models state !! model = Some m ->
  key ∈ map fst jsonObject ->
  (forall items, lookup_prop key jsonObject = JSArray items ->
                 Forall (fun item => is_defined item = true) items) ->
  (forall item,
     (item = lookup_prop key jsonObject
      \/ exists items, lookup_prop key jsonObject = JSArray items /\ item ∈ items) ->
     is_reference item = true ->
     exists resolved, self (fetch (jsonData m) item) = Ok resolved) ->
  exists out,
    PropertyManager.getJSONItem state self model jsonObject key
    = Ok (assign_prop key out jsonObject).
Proof.
  intros Hm Hkey Hdefined Hself.
  unfold PropertyManager.getJSONItem, PropertyManager.getMultipleJSONItems.
  destruct (lookup_prop key jsonObject) as [| |b|n|s|items|props] eqn:Hv; simpl.
  - exists JSUndefined. by rewrite <- Hv, assign_same.
  - exists JSNull. by rewrite <- Hv, assign_same.
  - exists (JSBool b). rewrite <- Hv, assign_same by done. by destruct b.
  - exists (JSNumber n). rewrite <- Hv, assign_same by done. by destruct (negb _).
  - exists (JSString s). rewrite <- Hv, assign_same by done. by destruct (negb _).
  - destruct (mapM_exists (PropertyManager.getMultipleJSONItem state self model) items)
      as [outs Houts].
    + specialize (Hdefined items eq_refl). rewrite Forall_forall in Hdefined.
      apply Forall_forall. intros item Hitem.
      apply (getMultipleJSONItem_total state self model m); [done|by apply Hdefined|].
      apply Hself. right. by exists items.
    + rewrite Houts. simpl. eauto.
  - destruct (strict_eq_number (lookup_prop "type" props) 5) eqn:Href.
    + rewrite (getItemByIDJSON_fetch state model m (JSObject props)) by done. simpl.
      destruct (Hself (JSObject props)) as [resolved ->]; [by left|done|]. simpl. eauto.
    + exists (JSObject props). by rewrite <- Hv, assign_same.
Qed.

Lemma getJSONItem_fold_total state self model m keys jsonObject :
  models state !! model = Some m ->
  NoDup keys ->
  (forall k, k ∈ keys -> k ∈ map fst jsonObject) ->
  (forall k items, k ∈ keys -> lookup_prop k jsonObject = JSArray items ->
                   Forall (fun item => is_defined item = true) items) ->
  (forall k item,
     k ∈ keys ->
     (item = lookup_prop k jsonObject
      \/ exists items, lookup_prop k jsonObject = JSArray items /\ item ∈ items) ->
     is_reference item = true ->
     exists resolved, self (fetch (jsonData m) item) = Ok resolved) ->
  exists out, foldM (PropertyManager.getJSONItem state self model) keys jsonObject = Ok out.
Proof.
  intros Hm. revert jsonObject.
  induction keys as [|key keys IH]; simpl; intros jsonObject Hnd Hkeys Hdefined Hself;
    [eauto|].
  apply NoDup_cons in Hnd as [Hfresh Hnd].
  destruct (getJSONItem_total state self model m jsonObject key) as [out ->]; try done.
  - apply Hkeys. left.
  - intros items. apply Hdefined. left.
  - intros item. apply Hself. left.
  - simpl.
    assert (Hother : forall k, k ∈ keys ->
              lookup_prop k (assign_prop key out jsonObject) = lookup_prop k jsonObject).
    { intros k Hk. apply lookup_assign_ne. by intros ->. }
    apply IH; [done|..].
    + intros k Hk. rewrite keys_assign; [apply Hkeys; by right|apply Hkeys; left].
    + intros k items Hk. rewrite Hother by done. apply Hdefined. by right.
    + intros k item Hk. rewrite Hother by done. apply Hself. by right.
Qed.

(** Enough fuel resolves a record whose references are of bounded depth. *)
Lemma getJSONReferencesRecursively_total state model m depth record :
  models state !! model = Some m ->
  resolvable_within (jsonData m) depth record ->
  exists out, PropertyManager.getJSONReferencesRecursively state depth model record = Ok out.
Proof.
  intros Hm. revert record. induction depth as [|depth IH]; intros record Hdepth; [done|].
  destruct Hdepth as [Hdef Hrefs]. simpl.
  apply (getJSONItem_fold_total state _ model m); [done|apply NoDup_remove_dups|..].
  - intros k. apply Object_keys_elem.
  - intros k items Hk Hitems. unfold has_undefined_element in Hdef.
    rewrite existsb_false, Forall_forall in Hdef. specialize (Hdef k Hk).
    rewrite Hitems in Hdef. eapply Forall_impl; [apply existsb_false, Hdef|].
    intros item Hitem. simpl in Hitem. by destruct (is_defined item).
  - intros k item Hk Hitem Href. apply IH. by eapply Hrefs.
Qed.

Lemma getPropertyJSON_related_records env state fuel model elementID recursive propName :
  PropertyManager.getPropertyJSON env state fuel model elementID recursive propName
  = let* result := related_records env state model elementID propName in
    if recursive
    then let* resolved := mapM (PropertyManager.getJSONReferencesRecursively state fuel model)
                            result in
         Ok (map JSObject resolved)
    else Ok (map JSObject result).
Proof.
  unfold PropertyManager.getPropertyJSON, related_records.
  by destruct (PropertyManager.getAllRelatedItemsOfTypeJSON _ _ _ _ _).
Qed.

Lemma related_records_Ok env state model elementID propName records :
  related_records env state model elementID propName = Ok records ->
  exists m, models state !! model = Some m /\ all_typed (jsonData m).
Proof.
  unfold related_records, PropertyManager.getAllRelatedItemsOfTypeJSON. intros H.
  apply bind_Ok in H as (resultIDs & HIDs & _). apply bind_Ok in HIDs as (lines & Hlines & _).
  apply getAllItemsOfTypeJSON_Ok in Hlines as (m & typeName & Hm & _ & Hall & _). eauto.
Qed.

(** No fuel resolves a record from which a cycle of references can be
    reached: the expansion keeps no record of the references it follows. *)
Lemma reaches_reference_cycle_step data record :
  reaches_reference_cycle data record ->
  exists target, reference_edge data record target /\ reaches_reference_cycle data target.
Proof.
  assert (Hfirst : forall x y, tc (reference_edge data) x y ->
                     exists z, reference_edge data x z /\ rtc (reference_edge data) z y).
  { intros x y Hxy. destruct Hxy as [x y Hedge|x z y Hedge Hzy].
    - exists y. by split.
    - exists z. split; [done|]. by apply tc_rtc. }
  intros (b & Hpath & Hcycle). destruct Hpath as [k|k c b Hedge Hpath].
  - destruct (Hfirst _ _ Hcycle) as (z & Hedge & Hback).
    exists z. split; [done|]. by exists k.
  - exists c. split; [done|]. by exists b.
Qed.

Lemma getJSONReferencesRecursively_cycle state model m fuel record out :
  models state !! model = Some m ->
  reaches_reference_cycle (jsonData m) record ->
  PropertyManager.getJSONReferencesRecursively state fuel model record <> Ok out.
Proof.
  intros Hm. revert record out.
  induction fuel as [|fuel IH]; intros record out Hcycle H; [discriminate|].
  simpl in H.
  apply (getJSONItem_fold_Ok _ _ _ _ _ _ _ Hm) in H as (_ & Hin & _);
    [|apply NoDup_remove_dups|by intros k Hk; apply Object_keys_elem].
  apply reaches_reference_cycle_step in Hcycle
    as (target & (key & item & Hkey & Hitem & Href & ->) & Hcycle).
  specialize (Hin key Hkey).
  assert (Hstep : exists o,
            item_step (PropertyManager.getJSONReferencesRecursively state fuel model)
                      (jsonData m) item o).
  { destruct Hitem as [->|(items & Hitems & Hitem)].
    - destruct (lookup_prop key record) as [| | | | |items|] eqn:Hv; try done; eauto.
    - rewrite Hitems in Hin. destruct Hin as (outs & _ & Hsteps & _).
      apply list_elem_of_lookup in Hitem as [i Hi].
      destruct (Forall2_lookup_l _ _ _ _ _ Hsteps Hi) as (o & _ & Ho). eauto. }
  destruct Hstep as [o [(_ & resolved & Hresolved & _)|(Hnot & _)]]; [|congruence].
  by apply IH in Hresolved.
Qed.

(** C6, as the code has it.  Whenever the related records are returned with
    expansion, they are the fetched records with their references resolved:
    array fields mapped element by element, every element and every field
    of reference type replaced by the copy of its target, itself resolved,
    so that no field and no element of an array field is of reference type.
    The expansion leaves as it is a record without reference whose arrays
    hold neither [undefined] nor [null].  The records are returned, with
    fuel for the depth, when the references that can be reached from them
    are of bounded depth and the arrays on the way hold neither [undefined]
    nor [null]; no fuel returns them when a cycle of references can be
    reached from one of them. *)
Theorem getPropertyJSON_resolved env state model elementID propName :
  (forall fuel result,
     PropertyManager.getPropertyJSON env state fuel model elementID true propName = Ok result ->
     exists m records resolved,
       models state !! model = Some m
       /\ related_records env state model elementID propName = Ok records
       /\ Forall2 (Resolved (jsonData m)) records resolved
       /\ result = map JSObject resolved
       /\ Forall (fun record => has_reference_field record = false) resolved)
  /\ (forall fuel record,
        has_reference_field record = false ->
        has_undefined_element record = false ->
        PropertyManager.getJSONReferencesRecursively state (S fuel) model record = Ok record)
  /\ (forall m records depth,
        models state !! model = Some m ->
        related_records env state model elementID propName = Ok records ->
        Forall (resolvable_within (jsonData m) depth) records ->
        exists result,
          PropertyManager.getPropertyJSON env state depth model elementID true propName
          = Ok result)
  /\ (forall m records record,
        models state !! model = Some m ->
        related_records env state model elementID propName = Ok records ->
        record ∈ records ->
        reaches_reference_cycle (jsonData m) record ->
        never_returns
          (fun fuel => PropertyManager.getPropertyJSON env state fuel model elementID true
                         propName)).
Proof.
  split; [|split; [|split]].
  - intros fuel result H. rewrite getPropertyJSON_related_records in H.
    apply bind_Ok in H as (records & Hrecords & H).
    apply bind_Ok in H as (resolved & Hresolved & H). injection H as <-.
    destruct (related_records_Ok _ _ _ _ _ _ Hrecords) as (m & Hm & Htyped).
    exists m, records, resolved. split; [done|]. split; [done|].
    apply mapM_Ok_Forall2 in Hresolved.
    assert (Hall : Forall2 (Resolved (jsonData m)) records resolved).
    { eapply Forall2_impl; [done|]. intros raw out.
      by apply getJSONReferencesRecursively_Resolved. }
    split; [done|]. split; [done|].
    eapply Forall2_Forall_r; [exact Hall|]. apply Forall_forall. intros raw _ out.
    apply Resolved_no_reference_field. intros reference.
    by apply all_typed_not_reference.
  - intros fuel record. apply getJSONReferencesRecursively_unchanged.
  - intros m records depth Hm Hrecords Hdepth. rewrite getPropertyJSON_related_records.
    rewrite Hrecords. simpl.
    destruct (mapM_exists (PropertyManager.getJSONReferencesRecursively state depth model)
                records) as [resolved ->]; [|simpl; eauto].
    eapply Forall_impl; [done|]. intros record.
    by apply getJSONReferencesRecursively_total.
  - intros m records record Hm Hrecords Hrecord Hcycle fuel result H.
    rewrite getPropertyJSON_related_records, Hrecords in H. simpl in H.
    apply bind_Ok in H as (resolved & Hresolved & _). apply mapM_Ok_Forall2 in Hresolved.
    apply list_elem_of_lookup in Hrecord as [i Hi].
    destruct (Forall2_lookup_l _ _ _ _ _ Hresolved Hi) as (out & _ & Hout).
    by apply (getJSONReferencesRecursively_cycle _ _ _ _ _ _ Hm Hcycle) in Hout.
Qed.

Lemma getPropertyJSON_resolved_witness :
  PropertyManager.getPropertySets Fixture.env (Fixture.jsonState Fixture7.properties)
    4 0 3 true
  = Ok [JSObject Fixture8.wallPropertiesResolved; JSObject Fixture7.sharedProperties]
  /\ has_reference_field Fixture8.wallPropertiesResolved = false
  /\ PropertyManager.getJSONReferencesRecursively (Fixture.jsonState Fixture7.properties)
       1 0 Fixture7.sharedProperties = Ok Fixture7.sharedProperties.
Proof.
  assert (Hrun : PropertyManager.getPropertyJSON Fixture.env
                   (Fixture.jsonState Fixture7.properties) 4 0 3 true (psets Fixture.names)
                 = Ok [JSObject Fixture8.wallPropertiesResolved;
                       JSObject Fixture7.sharedProperties]).
  { vm_compute. reflexivity. }
  destruct (getPropertyJSON_resolved Fixture.env (Fixture.jsonState Fixture7.properties)
              0 3 (psets Fixture.names)) as (Hresolved & Hunchanged & _ & _).
  split; [exact Hrun|]. split.
  - destruct (Hresolved _ _ Hrun) as (m & records & resolved & _ & _ & _ & Hresult & Hnone).
    destruct resolved as [|first resolved]; [discriminate|].
    injection Hresult as <- _. by apply Forall_cons in Hnone as [Hfirst _].
  - apply (Hunchanged 0%nat); reflexivity.
Defined.

Lemma cyclic_fixture_reaches_cycle :
  reaches_reference_cycle Fixture9.cyclic Fixture9.first.
Proof.
  exists Fixture9.first. split; [apply rtc_refl|].
  apply tc_l with Fixture9.second; [|apply tc_once].
  - exists "Next", (Fixture.handle 41). split; [vm_compute; repeat constructor|].
    split; [by left|]. split; reflexivity.
  - exists "Next", (Fixture.handle 40). split; [vm_compute; repeat constructor|].
    split; [by left|]. split; reflexivity.
Qed.

(** The claim C6 fails on a record without reference whose array holds
    [null]: the expansion throws instead of leaving the record as it is;
    and on records that refer to each other no fuel returns the related
    records. *)
Lemma getPropertySets_expansion_fails :
  has_reference_field Fixture8.nullElement = false
  /\ PropertyManager.getJSONReferencesRecursively (Fixture.jsonState Fixture8.withNull)
       3 0 Fixture8.nullElement = Throw TypeError
  /\ PropertyManager.getPropertySets Fixture.env (Fixture.jsonState Fixture8.withNull)
       3 0 3 false = Ok [JSObject Fixture8.nullElement]
  /\ PropertyManager.getPropertySets Fixture.env (Fixture.jsonState Fixture8.withNull)
       3 0 3 true = Throw TypeError
  /\ never_returns
       (fun fuel => PropertyManager.getPropertySets Fixture.env
                      (Fixture.jsonState Fixture9.cyclic) fuel 0 3 true).
Proof.
  split; [|split; [|split; [|split]]]; try (vm_compute; reflexivity).
  intros fuel result H.
  change (PropertyManager.getPropertyJSON Fixture.env (Fixture.jsonState Fixture9.cyclic)
            fuel 0 3 true (psets Fixture.names) = Ok result) in H.
  rewrite getPropertyJSON_related_records in H.
  assert (Hrecords : related_records Fixture.env (Fixture.jsonState Fixture9.cyclic) 0 3
                       (psets Fixture.names) = Ok [Fixture9.first])
    by (vm_compute; reflexivity).
  rewrite Hrecords in H. simpl in H.
  apply bind_Ok in H as (resolved & Hresolved & _).
  apply bind_Ok in Hresolved as (out & Hout & _).
  apply (getJSONReferencesRecursively_cycle (Fixture.jsonState Fixture9.cyclic) 0
           (Fixture2.modelOf Fixture9.cyclic)) in Hout; [done|reflexivity|].
  apply cyclic_fixture_reaches_cycle.
Qed.

(** ** Vertex data *)

Lemma mod3_next (i : nat) :
  ((i + 1) mod 3 =? 0)%nat = (i mod 3 =? 2)%nat
  /\ (S i mod 3 = if (i mod 3 =? 2)%nat then 0 else S (i mod 3))%nat.
Proof.
  pose proof (Nat.mod_upper_bound i 3 ltac:(lia)) as Hlt.
  pose proof (Nat.div_mod_eq i 3) as Hi.
  replace (i + 1)%nat with (S i) by lia.
  assert (HS : (S i mod 3 = if (i mod 3 =? 2)%nat then 0 else S (i mod 3))%nat).
  { destruct (i mod 3 =? 2)%nat eqn:Hc.
    - apply Nat.eqb_eq in Hc.
      replace (S i) with (0 + (S (i / 3)) * 3)%nat by lia. by rewrite Nat.Div0.mod_add.
    - apply Nat.eqb_neq in Hc.
      replace (S i) with (S (i mod 3) + (i / 3) * 3)%nat at 1 by lia.
      rewrite Nat.Div0.mod_add. apply Nat.mod_small. lia. }
  split; [|done].
  rewrite HS. destruct (i mod 3 =? 2)%nat eqn:Hc; [done|].
  apply Nat.eqb_neq. lia.
Qed.

(** The loop reads the index only through its remainder by three. *)
Lemma extractVertexData_from_shift {A} (t i : nat) (l v n : list A) flag :
  IFCParser.extractVertexData_from (i + 3 * t) l v n flag
  = IFCParser.extractVertexData_from i l v n flag.
Proof.
  revert i v n flag.
  induction l as [|x l IH]; intros i v n flag; cbn [IFCParser.extractVertexData_from]; [done|].
  replace (i + 3 * t + 1)%nat with (i + 1 + t * 3)%nat by lia.
  rewrite Nat.Div0.mod_add.
  replace (S (i + 3 * t)) with (S i + 3 * t)%nat by lia.
  apply IH.
Qed.

Lemma extractVertexData_from_acc {A} (i : nat) (l v n : list A) flag :
  IFCParser.extractVertexData_from i l v n flag
  = {| IFCParser.vertices :=
         v ++ IFCParser.vertices (IFCParser.extractVertexData_from i l [] [] flag);
       IFCParser.normals :=
         n ++ IFCParser.normals (IFCParser.extractVertexData_from i l [] [] flag) |}.
Proof.
  revert i v n flag. induction l as [|x l IH]; intros i v n flag; simpl.
  - by rewrite !app_nil_r.
  - rewrite IH.
    rewrite (IH _ (if flag then [] else [x]) (if flag then [x] else [])).
    simpl. destruct flag; simpl; by rewrite <- ?app_assoc, ?app_nil_r.
Qed.

(** Six elements are a vertex and its normal. *)
Lemma extractVertexData_six {A} (a b c d e f : A) (rest : list A) :
  IFCParser.extractVertexData (a :: b :: c :: d :: e :: f :: rest)
  = {| IFCParser.vertices :=
         a :: b :: c :: IFCParser.vertices (IFCParser.extractVertexData rest);
       IFCParser.normals :=
         d :: e :: f :: IFCParser.normals (IFCParser.extractVertexData rest) |}.
Proof.
  unfold IFCParser.extractVertexData.
  change (IFCParser.extractVertexData_from 0 (a :: b :: c :: d :: e :: f :: rest) [] [] false)
    with (IFCParser.extractVertexData_from (0 + 3 * 2) rest [a; b; c] [d; e; f] false).
  rewrite extractVertexData_from_shift.
  by rewrite extractVertexData_from_acc.
Qed.

(** Induction on a list six elements at a time. *)
Lemma list_ind_six {A} (P : list A -> Prop) :
  (forall l, (length l < 6)%nat -> P l) ->
  (forall a b c d e f rest, P rest -> P (a :: b :: c :: d :: e :: f :: rest)) ->
  forall l, P l.
Proof.
  intros Hshort Hsix l.
  assert (H : forall n l, (length l <= n)%nat -> P l); [|by apply (H (length l))].
  clear l. induction n as [|n IH]; intros l Hl.
  - apply Hshort. lia.
  - destruct l as [|a [|b [|c [|d [|e [|f rest]]]]]]; try (apply Hshort; simpl; lia).
    apply Hsix, IH. simpl in Hl. lia.
Qed.

(** X1: de-interleaving loses nothing: interleaving the vertices and the
    normals that [extractVertexData] returns gives the vertex data back,
    whatever its length; and vertex data interleaved from whole vertices and
    as many whole normals are taken apart into these. *)
Theorem extractVertexData_interleave {A} :
  (forall vertexData : list A,
     interleave (IFCParser.vertices (IFCParser.extractVertexData vertexData))
                (IFCParser.normals (IFCParser.extractVertexData vertexData))
     = vertexData)
  /\ (forall (vertices normals : list A) (k : nat),
        length vertices = (3 * k)%nat ->
        length normals = (3 * k)%nat ->
        IFCParser.extractVertexData (interleave vertices normals)
        = {| IFCParser.vertices := vertices; IFCParser.normals := normals |}).
Proof.
  split.
  - induction vertexData as [l Hl|a b c d e f rest IH] using list_ind_six.
    + destruct l as [|a [|b [|c [|d [|e [|f rest]]]]]]; try reflexivity.
      simpl in Hl. lia.
    + rewrite extractVertexData_six. simpl. by rewrite drop_0, IH.
  - intros vertices normals k. revert vertices normals.
    induction k as [|k IH]; intros vertices normals Hv Hn.
    + destruct vertices; [|discriminate]. by destruct normals.
    + destruct vertices as [|a [|b [|c vertices]]]; simpl in Hv; try lia.
      destruct normals as [|d [|e [|f normals]]]; simpl in Hn; try lia.
      simpl. rewrite drop_0, extractVertexData_six, IH by lia. done.
Qed.

Lemma extractVertexData_interleave_witness :
  interleave (IFCParser.vertices (IFCParser.extractVertexData [1; 2; 3; 4; 5; 6; 7; 8]))
             (IFCParser.normals (IFCParser.extractVertexData [1; 2; 3; 4; 5; 6; 7; 8]))
  = [1; 2; 3; 4; 5; 6; 7; 8]
  /\ IFCParser.extractVertexData (interleave [1; 2; 3] [4; 5; 6])
     = {| IFCParser.vertices := [1; 2; 3]; IFCParser.normals := [4; 5; 6] |}.
Proof.
  split.
  - exact (proj1 extractVertexData_interleave [1; 2; 3; 4; 5; 6; 7; 8]).
  - exact (proj2 extractVertexData_interleave [1; 2; 3] [4; 5; 6] 1%nat eq_refl eq_refl).
Defined.

(** X2: the coordinates of the vertex [k] are the elements [6k], [6k+1]
    and [6k+2] of the vertex data and those of its normal the elements
    [6k+3], [6k+4] and [6k+5], in this order; where the vertex data ends,
    so do the vertices and the normals. *)
Theorem extractVertexData_lookup {A} (vertexData : list A) (k j : nat) :
  (j < 3)%nat ->
  IFCParser.vertices (IFCParser.extractVertexData vertexData) !! (3 * k + j)%nat
  = vertexData !! (6 * k + j)%nat
  /\ IFCParser.normals (IFCParser.extractVertexData vertexData) !! (3 * k + j)%nat
     = vertexData !! (6 * k + 3 + j)%nat.
Proof.
  intros Hj. revert k.
  induction vertexData as [l Hl|a b c d e f rest IH] using list_ind_six; intros k.
  - destruct l as [|a [|b [|c [|d [|e [|f rest]]]]]]; try (simpl in Hl; lia);
      (destruct k as [|k];
       [ destruct j as [|[|[|j]]]; try lia; split; reflexivity
       | split; (etrans; [|symmetry]); apply lookup_ge_None; simpl; lia ]).
  - rewrite extractVertexData_six. cbn [IFCParser.vertices IFCParser.normals].
    destruct k as [|k].
    + destruct j as [|[|[|j]]]; try lia; split; reflexivity.
    + replace (3 * S k + j)%nat with (S (S (S (3 * k + j)))) by lia.
      replace (6 * S k + j)%nat with (S (S (S (S (S (S (6 * k + j))))))) by lia.
      replace (6 * S k + 3 + j)%nat with (S (S (S (S (S (S (6 * k + 3 + j))))))) by lia.
      cbn [lookup list_lookup]. apply IH.
Qed.

Lemma extractVertexData_lookup_witness :
  IFCParser.vertices (IFCParser.extractVertexData (seq 0 12)) !! (3 * 1 + 2)%nat
  = seq 0 12 !! (6 * 1 + 2)%nat
  /\ IFCParser.normals (IFCParser.extractVertexData (seq 0 12)) !! (3 * 1 + 2)%nat
     = seq 0 12 !! (6 * 1 + 3 + 2)%nat.
Proof. apply (extractVertexData_lookup (seq 0 12) 1 2). lia. Defined.

(** X3: every element of the vertex data is a coordinate of a vertex or of
    a normal, none twice; vertex data of [6k] elements gives [3k] coordinates
    of vertices and [3k] of normals, so the two attributes have the same
    count. *)
Theorem extractVertexData_length {A} (vertexData : list A) :
  IFCParser.vertices (IFCParser.extractVertexData vertexData)
    ++ IFCParser.normals (IFCParser.extractVertexData vertexData) ≡ₚ vertexData
  /\ (length (IFCParser.normals (IFCParser.extractVertexData vertexData))
      <= length (IFCParser.vertices (IFCParser.extractVertexData vertexData)))%nat
  /\ (forall k, length vertexData = (6 * k)%nat ->
        length (IFCParser.vertices (IFCParser.extractVertexData vertexData)) = (3 * k)%nat
        /\ length (IFCParser.normals (IFCParser.extractVertexData vertexData)) = (3 * k)%nat).
Proof.
  induction vertexData as [l Hl|a b c d e f rest IH] using list_ind_six.
  - destruct l as [|a [|b [|c [|d [|e [|f rest]]]]]]; try (simpl in Hl; lia);
      (split; [|split; [simpl; lia|]]);
      [ done | intros k Hk; simpl in *; lia
      | by rewrite app_nil_r | intros k Hk; simpl in *; lia
      | by rewrite app_nil_r | intros k Hk; simpl in *; lia
      | by rewrite app_nil_r | intros k Hk; simpl in *; lia
      | done | intros k Hk; simpl in *; lia
      | done | intros k Hk; simpl in *; lia ].
  - destruct IH as (Hperm & Hle & Hlen).
    rewrite extractVertexData_six. simpl. split; [|split].
    + do 3 f_equiv.
      rewrite <- Hperm at 3. 
      by rewrite !Permutation_middle.
    + lia.
    + intros [|k] Hk; [simpl in Hk; lia|].
      destruct (Hlen k) as [Hv Hn]; [simpl in Hk; lia|]. lia.
Qed.

Lemma extractVertexData_length_witness :
  length (IFCParser.vertices (IFCParser.extractVertexData (seq 0 12))) = (3 * 2)%nat
  /\ length (IFCParser.normals (IFCParser.extractVertexData (seq 0 12))) = (3 * 2)%nat.
Proof.
  exact (proj2 (proj2 (extractVertexData_length (seq 0 12))) 2%nat eq_refl).
Defined.

(** ** Properties that are asked for in the spatial structure *)

Lemma mapM_ext {A B} (f g : A -> Result B) (l : list A) :
  (forall a, f a = g a) -> mapM f l = mapM g l.
Proof. intros H. induction l as [|a l IH]; simpl; [done|]. by rewrite H, IH. Qed.

Lemma foldM_ext {A S} (f g : S -> A -> Result S) (l : list A) (s : S) :
  (forall s a, f s a = g s a) -> foldM f l s = foldM g l s.
Proof.
  intros H. revert s. induction l as [|a l IH]; intros s; simpl; [done|].
  rewrite H. destruct (g s a); simpl; auto.
Qed.

Lemma bind_ext {A B} (r : Result A) (k1 k2 : A -> Result B) :
  (forall a, k1 a = k2 a) -> bind r k1 = bind r k2.
Proof. intros H. destruct r; simpl; auto. Qed.

Lemma getChildren_includeProperties env state self self' modelID node (chunks : Chunks)
    propNames includeProperties includeProperties' :
  (forall n, self n = self' n) ->
  PropertyManager.getChildren env state self modelID node chunks propNames includeProperties
  = PropertyManager.getChildren env state self' modelID node chunks propNames
      includeProperties'.
Proof.
  intros Hself. unfold PropertyManager.getChildren.
  destruct (chunks !! _) as [childIDs|]; [|done].
  f_equal. apply mapM_ext. intros child. apply bind_ext. intros n.
  unfold PropertyManager.spread_promise.
  rewrite Hself. by destruct includeProperties, includeProperties'.
Qed.

Lemma getSpatialNode_includeProperties env state fuel modelID node (chunks : Chunks)
    includeProperties includeProperties' :
  PropertyManager.getSpatialNode env state fuel modelID node chunks includeProperties
  = PropertyManager.getSpatialNode env state fuel modelID node chunks includeProperties'.
Proof.
  revert node. induction fuel as [|fuel IH]; intros node; simpl; [done|].
  rewrite (getChildren_includeProperties env state _ _ modelID node chunks
             (aggregates (PropsNames env)) includeProperties includeProperties' IH).
  apply bind_ext. intros node'.
  by apply getChildren_includeProperties.
Qed.

(** X4: asking [getSpatialStructure] to include the properties changes
    nothing: [getChildren] spreads the promise that [getItemProperties]
    returns, without awaiting it, and a promise has no property to copy, so
    the nodes hold their id, their type and their children only. *)
Theorem getSpatialStructure_includeProperties env state fuel modelID :
  PropertyManager.getSpatialStructure env state fuel modelID true
  = PropertyManager.getSpatialStructure env state fuel modelID false.
Proof.
  unfold PropertyManager.getSpatialStructure, PropertyManager.getSpatialStructureJSON,
    PropertyManager.getSpatialStructureWebIfcAPI.
  destruct (useJSON state); apply bind_ext; intros chunks; apply bind_ext; intros ids;
    apply getSpatialNode_includeProperties.
Qed.

(** ** The nodes of the spatial structure *)

Lemma subnode_trans a b c : subnode a b -> subnode b c -> subnode a c.
Proof.
  intros Hab Hbc. induction Hbc as [|b c n Hc _ IH]; [done|].
  eapply subnode_child; [done|]. by apply IH.
Qed.

Lemma newNode_type env state modelID id n :
  PropertyManager.newNode env state modelID id = Ok n ->
  PropertyManager.getNodeType env state modelID id = Ok (type n).
Proof.
  unfold PropertyManager.newNode. intros H. apply bind_Ok in H as (t & Ht & H).
  by injection H as <-.
Qed.

Lemma set_nodes_type prop nodes node :
  type (PropertyManager.set_nodes prop nodes node) = type node.
Proof. unfold PropertyManager.set_nodes. by destruct (String.eqb _ _). Qed.

Lemma getChildren_type env state self modelID node (chunks : Chunks) propNames
    includeProperties node' :
  PropertyManager.getChildren env state self modelID node chunks propNames includeProperties
  = Ok node' ->
  type node' = type node.
Proof.
  intros H. apply getChildren_Ok in H as [[_ ->]|(ids & nodes & _ & _ & ->)]; [done|].
  apply set_nodes_type.
Qed.

(** What [getSpatialNode] builds under a fresh node is the tree of the
    chunks. *)
Lemma getSpatialNode_tree env state fuel modelID node (chunks : Chunks)
    includeProperties node' :
  key (spatial (PropsNames env)) = "children" ->
  children node = [] ->
  PropertyManager.getSpatialNode env state fuel modelID node chunks includeProperties
  = Ok node' ->
  expressID node' = expressID node
  /\ type node' = type node
  /\ tree_of_chunks env state modelID chunks node'.
Proof.
  intros Hkey. revert node node'.
  induction fuel as [|fuel IH]; intros node node' Hleaf H; [discriminate|].
  simpl in H. apply bind_Ok in H as (node1 & H1 & H2).
  pose proof (getChildren_expressID _ _ _ _ _ _ _ _ _ H1) as Hid1.
  pose proof (getChildren_expressID _ _ _ _ _ _ _ _ _ H2) as Hid2.
  pose proof (getChildren_type _ _ _ _ _ _ _ _ _ H1) as Ht1.
  pose proof (getChildren_type _ _ _ _ _ _ _ _ _ H2) as Ht2.
  split; [congruence|]. split; [congruence|].
  apply getChildren_Ok in H2 as [[Hnone ->]|(ids & nodes & Hids & Hnodes & ->)].
  - rewrite Hid1 in Hnone.
    apply getChildren_Ok in H1 as [[_ ->]|(ids & nodes & Hids & _)]; [|congruence].
    intros m Hm. apply (subnode_leaf _ _ Hleaf) in Hm as ->. by rewrite Hnone.
  - rewrite Hkey. unfold PropertyManager.set_nodes. simpl.
    assert (Hall : Forall2 (fun id n =>
                              (expressID n = id
                               /\ PropertyManager.getNodeType env state modelID id = Ok (type n))
                              /\ tree_of_chunks env state modelID chunks n)
                           ids nodes).
    { eapply Forall2_impl; [done|]. intros id n (n0 & Hn0 & Hn). simpl in Hn.
      pose proof (newNode_type _ _ _ _ _ Hn0) as Htype.
      apply newNode_Ok in Hn0 as [<- Hn0].
      destruct (IH _ _ Hn0 Hn) as (He & Ht & Htree). rewrite He, Ht. done. }
    intros m Hm. inversion Hm as [|m' c n' Hc Hmc]; subst.
    + simpl. rewrite Hids. eapply Forall2_impl; [done|]. by intros id n [? _].
    + simpl in Hc. apply list_elem_of_lookup in Hc as [i Hi].
      destruct (Forall2_lookup_r _ _ _ _ _ Hall Hi) as (id & _ & _ & Htree).
      by apply Htree.
Qed.

(** In the tree of the chunks, the nodes are the ids that the chunks reach
    from the root. *)
Lemma tree_of_chunks_reachable env state modelID (chunks : Chunks) root k :
  tree_of_chunks env state modelID chunks root ->
  (exists m, subnode m root /\ toPropertyKey (expressID m) = k)
  <-> rtc (chunk_edge chunks) (toPropertyKey (expressID root)) k.
Proof.
  intros Htree. split.
  - intros (m & Hm & <-). clear -Htree Hm.
    induction Hm as [|m c n Hc Hmc IH]; [done|].
    eapply rtc_l; [|apply IH; intros x Hx; apply Htree; by eapply subnode_child].
    specialize (Htree n (subnode_refl n)).
    destruct (chunks !! toPropertyKey (expressID n)) as [ids|] eqn:Hids.
    + apply list_elem_of_lookup in Hc as [i Hi].
      destruct (Forall2_lookup_r _ _ _ _ _ Htree Hi) as (id & Hid & He & _).
      exists ids, id. split; [done|]. split; [|by rewrite He].
      by eapply list_elem_of_lookup_2.
    + rewrite Htree in Hc. by apply elem_of_nil in Hc.
  - revert k. apply rtc_ind_r.
    + exists root. split; [apply subnode_refl|done].
    + intros k' k _ (ids & id & Hids & Hid & <-) (m & Hm & <-).
      pose proof (Htree m Hm) as Hshape. rewrite Hids in Hshape.
      apply list_elem_of_lookup in Hid as [i Hi].
      destruct (Forall2_lookup_l _ _ _ _ _ Hshape Hi) as (c & Hc & He & _).
      exists c. split; [|by rewrite He].
      eapply subnode_trans; [|done].
      eapply subnode_child; [|apply subnode_refl]. by eapply list_elem_of_lookup_2.
Qed.

(** The building of the fixtures: its chunks, the ids that they hold and
    their depth. *)
Lemma building_chunks :
  PropertyManager.getSpatialTreeChunks Fixture.env (Fixture.jsonState Fixture.building) 0
  = Ok Fixture4.treeChunks
  /\ projectID Fixture.env (Fixture.jsonState Fixture.building) 0 = Ok (JSNumber 1).
Proof. split; vm_compute; reflexivity. Qed.

Lemma building_ids_known :
  chunk_ids_known (Fixture.jsonState Fixture.building) 0 Fixture4.treeChunks.
Proof.
  intros k ids Hk. unfold Fixture4.treeChunks in Hk.
  assert (Hknown : forall id, id ∈ [JSNumber 2; JSNumber 3] ->
                     node_type_known (Fixture.jsonState Fixture.building) 0 id).
  { intros id Hid. exists (Fixture2.modelOf Fixture.building). split; [reflexivity|].
    intros _. apply elem_of_cons in Hid as [->|Hid]; [vm_compute; eauto|].
    apply list_elem_of_singleton in Hid as ->. vm_compute. eauto. }
  destruct (decide (k = "1")) as [->|Hne1].
  - rewrite lookup_insert_eq in Hk. injection Hk as <-.
    repeat constructor; apply Hknown; repeat constructor.
  - rewrite lookup_insert_ne in Hk by done.
    apply lookup_singleton_Some in Hk as [_ <-].
    repeat constructor; apply Hknown; repeat constructor.
Qed.

Lemma building_within_depth : within_depth Fixture4.treeChunks 3 (JSNumber 1).
Proof.
  cbn [within_depth]. intros ids1 H1. vm_compute in H1. injection H1 as <-.
  assert (Hwall : forall ids, Fixture4.treeChunks !! toPropertyKey (JSNumber 3) = Some ids ->
                    Forall (within_depth Fixture4.treeChunks 0) ids).
  { intros ids H. vm_compute in H. discriminate. }
  assert (Hsite : forall ids, Fixture4.treeChunks !! toPropertyKey (JSNumber 2) = Some ids ->
                    Forall (within_depth Fixture4.treeChunks 1) ids).
  { intros ids H. vm_compute in H. injection H as <-. repeat constructor. exact Hwall. }
  repeat constructor; try exact Hsite.
  all: intros ids H; vm_compute in H; discriminate.
Qed.

(** X5: when the chunks have a bounded depth under the project and the
    type of every id in them can be read, [getSpatialStructure] returns a
    tree whose root has the id of the project and whose nodes are exactly
    the ids that the chunks reach from the project: no id that the
    relations reach is left out, and no other id is in the tree. *)
Theorem getSpatialStructure_reachable env state modelID includeProperties (chunks : Chunks)
    rootID depth :
  key (spatial (PropsNames env)) = "children" ->
  PropertyManager.getSpatialTreeChunks env state modelID = Ok chunks ->
  projectID env state modelID = Ok rootID ->
  chunk_ids_known state modelID chunks ->
  within_depth chunks depth rootID ->
  exists root,
    PropertyManager.getSpatialStructure env state depth modelID includeProperties = Ok root
    /\ expressID root = rootID
    /\ forall k,
         (exists m, subnode m root /\ toPropertyKey (expressID m) = k)
         <-> rtc (chunk_edge chunks) (toPropertyKey rootID) k.
Proof.
  intros Hkey Hchunks Hroot Hknown Hdepth.
  rewrite getSpatialStructure_projectID, Hchunks, Hroot. simpl.
  destruct (getSpatialNode_total env state depth modelID (PropertyManager.newIfcProject rootID)
              chunks includeProperties Hknown Hdepth) as [root Hrun].
  exists root. split; [done|].
  apply getSpatialNode_tree in Hrun as (He & _ & Htree); [|done..].
  simpl in He. split; [done|]. intros k. rewrite <- He.
  by eapply tree_of_chunks_reachable.
Qed.

Lemma getSpatialStructure_reachable_witness :
  exists root,
    PropertyManager.getSpatialStructure Fixture.env (Fixture.jsonState Fixture.building)
      3 0 false = Ok root
    /\ expressID root = JSNumber 1
    /\ forall k,
         (exists m, subnode m root /\ toPropertyKey (expressID m) = k)
         <-> rtc (chunk_edge Fixture4.treeChunks) (toPropertyKey (JSNumber 1)) k.
Proof.
  exact (getSpatialStructure_reachable Fixture.env (Fixture.jsonState Fixture.building) 0
           false Fixture4.treeChunks (JSNumber 1) 3%nat eq_refl
           (proj1 building_chunks) (proj2 building_chunks)
           building_ids_known building_within_depth).
Defined.

(** X6: the root of the spatial structure has the type [IFCPROJECT];
    every other node has the type that [getNodeType] reads for its id: with
    JSON data the type of its record as it is stored, without JSON data the
    name in [IfcElements] of the type held for the id, [undefined] when
    none is held. *)
Theorem getSpatialStructure_types env state modelID includeProperties (chunks : Chunks)
    rootID depth :
  key (spatial (PropsNames env)) = "children" ->
  PropertyManager.getSpatialTreeChunks env state modelID = Ok chunks ->
  projectID env state modelID = Ok rootID ->
  chunk_ids_known state modelID chunks ->
  within_depth chunks depth rootID ->
  exists root,
    PropertyManager.getSpatialStructure env state depth modelID includeProperties = Ok root
    /\ type root = JSString "IFCPROJECT"
    /\ forall parent node,
         subnode parent root -> node ∈ children parent ->
         exists model,
           models state !! modelID = Some model
           /\ (useJSON state = true ->
               exists record,
                 PropertyManager.jsonData_get (jsonData model) (expressID node) = Some record
                 /\ type node = lookup_prop "type" record)
           /\ (useJSON state = false ->
               type node
               = match types model !! toPropertyKey (expressID node) with
                 | Some typeID =>
                     match IfcElements env !! typeID with
                     | Some typeName => JSString typeName
                     | None => JSUndefined
                     end
                 | None => JSUndefined
                 end).
Proof.
  intros Hkey Hchunks Hroot Hknown Hdepth.
  rewrite getSpatialStructure_projectID, Hchunks, Hroot. simpl.
  destruct (getSpatialNode_total env state depth modelID (PropertyManager.newIfcProject rootID)
              chunks includeProperties Hknown Hdepth) as [root Hrun].
  exists root. split; [done|].
  apply getSpatialNode_tree in Hrun as (_ & Ht & Htree); [|done..].
  split; [done|]. intros parent node Hparent Hnode.
  specialize (Htree parent Hparent).
  destruct (chunks !! toPropertyKey (expressID parent)) as [ids|];
    [|rewrite Htree in Hnode; by apply elem_of_nil in Hnode].
  apply list_elem_of_lookup in Hnode as [i Hi].
  destruct (Forall2_lookup_r _ _ _ _ _ Htree Hi) as (id & _ & <- & Htype).
  unfold PropertyManager.getNodeType, PropertyManager.getModel in Htype.
  destruct (models state !! modelID) as [model|]; [|discriminate].
  exists model. split; [done|]. simpl in Htype.
  destruct (useJSON state).
  - split; [|done]. intros _.
    destruct (PropertyManager.jsonData_get (jsonData model) (expressID node)) as [record|];
      [|discriminate].
    exists record. split; [done|]. by injection Htype as <-.
  - split; [done|]. intros _.
    destruct (types model !! toPropertyKey (expressID node)) as [typeID|];
      by injection Htype as <-.
Qed.

Lemma getSpatialStructure_types_witness :
  exists root,
    PropertyManager.getSpatialStructure Fixture.env (Fixture.jsonState Fixture.building)
      3 0 false = Ok root
    /\ type root = JSString "IFCPROJECT"
    /\ map type (children root)
       = [JSString "IfcSite"; JSString "IfcWall"; JSString "IfcWall"].
Proof.
  destruct (getSpatialStructure_types Fixture.env (Fixture.jsonState Fixture.building) 0
              false Fixture4.treeChunks (JSNumber 1) 3%nat eq_refl
              (proj1 building_chunks) (proj2 building_chunks)
              building_ids_known building_within_depth) as (root & Hroot & Htype & _).
  exists root. split; [exact Hroot|]. split; [exact Htype|].
  vm_compute in Hroot. injection Hroot as <-. reflexivity.
Defined.

(** ** What the property manager reads of the state *)

Section SameRecords.

Context (env : Imports) (s1 s2 : IfcState) (Hsame : same_records s1 s2).

Lemma bind_getModel {B} modelID (k1 k2 : IfcModel -> Result B) :
  (forall m1 m2, jsonData m1 = jsonData m2 -> types m1 = types m2 -> k1 m1 = k2 m2) ->
  bind (PropertyManager.getModel s1 modelID) k1 = bind (PropertyManager.getModel s2 modelID) k2.
Proof.
  intros Hk. unfold PropertyManager.getModel.
  destruct Hsame as (_ & _ & Hmodels).
  destruct (Hmodels modelID) as [m1 m2 [Hdata Htypes]|]; simpl; auto.
Qed.

Lemma same_getItemProperties modelID id recursive :
  PropertyManager.getItemProperties s1 modelID id recursive
  = PropertyManager.getItemProperties s2 modelID id recursive.
Proof.
  unfold PropertyManager.getItemProperties.
  destruct Hsame as (Hjson & Hapi & _). rewrite <- Hjson.
  destruct (useJSON s1).
  - apply bind_getModel. intros m1 m2 Hdata _. by rewrite Hdata.
  - by rewrite Hapi.
Qed.

Lemma same_getAllItemsOfTypeJSON modelID type verbose :
  PropertyManager.getAllItemsOfTypeJSON env s1 modelID type verbose
  = PropertyManager.getAllItemsOfTypeJSON env s2 modelID type verbose.
Proof.
  unfold PropertyManager.getAllItemsOfTypeJSON.
  apply bind_getModel. intros m1 m2 Hdata _. by rewrite Hdata.
Qed.

Lemma same_getItemsByIDJSON modelID ids :
  PropertyManager.getItemsByIDJSON s1 modelID ids
  = PropertyManager.getItemsByIDJSON s2 modelID ids.
Proof.
  unfold PropertyManager.getItemsByIDJSON.
  apply bind_getModel. intros m1 m2 Hdata _. by rewrite Hdata.
Qed.

Lemma same_getItemByIDJSON modelID id :
  PropertyManager.getItemByIDJSON s1 modelID id = PropertyManager.getItemByIDJSON s2 modelID id.
Proof. unfold PropertyManager.getItemByIDJSON. by rewrite same_getItemsByIDJSON. Qed.

Lemma same_getMultipleJSONItem self1 self2 modelID item :
  (forall record, self1 record = self2 record) ->
  PropertyManager.getMultipleJSONItem s1 self1 modelID item
  = PropertyManager.getMultipleJSONItem s2 self2 modelID item.
Proof.
  intros Hself. unfold PropertyManager.getMultipleJSONItem.
  apply bind_ext. intros t. destruct (strict_eq_number t 5); [|done].
  apply bind_ext. intros id. rewrite same_getItemByIDJSON.
  apply bind_ext. intros fetched. by rewrite Hself.
Qed.

Lemma same_getJSONItem self1 self2 modelID jsonObject key :
  (forall record, self1 record = self2 record) ->
  PropertyManager.getJSONItem s1 self1 modelID jsonObject key
  = PropertyManager.getJSONItem s2 self2 modelID jsonObject key.
Proof.
  intros Hself. unfold PropertyManager.getJSONItem, PropertyManager.getMultipleJSONItems.
  destruct (isArray _).
  - destruct (lookup_prop key jsonObject); try done.
    f_equal. apply mapM_ext. intros item. by apply same_getMultipleJSONItem.
  - destruct (truthy _); [|done].
    apply bind_ext. intros t. destruct (strict_eq_number t 5); [|done].
    apply bind_ext. intros id. rewrite same_getItemByIDJSON.
    apply bind_ext. intros fetched. by rewrite Hself.
Qed.

Lemma same_getJSONReferencesRecursively fuel modelID jsonObject :
  PropertyManager.getJSONReferencesRecursively s1 fuel modelID jsonObject
  = PropertyManager.getJSONReferencesRecursively s2 fuel modelID jsonObject.
Proof.
  revert jsonObject. induction fuel as [|fuel IH]; intros jsonObject; simpl; [done|].
  apply foldM_ext. intros object key. by apply same_getJSONItem.
Qed.

Lemma same_getPropertyJSON fuel modelID elementID recursive propName :
  PropertyManager.getPropertyJSON env s1 fuel modelID elementID recursive propName
  = PropertyManager.getPropertyJSON env s2 fuel modelID elementID recursive propName.
Proof.
  unfold PropertyManager.getPropertyJSON, PropertyManager.getAllRelatedItemsOfTypeJSON.
  rewrite same_getAllItemsOfTypeJSON. apply bind_ext. intros ids.
  rewrite same_getItemsByIDJSON. apply bind_ext. intros result.
  destruct recursive; [|done].
  f_equal. apply mapM_ext. intros record. apply same_getJSONReferencesRecursively.
Qed.

Lemma same_getAllItemsOfType modelID type verbose :
  PropertyManager.getAllItemsOfType env s1 modelID type verbose
  = PropertyManager.getAllItemsOfType env s2 modelID type verbose.
Proof.
  unfold PropertyManager.getAllItemsOfType, PropertyManager.getAllItemsOfTypeWebIfcAPI.
  destruct Hsame as (Hjson & Hapi & _). rewrite <- Hjson.
  destruct (useJSON s1); [apply same_getAllItemsOfTypeJSON|]. by rewrite Hapi.
Qed.

Lemma same_getProperty fuel modelID elementID recursive propName :
  PropertyManager.getProperty env s1 fuel modelID elementID recursive propName
  = PropertyManager.getProperty env s2 fuel modelID elementID recursive propName.
Proof.
  unfold PropertyManager.getProperty, PropertyManager.getPropertyWebIfcAPI,
    PropertyManager.getAllRelatedItemsOfTypeWebIfcAPI.
  destruct Hsame as (Hjson & Hapi & _). rewrite <- Hjson.
  destruct (useJSON s1); [apply same_getPropertyJSON|]. by rewrite Hapi.
Qed.

Lemma same_getSpatialTreeChunks modelID :
  PropertyManager.getSpatialTreeChunks env s1 modelID
  = PropertyManager.getSpatialTreeChunks env s2 modelID.
Proof.
  unfold PropertyManager.getSpatialTreeChunks, PropertyManager.getChunksJSON,
    PropertyManager.getChunksWebIfcAPI.
  destruct Hsame as (Hjson & Hapi & _). rewrite <- Hjson.
  destruct (useJSON s1); [by rewrite !same_getAllItemsOfTypeJSON|]. by rewrite Hapi.
Qed.

Lemma same_newNode modelID id :
  PropertyManager.newNode env s1 modelID id = PropertyManager.newNode env s2 modelID id.
Proof.
  unfold PropertyManager.newNode, PropertyManager.getNodeType.
  f_equal. apply bind_getModel. intros m1 m2 Hdata Htypes.
  destruct Hsame as (Hjson & _). by rewrite <- Hjson, Hdata, Htypes.
Qed.

Lemma same_getSpatialNode fuel modelID node (chunks : Chunks) includeProperties :
  PropertyManager.getSpatialNode env s1 fuel modelID node chunks includeProperties
  = PropertyManager.getSpatialNode env s2 fuel modelID node chunks includeProperties.
Proof.
  revert node. induction fuel as [|fuel IH]; intros node; simpl; [done|].
  assert (Hchildren : forall n propNames,
            PropertyManager.getChildren env s1
              (fun n0 => PropertyManager.getSpatialNode env s1 fuel modelID n0 chunks
                           includeProperties)
              modelID n chunks propNames includeProperties
            = PropertyManager.getChildren env s2
                (fun n0 => PropertyManager.getSpatialNode env s2 fuel modelID n0 chunks
                             includeProperties)
                modelID n chunks propNames includeProperties).
  { intros n propNames. unfold PropertyManager.getChildren.
    destruct (chunks !! _) as [childIDs|]; [|done].
    f_equal. apply mapM_ext. intros child. rewrite same_newNode.
    apply bind_ext. intros n0. unfold PropertyManager.spread_promise.
    destruct includeProperties; apply IH. }
  rewrite Hchildren. apply bind_ext. intros node1. apply Hchildren.
Qed.

Lemma same_getSpatialStructure fuel modelID includeProperties :
  PropertyManager.getSpatialStructure env s1 fuel modelID includeProperties
  = PropertyManager.getSpatialStructure env s2 fuel modelID includeProperties.
Proof.
  unfold PropertyManager.getSpatialStructure, PropertyManager.getSpatialStructureJSON,
    PropertyManager.getSpatialStructureWebIfcAPI.
  rewrite same_getSpatialTreeChunks, same_getAllItemsOfTypeJSON.
  destruct Hsame as (Hjson & Hapi & _). rewrite <- Hjson.
  destruct (useJSON s1).
  - apply bind_ext. intros chunks. apply bind_ext. intros projects.
    apply same_getSpatialNode.
  - rewrite Hapi by done. apply bind_ext. intros chunks. apply bind_ext. intros lines.
    apply same_getSpatialNode.
Qed.

End SameRecords.

(** X7: with JSON data the property manager never asks the web-ifc API:
    the properties of an item, the items of a type, the related records of
    an element and the spatial structure are the same whatever the API of
    the state is. *)
Theorem useJSON_ignores_api env state otherAPI :
  useJSON state = true ->
  let state' := {| models := models state; api := otherAPI; useJSON := useJSON state |} in
  (forall modelID id recursive,
     PropertyManager.getItemProperties state' modelID id recursive
     = PropertyManager.getItemProperties state modelID id recursive)
  /\ (forall modelID type verbose,
        PropertyManager.getAllItemsOfType env state' modelID type verbose
        = PropertyManager.getAllItemsOfType env state modelID type verbose)
  /\ (forall fuel modelID elementID recursive propName,
        PropertyManager.getProperty env state' fuel modelID elementID recursive propName
        = PropertyManager.getProperty env state fuel modelID elementID recursive propName)
  /\ (forall fuel modelID includeProperties,
        PropertyManager.getSpatialStructure env state' fuel modelID includeProperties
        = PropertyManager.getSpatialStructure env state fuel modelID includeProperties).
Proof.
  intros Hjson state'.
  assert (Hsame : same_records state' state).
  { split; [done|]. split; [simpl; congruence|].
    intros id. simpl. destruct (models state !! id); by constructor. }
  split; [|split; [|split]]; intros.
  - by apply same_getItemProperties.
  - by apply same_getAllItemsOfType.
  - by apply same_getProperty.
  - by apply same_getSpatialStructure.
Qed.

Lemma useJSON_ignores_api_witness :
  PropertyManager.getSpatialStructure Fixture.env
    {| models := models (Fixture.jsonState Fixture.building);
       api := Fixture2.projectsAPI;
       useJSON := useJSON (Fixture.jsonState Fixture.building) |} 3 0 false
  = PropertyManager.getSpatialStructure Fixture.env (Fixture.jsonState Fixture.building)
      3 0 false.
Proof.
  exact (proj2 (proj2 (proj2 (useJSON_ignores_api Fixture.env
                                (Fixture.jsonState Fixture.building)
                                Fixture2.projectsAPI eq_refl)))
           3%nat 0 false).
Defined.

(** ** What loading geometry changes of the state *)

Lemma items_only_refl p : items_only p p.
Proof.
  repeat split; try done. intros id.
  destruct (models (IFCParser.state p) !! id); by constructor.
Qed.

Lemma items_only_trans p1 p2 p3 : items_only p1 p2 -> items_only p2 p3 -> items_only p1 p3.
Proof.
  intros (Ha1 & Hj1 & Hc1 & Hm1) (Ha2 & Hj2 & Hc2 & Hm2).
  split; [congruence|]. split; [congruence|]. split; [congruence|].
  intros id. specialize (Hm1 id). specialize (Hm2 id).
  destruct Hm1 as [m1 m2 (Hi1 & Ht1 & Hd1 & Heq1)|]; inversion Hm2 as [? m3 (Hi2 & Ht2 & Hd2 & Heq2)|];
    subst; constructor.
  split; [congruence|]. split; [congruence|]. split; [congruence|].
  intros Hne. rewrite Heq2, Heq1; [done..|congruence].
Qed.

Lemma updateItems_items_only p newItems p' :
  IFCParser.updateItems p newItems = Ok p' -> items_only p p'.
Proof.
  unfold IFCParser.updateItems.
  destruct (models (IFCParser.state p) !! IFCParser.currentModelID p) as [m|] eqn:Hm;
    [|discriminate].
  intros H. injection H as <-. repeat split; simpl.
  intros id. destruct (decide (IFCParser.currentModelID p = id)) as [<-|Hne].
  - rewrite lookup_insert_eq, Hm. by constructor.
  - rewrite lookup_insert_ne by done.
    destruct (models (IFCParser.state p) !! id); by constructor.
Qed.

Lemma createMaterial_items_only p colorID c p' :
  IFCParser.createMaterial p colorID c = Ok p' -> items_only p p'.
Proof.
  unfold IFCParser.createMaterial. intros H.
  apply bind_Ok in H as (items & _ & H).
  destruct (items !! colorID); [injection H as <-; apply items_only_refl|].
  apply bind_Ok in H as (p1 & H1 & H). injection H as <-.
  apply updateItems_items_only in H1 as (Ha & Hj & Hc & Hm). by repeat split.
Qed.

Lemma saveGeometryByMaterial_items_only env float_toString p geom placedGeom id p' :
  IFCParser.saveGeometryByMaterial env float_toString p geom placedGeom id = Ok p' ->
  items_only p p'.
Proof.
  unfold IFCParser.saveGeometryByMaterial. intros H.
  apply bind_Ok in H as (geom' & _ & H).
  apply bind_Ok in H as (p1 & H1 & H).
  apply bind_Ok in H as (items & _ & H).
  destruct (items !! _); [|discriminate].
  eapply items_only_trans; [by eapply createMaterial_items_only|].
  by eapply updateItems_items_only.
Qed.

Lemma saveFragments_items_only env float_toString p fragments p' :
  saveFragments env float_toString p fragments = Ok p' -> items_only p p'.
Proof.
  revert p. induction fragments as [|f fragments IH]; intros p H.
  - injection H as <-. apply items_only_refl.
  - simpl in H. apply bind_Ok in H as (p1 & H1 & H).
    eapply items_only_trans; [by eapply saveGeometryByMaterial_items_only|]. by apply IH.
Qed.

Lemma items_only_same_records p p' :
  items_only p p' -> same_records (IFCParser.state p') (IFCParser.state p).
Proof.
  intros (Ha & Hj & _ & Hm). split; [done|]. split; [done|].
  intros id. destruct (Hm id) as [m m' (_ & Ht & Hd & _)|]; by constructor.
Qed.

(** X8: saving the geometries of a model changes nothing but the items of
    the model being loaded: the other models, and its own id, types and JSON
    data, are as before, so the property manager answers every question as
    it did before the geometry was saved. *)
Theorem saveFragments_keeps_records env float_toString p fragments p' :
  saveFragments env float_toString p fragments = Ok p' ->
  IFCParser.currentModelID p' = IFCParser.currentModelID p
  /\ (forall id, id <> IFCParser.currentModelID p ->
        models (IFCParser.state p') !! id = models (IFCParser.state p) !! id)
  /\ (forall m, models (IFCParser.state p) !! IFCParser.currentModelID p = Some m ->
        exists m', models (IFCParser.state p') !! IFCParser.currentModelID p = Some m'
                   /\ modelID m' = modelID m /\ types m' = types m
                   /\ jsonData m' = jsonData m)
  /\ (forall modelID id recursive,
        PropertyManager.getItemProperties (IFCParser.state p') modelID id recursive
        = PropertyManager.getItemProperties (IFCParser.state p) modelID id recursive)
  /\ (forall env' modelID type verbose,
        PropertyManager.getAllItemsOfType env' (IFCParser.state p') modelID type verbose
        = PropertyManager.getAllItemsOfType env' (IFCParser.state p) modelID type verbose)
  /\ (forall env' fuel modelID elementID recursive propName,
        PropertyManager.getProperty env' (IFCParser.state p') fuel modelID elementID recursive
          propName
        = PropertyManager.getProperty env' (IFCParser.state p) fuel modelID elementID recursive
            propName)
  /\ (forall env' fuel modelID includeProperties,
        PropertyManager.getSpatialStructure env' (IFCParser.state p') fuel modelID
          includeProperties
        = PropertyManager.getSpatialStructure env' (IFCParser.state p) fuel modelID
            includeProperties).
Proof.
  intros H. apply saveFragments_items_only in H.
  pose proof (items_only_same_records _ _ H) as Hsame.
  destruct H as (_ & _ & Hc & Hm).
  split; [done|]. split; [|split].
  - intros id Hne. destruct (Hm id) as [m m' (_ & _ & _ & Heq)|]; [|done].
    by rewrite Heq.
  - intros m Hcur. specialize (Hm (IFCParser.currentModelID p)). rewrite Hcur in Hm.
    inversion Hm as [? m' (Hi & Ht & Hd & _)|]; subst. by exists m'.
  - split; [|split; [|split]]; intros.
    + by apply same_getItemProperties.
    + by apply same_getAllItemsOfType.
    + by apply same_getProperty.
    + by apply same_getSpatialStructure.
Qed.

Lemma saveFragments_keeps_records_witness :
  PropertyManager.getSpatialStructure Fixture.env (IFCParser.state Fixture6.loaded) 3 0 false
  = PropertyManager.getSpatialStructure Fixture.env (IFCParser.state Fixture6.parser) 3 0 false.
Proof.
  assert (Hloaded : saveFragments Fixture.env Fixture6.float_toString Fixture6.parser
                      Fixture6.fragments = Ok Fixture6.loaded) by (vm_compute; reflexivity).
  exact (proj2 (proj2 (proj2 (proj2 (proj2 (proj2
           (saveFragments_keeps_records Fixture.env Fixture6.float_toString Fixture6.parser
              Fixture6.fragments Fixture6.loaded Hloaded))))))
           Fixture.env 3%nat 0 false).
Defined.

(** ** Records without a type *)

Lemma type_toUpperCase_Throw record e :
  PropertyManager.type_toUpperCase record = Throw e -> e = TypeError.
Proof.
  unfold PropertyManager.type_toUpperCase.
  destruct record as [props|]; [|congruence].
  destruct (lookup_prop "type" props); congruence.
Qed.

Lemma type_toUpperCase_fuel record : PropertyManager.type_toUpperCase record <> OutOfFuel.
Proof.
  unfold PropertyManager.type_toUpperCase.
  destruct record as [props|]; [|done]. by destruct (lookup_prop "type" props).
Qed.

Lemma filter_fold_untyped data typeName (verbose : bool) ks (acc : list JSValue) :
  ~ Forall (fun id => exists t,
              PropertyManager.type_toUpperCase (PropertyManager.jsonData_get data (JSNumber id))
              = Ok t) ks ->
  foldM (fun (result : list JSValue) numKey =>
           let* t := PropertyManager.type_toUpperCase
                       (PropertyManager.jsonData_get data (JSNumber numKey)) in
           if String.eqb t typeName
           then Ok (result ++ [if verbose
                               then JSObject (PropertyManager.spread
                                                (PropertyManager.jsonData_get data
                                                   (JSNumber numKey)))
                               else JSNumber numKey])
           else Ok result)
        ks acc
  = Throw TypeError.
Proof.
  revert acc. induction ks as [|k ks IH]; intros acc Hnot.
  - destruct Hnot. constructor.
  - simpl.
    destruct (PropertyManager.type_toUpperCase
                (PropertyManager.jsonData_get data (JSNumber k))) as [t|e|] eqn:Ht; simpl.
    + assert (Hks : ~ Forall (fun id => exists t,
                       PropertyManager.type_toUpperCase
                         (PropertyManager.jsonData_get data (JSNumber id)) = Ok t) ks).
      { intros Hall. apply Hnot. constructor; eauto. }
      destruct (String.eqb t typeName); simpl; by apply IH.
    + by apply type_toUpperCase_Throw in Ht as ->.
    + by apply type_toUpperCase_fuel in Ht.
Qed.

Lemma filterJSONItemsByType_untyped data typeName verbose :
  ~ all_typed data ->
  PropertyManager.filterJSONItemsByType data typeName verbose = Throw TypeError.
Proof. intros Hnot. by apply filter_fold_untyped. Qed.

Lemma untyped_record_not_all_typed data k record :
  NoDup (map fst data) ->
  (k, record) ∈ data ->
  (forall s, lookup_prop "type" record <> JSString s) ->
  ~ all_typed data.
Proof.
  intros Hnodup Hin Htype Hall. unfold all_typed in Hall.
  rewrite Forall_forall in Hall.
  destruct (Hall k) as [t Ht].
  { apply list_elem_of_fmap. by exists (k, record). }
  rewrite (jsonData_get_unique _ _ _ Hnodup Hin) in Ht. simpl in Ht.
  destruct (lookup_prop "type" record) eqn:Hl; try discriminate. by eapply Htype.
Qed.

(** X9: with JSON data, one record whose type is not a string makes every
    question that scans the records fail with a [TypeError], whatever is
    asked: the items of any known type, the related records of any element
    and the spatial structure. *)
Theorem untyped_record_fails env state modelID m k record :
  useJSON state = true ->
  models state !! modelID = Some m ->
  NoDup (map fst (jsonData m)) ->
  (k, record) ∈ jsonData m ->
  (forall s, lookup_prop "type" record <> JSString s) ->
  (forall type typeName verbose,
     IfcTypesMap env !! type = Some typeName -> typeName <> "" ->
     PropertyManager.getAllItemsOfType env state modelID type verbose = Throw TypeError)
  /\ (forall fuel elementID recursive propName typeName,
        IfcTypesMap env !! name propName = Some typeName -> typeName <> "" ->
        PropertyManager.getProperty env state fuel modelID elementID recursive propName
        = Throw TypeError)
  /\ (forall fuel includeProperties typeName,
        IfcTypesMap env !! name (aggregates (PropsNames env)) = Some typeName ->
        typeName <> "" ->
        PropertyManager.getSpatialStructure env state fuel modelID includeProperties
        = Throw TypeError).
Proof.
  intros Hjson Hm Hnodup Hin Htype.
  pose proof (untyped_record_not_all_typed _ _ _ Hnodup Hin Htype) as Hnot.
  assert (Hitems : forall type typeName verbose,
            IfcTypesMap env !! type = Some typeName -> typeName <> "" ->
            PropertyManager.getAllItemsOfTypeJSON env state modelID type verbose
            = Throw TypeError).
  { intros type typeName verbose Hname Hne.
    unfold PropertyManager.getAllItemsOfTypeJSON, PropertyManager.getModel.
    rewrite Hm, Hname. simpl.
    destruct (String.eqb typeName "") eqn:Heq; [by apply String.eqb_eq in Heq|]. simpl.
    by apply filterJSONItemsByType_untyped. }
  split; [|split].
  - intros type typeName verbose Hname Hne.
    unfold PropertyManager.getAllItemsOfType. rewrite Hjson. by eapply Hitems.
  - intros fuel elementID recursive propName typeName Hname Hne.
    unfold PropertyManager.getProperty, PropertyManager.getPropertyJSON,
      PropertyManager.getAllRelatedItemsOfTypeJSON.
    rewrite Hjson, (Hitems _ _ true Hname Hne). done.
  - intros fuel includeProperties typeName Hname Hne.
    unfold PropertyManager.getSpatialStructure, PropertyManager.getSpatialStructureJSON,
      PropertyManager.getSpatialTreeChunks, PropertyManager.getChunksJSON.
    rewrite Hjson, (Hitems _ _ true Hname Hne). done.
Qed.

Lemma untyped_record_fails_witness :
  PropertyManager.getAllItemsOfType Fixture.env (Fixture.jsonState Fixture10.untyped) 0
    (IFCPROJECT Fixture.env) false = Throw TypeError
  /\ PropertyManager.getSpatialStructure Fixture.env (Fixture.jsonState Fixture10.untyped)
       3 0 false = Throw TypeError.
Proof.
  assert (Hnodup : NoDup (map fst Fixture10.untyped)).
  { simpl. repeat constructor; rewrite ?list_elem_of_In; simpl; intuition discriminate. }
  assert (Hin : (2, [("Name", JSString "Site")]) ∈ Fixture10.untyped).
  { unfold Fixture10.untyped. apply elem_of_cons. right. apply elem_of_cons. by left. }
  assert (Htype : forall s, lookup_prop "type" [("Name", JSString "Site")] <> JSString s).
  { intros s. simpl. discriminate. }
  destruct (untyped_record_fails Fixture.env (Fixture.jsonState Fixture10.untyped) 0
              (Fixture2.modelOf Fixture10.untyped) 2 [("Name", JSString "Site")]
              eq_refl eq_refl Hnodup Hin Htype) as (Hitems & _ & Htree).
  split.
  - apply (Hitems (IFCPROJECT Fixture.env) "IFCPROJECT" false); [reflexivity|discriminate].
  - apply (Htree 3%nat false "IFCRELAGGREGATES"); [reflexivity|discriminate].
Defined.

(** ** The items of a type, by id and in full *)

Lemma filter_sublist {A} (f : A -> bool) (l : list A) : sublist (List.filter f l) l.
Proof.
  induction l as [|a l IH]; simpl; [constructor|].
  destruct (f a); by constructor.
Qed.

Lemma filter_is_type_elem data typeName k :
  NoDup (map fst data) ->
  k ∈ List.filter (is_type data typeName) (map fst data)
  <-> exists record, (k, record) ∈ data /\ record_has_type typeName record.
Proof.
  intros Hnodup. rewrite list_elem_of_In, filter_In, <- list_elem_of_In. split.
  - intros [Hk Htype]. apply list_elem_of_fmap in Hk as ([k' record] & -> & Hin).
    exists record. split; [done|]. simpl in *.
    by apply (is_type_record data typeName k' record (jsonData_get_unique _ _ _ Hnodup Hin)).
  - intros (record & Hin & Htype). split.
    + apply list_elem_of_fmap. by exists (k, record).
    + by apply (is_type_record data typeName k record (jsonData_get_unique _ _ _ Hnodup Hin)).
Qed.

(** X10: with JSON data whose records all have a type, the ids that
    [getAllItemsOfType] returns for a known type are the ids of the records
    whose type, in upper case, is the name of the type: each of them once,
    none else, in the order of the records. *)
Theorem getAllItemsOfType_ids env state modelID type typeName m :
  useJSON state = true ->
  models state !! modelID = Some m ->
  IfcTypesMap env !! type = Some typeName ->
  typeName <> "" ->
  all_typed (jsonData m) ->
  NoDup (map fst (jsonData m)) ->
  exists ids,
    PropertyManager.getAllItemsOfType env state modelID type false = Ok (map JSNumber ids)
    /\ NoDup ids
    /\ sublist ids (map fst (jsonData m))
    /\ forall k, k ∈ ids <-> exists record, (k, record) ∈ jsonData m
                                           /\ record_has_type typeName record.
Proof.
  intros Hjson Hm Hname Hne Htyped Hnodup.
  exists (List.filter (is_type (jsonData m) typeName) (map fst (jsonData m))).
  split; [|split; [|split]].
  - unfold PropertyManager.getAllItemsOfType. rewrite Hjson.
    by rewrite (getAllItemsOfTypeJSON_total env state modelID type false m typeName).
  - eapply sublist_NoDup; [done|]. apply filter_sublist.
  - apply filter_sublist.
  - intros k. by apply filter_is_type_elem.
Qed.

Lemma getAllItemsOfType_ids_witness :
  exists ids,
    PropertyManager.getAllItemsOfType Fixture.env (Fixture.jsonState Fixture.building) 0
      Fixture.IFCRELCONTAINEDINSPATIALSTRUCTURE false = Ok (map JSNumber ids)
    /\ NoDup ids
    /\ sublist ids (map fst Fixture.building).
Proof.
  assert (Htyped : all_typed Fixture.building).
  { unfold all_typed. simpl. repeat constructor; vm_compute; eauto. }
  assert (Hnodup : NoDup (map fst Fixture.building)).
  { simpl. repeat constructor; rewrite ?list_elem_of_In; simpl; intuition discriminate. }
  destruct (getAllItemsOfType_ids Fixture.env (Fixture.jsonState Fixture.building) 0
              Fixture.IFCRELCONTAINEDINSPATIALSTRUCTURE "IFCRELCONTAINEDINSPATIALSTRUCTURE"
              (Fixture2.modelOf Fixture.building) eq_refl eq_refl eq_refl
              ltac:(discriminate) Htyped Hnodup) as (ids & Hids & Hnd & Hsub & _).
  exists ids. split; [exact Hids|]. split; [exact Hnd|exact Hsub].
Defined.

(** X11: the records that [getAllItemsOfType] returns when it is verbose
    are the copies that [getItemsByIDJSON] makes of the records of the ids
    that it returns when it is not, in the same order. *)
Theorem getAllItemsOfType_verbose env state modelID type ids :
  useJSON state = true ->
  PropertyManager.getAllItemsOfType env state modelID type false = Ok ids ->
  exists records,
    PropertyManager.getItemsByIDJSON state modelID ids = Ok records
    /\ PropertyManager.getAllItemsOfType env state modelID type true
       = Ok (map JSObject records)
    /\ length records = length ids.
Proof.
  intros Hjson. unfold PropertyManager.getAllItemsOfType. rewrite Hjson. intros Hids.
  pose proof (getAllItemsOfTypeJSON_typeName _ _ _ _ _ _ Hids) as (name' & Hname' & Hne).
  apply getAllItemsOfTypeJSON_Ok in Hids as (m & typeName & Hm & Hname & Htyped & ->).
  rewrite Hname in Hname'. injection Hname' as <-.
  unfold PropertyManager.getItemsByIDJSON, PropertyManager.getModel. rewrite Hm. simpl.
  eexists. split; [done|]. split; [|by rewrite !length_map].
  rewrite (getAllItemsOfTypeJSON_total env state modelID type true m typeName) by done.
  by rewrite !map_map.
Qed.

Lemma getAllItemsOfType_verbose_witness :
  exists records,
    PropertyManager.getItemsByIDJSON (Fixture.jsonState Fixture.building) 0
      [JSNumber 8; JSNumber 9] = Ok records
    /\ PropertyManager.getAllItemsOfType Fixture.env (Fixture.jsonState Fixture.building) 0
         Fixture.IFCRELCONTAINEDINSPATIALSTRUCTURE true = Ok (map JSObject records)
    /\ length records = length [JSNumber 8; JSNumber 9].
Proof.
  apply (getAllItemsOfType_verbose Fixture.env (Fixture.jsonState Fixture.building) 0
           Fixture.IFCRELCONTAINEDINSPATIALSTRUCTURE [JSNumber 8; JSNumber 9] eq_refl).
  vm_compute. reflexivity.
Defined.

(** ** References to records that the model does not hold *)

Lemma Resolved_nil data out : Resolved data [] out -> out = [].
Proof.
  intros H. inversion H as [raw out' Hkeys _]; subst.
  destruct out; [done|discriminate].
Qed.

Lemma ResolvedItem_dangling data item out :
  is_reference item = true ->
  PropertyManager.jsonData_get data (field item "value") = None ->
  ResolvedItem data item out ->
  out = JSObject [].
Proof.
  intros Href Hnone H. inversion H as [item' resolved _ Hres|item' Hother]; subst.
  - unfold fetch in Hres. rewrite Hnone in Hres. simpl in Hres.
    by apply Resolved_nil in Hres as ->.
  - congruence.
Qed.

Lemma is_reference_not_array v : is_reference v = true -> isArray v = false.
Proof. by destruct v. Qed.

(** X12: a reference to a record that the model does not hold is no
    error: when the references of a record are followed, such a reference,
    as a field or as an element of an array field, is replaced by an empty
    object. *)
Theorem dangling_reference_empty state model m depth raw :
  models state !! model = Some m ->
  resolvable_within (jsonData m) depth raw ->
  exists out,
    PropertyManager.getJSONReferencesRecursively state depth model raw = Ok out
    /\ (forall key,
          key ∈ Object_keys raw ->
          is_reference (lookup_prop key raw) = true ->
          PropertyManager.jsonData_get (jsonData m) (field (lookup_prop key raw) "value")
          = None ->
          lookup_prop key out = JSObject [])
    /\ (forall key items i item,
          key ∈ Object_keys raw ->
          lookup_prop key raw = JSArray items ->
          items !! i = Some item ->
          is_reference item = true ->
          PropertyManager.jsonData_get (jsonData m) (field item "value") = None ->
          exists outs, lookup_prop key out = JSArray outs
                       /\ outs !! i = Some (JSObject [])).
Proof.
  intros Hm Hdepth.
  destruct (getJSONReferencesRecursively_total state model m depth raw Hm Hdepth)
    as [out Hrun].
  exists out. split; [done|].
  apply (getJSONReferencesRecursively_Resolved state model m) in Hrun; [|done].
  inversion Hrun as [raw' out' _ Hfields]; subst.
  split.
  - intros key Hkey Href Hnone. specialize (Hfields key Hkey).
    inversion Hfields as [items outs Hitems Heq|v out' Harray Hitem]; subst.
    + rewrite <- Heq in Href. discriminate.
    + by eapply ResolvedItem_dangling.
  - intros key items i item Hkey Harr Hi Href Hnone. specialize (Hfields key Hkey).
    rewrite Harr in Hfields.
    inversion Hfields as [items' outs Hitems Heq|v out' Harray Hitem]; subst; [|discriminate].
    exists outs. split; [done|].
    destruct (Forall2_lookup_l _ _ _ _ _ Hitems Hi) as (o & Ho & Hres).
    by rewrite Ho, (ResolvedItem_dangling _ _ _ Href Hnone Hres).
Qed.

Lemma dangling_reference_empty_witness :
  exists out,
    PropertyManager.getJSONReferencesRecursively (Fixture.jsonState Fixture10.withDangling)
      2 0 Fixture10.dangling = Ok out
    /\ lookup_prop "OwnerHistory" out = JSObject []
    /\ lookup_prop "HasProperties" out = JSArray [JSObject []].
Proof.
  assert (Hdepth : resolvable_within Fixture10.withDangling 2 Fixture10.dangling).
  { split; [reflexivity|]. intros key item Hkey Hitem Href.
    assert (Hfetch : fetch Fixture10.withDangling item = []).
    { vm_compute in Hkey.
      apply elem_of_cons in Hkey as [->|Hkey]; [|apply elem_of_cons in Hkey as [->|Hkey]];
        [| |apply list_elem_of_singleton in Hkey as ->].
      - destruct Hitem as [->|(items & Hitems & _)]; discriminate.
      - destruct Hitem as [->|(items & Hitems & _)]; [reflexivity|discriminate].
      - destruct Hitem as [->|(items & Hitems & Hin)]; [discriminate|].
        injection Hitems as <-. by apply list_elem_of_singleton in Hin as ->. }
    rewrite Hfetch. split; [reflexivity|]. intros key' item' Hkey'.
    by apply elem_of_nil in Hkey'. }
  destruct (dangling_reference_empty (Fixture.jsonState Fixture10.withDangling) 0
              (Fixture2.modelOf Fixture10.withDangling) 2 Fixture10.dangling eq_refl Hdepth)
    as (out & Hout & Hfield & Helement).
  exists out. split; [exact Hout|]. split.
  - apply Hfield; [|reflexivity..]. vm_compute. repeat constructor.
  - destruct (Helement "HasProperties" [Fixture.handle 98] 0%nat (Fixture.handle 98))
      as (outs & Houts & Hi); [|reflexivity..|].
    + vm_compute. repeat constructor.
    + rewrite Houts. vm_compute in Hout. injection Hout as <-.
      vm_compute in Houts. injection Houts as <-. reflexivity.
Defined.

(** ** The express id of a face of a stored geometry *)

(** X13: the express id that [storeGeometryAttribute] stores in a geometry
    is the one that [getExpressId] reads back for every face of it, for an
    id that an attribute of 32 bits holds and positions that are whole
    items: for a face whose first index is a vertex of the geometry the
    result is the id; for a face index outside the index of the geometry the
    result is [undefined] and no error. *)
Theorem getExpressId_stored env id geom geom' position geoIndex faceIndex :
  0 <= id < 2 ^ 32 ->
  attributes geom !! "position" = Some position ->
  0 < itemSize position ->
  (itemSize position | Z.of_nat (length (array position))) ->
  index geom = Some geoIndex ->
  IFCParser.storeGeometryAttribute env id geom = Ok geom' ->
  (forall vertex,
     0 <= faceIndex ->
     geoIndex !! Z.to_nat (3 * faceIndex) = Some vertex ->
     0 <= vertex < count position ->
     PropertyManager.getExpressId env geom' faceIndex = Ok (Some (Int id)))
  /\ (faceIndex < 0 \/ Z.of_nat (length geoIndex) <= 3 * faceIndex ->
      PropertyManager.getExpressId env geom' faceIndex = Ok None).
Proof.
  intros _ Hposition _ _ Hindex Hstore.
  unfold IFCParser.storeGeometryAttribute in Hstore. rewrite Hposition in Hstore.
  injection Hstore as <-.
  unfold PropertyManager.getExpressId. simpl. rewrite Hindex, lookup_insert_eq.
  split.
  - intros vertex Hface Hvertex Hrange.
    destruct (Z.ltb_spec (3 * faceIndex) 0) as [Hneg|_]; [lia|].
    rewrite Hvertex. unfold getX, IFCParser.newIntAttr, TypedArray_get. simpl.
    destruct (Z.ltb_spec (vertex * 1) 0) as [Hneg|_]; [lia|].
    rewrite list_lookup_fmap, lookup_replicate_2; [done|lia].
  - intros Hout.
    destruct (Z.ltb_spec (3 * faceIndex) 0) as [Hneg|Hpos]; [done|].
    rewrite lookup_ge_None_2; [done|lia].
Qed.

Lemma getExpressId_stored_witness :
  exists geom',
    IFCParser.storeGeometryAttribute Fixture.env 21 Fixture6.triangle = Ok geom'
    /\ PropertyManager.getExpressId Fixture.env geom' 0 = Ok (Some (Int 21))
    /\ PropertyManager.getExpressId Fixture.env geom' 1 = Ok None.
Proof.
  eexists. split; [reflexivity|].
  pose proof (fun faceIndex =>
    getExpressId_stored Fixture.env 21 Fixture6.triangle _
      {| array := [Float PrimFloat.zero; Float PrimFloat.zero; Float PrimFloat.zero;
                   Float PrimFloat.one; Float PrimFloat.zero; Float PrimFloat.zero;
                   Float PrimFloat.zero; Float PrimFloat.one; Float PrimFloat.zero];
         itemSize := 3 |}
      [0; 1; 2] faceIndex ltac:(lia) eq_refl ltac:(simpl; lia)
      ltac:(by exists 3) eq_refl eq_refl) as H.
  split.
  - apply (proj1 (H 0) 0); [lia|reflexivity|]. vm_compute. split; [discriminate|reflexivity].
  - apply (proj2 (H 1)). right. simpl. lia.
Defined.

(** ** The geometries that are held *)







(** ** Following references twice *)

Lemma item_step_defined self data item out :
  item_step self data item out -> is_defined item = true -> is_defined out = true.
Proof. by intros [(_ & resolved & _ & ->)|(_ & ->)]. Qed.

(** The arrays of a record whose references have been followed hold
    neither [undefined] nor [null]. *)
Lemma getJSONReferencesRecursively_defined state model m fuel raw out :
  models state !! model = Some m ->
  PropertyManager.getJSONReferencesRecursively state fuel model raw = Ok out ->
  has_undefined_element out = false.
Proof.
  intros Hm H. destruct fuel as [|fuel]; [discriminate|]. simpl in H.
  apply (getJSONItem_fold_Ok _ _ _ _ _ _ _ Hm) in H as (Hfst & Hin & _);
    [|apply NoDup_remove_dups|by intros k Hk; apply Object_keys_elem].
  unfold has_undefined_element. apply existsb_false, Forall_forall. intros key Hkey.
  assert (Hkey' : key ∈ Object_keys raw) by (unfold Object_keys in *; by rewrite <- Hfst).
  specialize (Hin key Hkey'). unfold field_step in Hin.
  destruct (lookup_prop key raw) as [| | | | |items|] eqn:Hv.
  1-5, 7: by destruct Hin as [(_ & resolved & _ & ->)|(_ & ->)].
  destruct Hin as (outs & -> & Hsteps & Hdef).
  apply existsb_false. clear -Hsteps Hdef.
  induction Hsteps as [|item o items outs Ho _ IH]; constructor.
  - apply Forall_cons in Hdef as [Hitem _].
    by rewrite (item_step_defined _ _ _ _ Ho Hitem).
  - apply IH. by apply Forall_cons in Hdef as [_ Hdef].
Qed.

(** X15: following the references of a record is idempotent: in a model
    whose records all have a type, following the references of a record
    whose references have been followed, with any depth, returns it
    unchanged. *)
Theorem getJSONReferencesRecursively_idempotent state model m fuel fuel' raw out :
  models state !! model = Some m ->
  all_typed (jsonData m) ->
  PropertyManager.getJSONReferencesRecursively state fuel model raw = Ok out ->
  PropertyManager.getJSONReferencesRecursively state (S fuel') model out = Ok out.
Proof.
  intros Hm Htyped Hrun.
  apply getJSONReferencesRecursively_unchanged.
  - eapply Resolved_no_reference_field;
      [|by eapply getJSONReferencesRecursively_Resolved].
    intros reference. by apply all_typed_not_reference.
  - by eapply getJSONReferencesRecursively_defined.
Qed.

Lemma getJSONReferencesRecursively_idempotent_witness :
  PropertyManager.getJSONReferencesRecursively (Fixture.jsonState Fixture7.properties)
    1 0 Fixture8.wallPropertiesResolved
  = Ok Fixture8.wallPropertiesResolved.
Proof.
  apply (getJSONReferencesRecursively_idempotent (Fixture.jsonState Fixture7.properties) 0
           (Fixture2.modelOf Fixture7.properties) 4 0 Fixture7.wallProperties
           Fixture8.wallPropertiesResolved eq_refl).
  - unfold all_typed. simpl. repeat constructor; vm_compute; eauto.
  - vm_compute. reflexivity.
Defined.

(** ** The exceptions of the two variants *)

Lemma throws_only_Ok {A} P (a : A) : throws_only P (Ok a).
Proof. intros e H. discriminate. Qed.

Lemma throws_only_OutOfFuel {A} P : throws_only P (@OutOfFuel A).
Proof. intros e H. discriminate. Qed.

Lemma throws_only_Throw {A} (P : Exception -> Prop) e : P e -> throws_only P (@Throw A e).
Proof. intros HP e' H. by injection H as <-. Qed.

Lemma throws_only_bind {A B} P (r : Result A) (k : A -> Result B) :
  throws_only P r -> (forall a, throws_only P (k a)) -> throws_only P (bind r k).
Proof.
  intros Hr Hk e H. apply bind_Throw in H as [H|(a & _ & H)]; [by apply Hr|by eapply Hk].
Qed.

Lemma throws_only_mapM {A B} P (f : A -> Result B) (l : list A) :
  (forall a, throws_only P (f a)) -> throws_only P (mapM f l).
Proof.
  intros Hf. induction l as [|a l IH]; simpl; [apply throws_only_Ok|].
  apply throws_only_bind; [done|]. intros b.
  apply throws_only_bind; [done|]. intros bs. apply throws_only_Ok.
Qed.



Section ThrowsOnly.

Context (P : Exception -> Prop) (HTypeError : P TypeError).


Lemma throws_only_getModel state modelID : throws_only P (PropertyManager.getModel state modelID).
Proof.
  unfold PropertyManager.getModel.
  destruct (models state !! modelID); [apply throws_only_Ok|by apply throws_only_Throw].
Qed.






Lemma throws_only_newNode env state modelID id :
  throws_only P (PropertyManager.newNode env state modelID id).
Proof.
  unfold PropertyManager.newNode, PropertyManager.getNodeType.
  apply throws_only_bind; [|intros t; apply throws_only_Ok].
  apply throws_only_bind; [apply throws_only_getModel|]. intros m.
  destruct (useJSON state).
  - destruct (PropertyManager.jsonData_get _ _);
      [apply throws_only_Ok|by apply throws_only_Throw].
  - destruct (types m !! _); apply throws_only_Ok.
Qed.

Lemma throws_only_getSpatialNode env state fuel modelID node (chunks : Chunks)
    includeProperties :
  throws_only P (PropertyManager.getSpatialNode env state fuel modelID node chunks
                   includeProperties).
Proof.
  revert node. induction fuel as [|fuel IH]; intros node; [apply throws_only_OutOfFuel|].
  assert (Hchildren : forall n propNames,
            throws_only P
              (PropertyManager.getChildren env state
                 (fun n0 => PropertyManager.getSpatialNode env state fuel modelID n0 chunks
                              includeProperties)
                 modelID n chunks propNames includeProperties)).
  { intros n propNames. unfold PropertyManager.getChildren.
    destruct (chunks !! _) as [childIDs|]; [|apply throws_only_Ok].
    apply throws_only_bind; [|intros nodes; apply throws_only_Ok].
    apply throws_only_mapM. intros child.
    apply throws_only_bind; [apply throws_only_newNode|]. intros n0.
    unfold PropertyManager.spread_promise. destruct includeProperties; apply IH. }
  simpl. apply throws_only_bind; [apply Hchildren|]. intros node1. apply Hchildren.
Qed.





(** The variant that reads the JSON data. *)
Section JSON.

Context (HTypeNotFound : forall type, P (TypeNotFound type)).





End JSON.

(** The variant that asks the web-ifc API. *)
Section API.

Context (HRejected : P Rejected).





End API.
End ThrowsOnly.



(** ** The same relations from either variant *)

Lemma foldM_mapM_Ok {A B S} (g : A -> Result B) (f : S -> B -> Result S)
    (l : list A) (bs : list B) (s : S) :
  mapM g l = Ok bs ->
  foldM (fun s a => let* b := g a in f s b) l s = foldM f bs s.
Proof.
  revert bs s. induction l as [|a l IH]; intros bs s H; simpl in H.
  - by injection H as <-.
  - apply bind_Ok in H as (b & Hb & H). apply bind_Ok in H as (bs' & Hbs & H).
    injection H as <-. simpl. rewrite Hb. simpl.
    destruct (f s b); simpl; auto.
Qed.

(** X17: the two variants read the relations in the same way: when the
    web-ifc API gives, for the type of a relation, lines whose records are
    the relation records of the JSON data, in the same order, the chunks
    built from the API are the chunks built from the JSON data, and the ids
    related to an element are the same from both. *)
Theorem variants_agree env jsonSide apiSide modelID propNames lines rels :
  PropertyManager.getAllItemsOfTypeJSON env jsonSide modelID (name propNames) true = Ok rels ->
  GetLineIDsWithType (api apiSide) modelID (name propNames) = Some lines ->
  mapM (fun line => await (GetLine (api apiSide) modelID (JSNumber line) false)) lines
  = Ok rels ->
  (forall chunks : Chunks,
     PropertyManager.getChunksWebIfcAPI apiSide modelID chunks propNames
     = PropertyManager.getChunksJSON env jsonSide modelID chunks propNames)
  /\ (forall elementID,
        PropertyManager.getAllRelatedItemsOfTypeWebIfcAPI apiSide modelID elementID propNames
        = PropertyManager.getAllRelatedItemsOfTypeJSON env jsonSide modelID elementID
            propNames).
Proof.
  intros Hjson Hlines Hrels. split.
  - intros chunks.
    unfold PropertyManager.getChunksWebIfcAPI, PropertyManager.getChunksJSON.
    rewrite Hjson, Hlines. simpl.
    by rewrite (foldM_mapM_Ok _ (fun c rel => PropertyManager.saveChunk c propNames rel)
                  _ _ _ Hrels).
  - intros elementID.
    unfold PropertyManager.getAllRelatedItemsOfTypeWebIfcAPI,
      PropertyManager.getAllRelatedItemsOfTypeJSON.
    rewrite Hjson, Hlines. simpl.
    by rewrite (foldM_mapM_Ok _ (PropertyManager.collectRelated elementID propNames)
                  _ _ _ Hrels).
Qed.

Lemma variants_agree_witness :
  PropertyManager.getChunksWebIfcAPI
    (Fixture.apiState (Fixture11.recordsAPI Fixture.building)) 0 ∅
    (spatial Fixture.names)
  = PropertyManager.getChunksJSON Fixture.env (Fixture.jsonState Fixture.building) 0 ∅
      (spatial Fixture.names).
Proof.
  refine (proj1 (variants_agree Fixture.env (Fixture.jsonState Fixture.building)
                   (Fixture.apiState (Fixture11.recordsAPI Fixture.building)) 0
                   (spatial Fixture.names) [8; 9] _ _ _ _) ∅).
  - vm_compute. reflexivity.
  - vm_compute. reflexivity.
  - vm_compute. reflexivity.
Defined.

(** ** A model id that is not registered *)

(** X18: with JSON data every question about a model id under which no
    model is registered throws a [TypeError]; without JSON data the items
    of a type and the related records are read from the web-ifc API alone,
    so they are the same whatever models are registered. *)
Theorem unregistered_model env state modelID :
  models state !! modelID = None ->
  (useJSON state = true ->
   (forall id recursive,
      PropertyManager.getItemProperties state modelID id recursive = Throw TypeError)
   /\ (forall type verbose,
         PropertyManager.getAllItemsOfType env state modelID type verbose = Throw TypeError)
   /\ (forall fuel elementID recursive propName,
         PropertyManager.getProperty env state fuel modelID elementID recursive propName
         = Throw TypeError)
   /\ (forall fuel includeProperties,
         PropertyManager.getSpatialStructure env state fuel modelID includeProperties
         = Throw TypeError))
  /\ (useJSON state = false ->
      forall otherModels,
        let state' := {| models := otherModels; api := api state; useJSON := useJSON state |} in
        (forall type verbose,
           PropertyManager.getAllItemsOfType env state modelID type verbose
           = PropertyManager.getAllItemsOfType env state' modelID type verbose)
        /\ (forall fuel elementID recursive propName,
              PropertyManager.getProperty env state fuel modelID elementID recursive propName
              = PropertyManager.getProperty env state' fuel modelID elementID recursive
                  propName)).
Proof.
  intros Hnone. split; intros Hjson.
  - assert (Hitems : forall type verbose,
              PropertyManager.getAllItemsOfTypeJSON env state modelID type verbose
              = Throw TypeError).
    { intros. unfold PropertyManager.getAllItemsOfTypeJSON, PropertyManager.getModel.
      by rewrite Hnone. }
    split; [|split; [|split]]; intros.
    + unfold PropertyManager.getItemProperties, PropertyManager.getModel.
      by rewrite Hjson, Hnone.
    + unfold PropertyManager.getAllItemsOfType. by rewrite Hjson.
    + unfold PropertyManager.getProperty, PropertyManager.getPropertyJSON,
        PropertyManager.getAllRelatedItemsOfTypeJSON.
      by rewrite Hjson, Hitems.
    + unfold PropertyManager.getSpatialStructure, PropertyManager.getSpatialStructureJSON,
        PropertyManager.getSpatialTreeChunks, PropertyManager.getChunksJSON.
      by rewrite Hjson, Hitems.
  - intros otherModels state'. split; intros.
    + unfold PropertyManager.getAllItemsOfType. subst state'. simpl. by rewrite Hjson.
    + unfold PropertyManager.getProperty. subst state'. simpl. by rewrite Hjson.
Qed.

Lemma unregistered_model_witness :
  PropertyManager.getSpatialStructure Fixture.env (Fixture.jsonState Fixture.building) 3 5 false
  = Throw TypeError
  /\ PropertyManager.getAllItemsOfType Fixture.env (Fixture.apiState Fixture2.projectsAPI) 5
       103090709 false
     = PropertyManager.getAllItemsOfType Fixture.env
         {| models := ∅; api := Fixture2.projectsAPI; useJSON := false |} 5 103090709 false.
Proof.
  split.
  - apply (proj1 (unregistered_model Fixture.env (Fixture.jsonState Fixture.building) 5
                    eq_refl) eq_refl).
  - apply (proj2 (unregistered_model Fixture.env (Fixture.apiState Fixture2.projectsAPI) 5
                    eq_refl) eq_refl ∅).
Defined.

(** ** Opening a model *)



(** ** The material of a colour key *)

Lemma createMaterial_fresh p colorID c p' :
  IFCParser.createMaterial p colorID c = Ok p' ->
  itemOf p colorID = None ->
  exists m,
    materialOf p' colorID = Some m
    /\ color m = (WebIfc.x c, WebIfc.y c, WebIfc.z c)
    /\ transparent m = negb (PrimFloat.eqb (WebIfc.w c) PrimFloat.one)
    /\ opacity m = if transparent m then WebIfc.w c else PrimFloat.one.
Proof.
  unfold IFCParser.createMaterial. intros H Hnone.
  apply bind_Ok in H as (items & Hitems & H).
  rewrite (itemOf_currentItems p items) in Hnone by done. rewrite Hnone in H.
  apply bind_Ok in H as (p1 & Hp1 & H). injection H as <-.
  apply updateItems_Ok in Hp1 as (Hitems1 & _ & _).
  unfold materialOf. rewrite itemOf_constructed, (itemOf_currentItems p1 _ _ Hitems1).
  rewrite lookup_insert_eq. simpl. eexists. split; [done|]. by simpl.
Qed.

Lemma saveGeometryByMaterial_fresh env float_toString p geom placedGeom id p' :
  IFCParser.saveGeometryByMaterial env float_toString p geom placedGeom id = Ok p' ->
  itemOf p (IFCParser.colorKey float_toString (WebIfc.color placedGeom)) = None ->
  exists m,
    materialOf p' (IFCParser.colorKey float_toString (WebIfc.color placedGeom)) = Some m
    /\ color m = (WebIfc.x (WebIfc.color placedGeom), WebIfc.y (WebIfc.color placedGeom),
                  WebIfc.z (WebIfc.color placedGeom))
    /\ transparent m = negb (PrimFloat.eqb (WebIfc.w (WebIfc.color placedGeom)) PrimFloat.one)
    /\ opacity m = if transparent m then WebIfc.w (WebIfc.color placedGeom)
                   else PrimFloat.one.
Proof.
  unfold IFCParser.saveGeometryByMaterial. intros H Hnone.
  set (colorID := IFCParser.colorKey float_toString (WebIfc.color placedGeom)) in *.
  apply bind_Ok in H as (geom' & _ & H). apply bind_Ok in H as (p1 & Hp1 & H).
  apply bind_Ok in H as (items1 & Hitems1 & H).
  destruct (createMaterial_fresh _ _ _ _ Hp1 Hnone) as (m & Hm & Hfields).
  unfold materialOf in Hm. rewrite (itemOf_currentItems p1 items1) in Hm by done.
  destruct (items1 !! colorID) as [item1|]; [|discriminate]. injection Hm as <-.
  apply updateItems_Ok in H as (Hitems' & _ & _).
  exists (material item1). split; [|done].
  unfold materialOf. by rewrite (itemOf_currentItems p' _ colorID Hitems'), lookup_insert_eq.
Qed.

Lemma materialOf_None_itemOf p k : materialOf p k = None -> itemOf p k = None.
Proof. unfold materialOf. by destruct (itemOf p k). Qed.

(** X20: the material of a colour key is made from the first geometry
    that is saved with this key: it has the red, green and blue of its
    colour, it is transparent exactly when the alpha of the colour is not 1,
    and its opacity is then the alpha; geometries saved later with the same
    key leave it as it is. *)
Theorem material_of_first_fragment env float_toString p pre f post p' :
  saveFragments env float_toString p (pre ++ f :: post) = Ok p' ->
  materialOf p (fragmentKey float_toString f) = None ->
  Forall (fun f' => fragmentKey float_toString f' <> fragmentKey float_toString f) pre ->
  exists m,
    materialOf p' (fragmentKey float_toString f) = Some m
    /\ color m = (WebIfc.x (WebIfc.color (snd (fst f))),
                  WebIfc.y (WebIfc.color (snd (fst f))),
                  WebIfc.z (WebIfc.color (snd (fst f))))
    /\ transparent m
       = negb (PrimFloat.eqb (WebIfc.w (WebIfc.color (snd (fst f)))) PrimFloat.one)
    /\ opacity m = if transparent m then WebIfc.w (WebIfc.color (snd (fst f)))
                   else PrimFloat.one.
Proof.
  intros H Hnone Hpre. rewrite saveFragments_app in H.
  apply bind_Ok in H as (p1 & Hp1 & H).
  rewrite <- (saveFragments_absent _ _ _ _ _ _ Hp1 Hpre) in Hnone.
  unfold saveFragments in H. simpl in H. apply bind_Ok in H as (p2 & Hp2 & H).
  destruct (saveGeometryByMaterial_fresh _ _ _ _ _ _ _ Hp2 (materialOf_None_itemOf _ _ Hnone))
    as (m & Hm & Hfields).
  exists m. split; [|done].
  by apply (saveFragments_kept env float_toString p2 post p' H).
Qed.

Lemma material_of_first_fragment_witness :
  exists m,
    materialOf Fixture6.loaded "0011" = Some m
    /\ color m = (PrimFloat.zero, PrimFloat.zero, PrimFloat.one)
    /\ transparent m = false
    /\ opacity m = PrimFloat.one.
Proof.
  destruct (material_of_first_fragment Fixture.env Fixture6.float_toString Fixture6.parser
              [(Fixture6.triangle, Fixture6.placed Fixture6.red 100, 21)]
              (Fixture6.triangle, Fixture6.placed Fixture6.blue 101, 22)
              [(Fixture6.triangle, Fixture6.placed Fixture6.red 100, 21)]
              Fixture6.loaded)
    as (m & Hm & Hcolor & Htransparent & Hopacity).
  - vm_compute. reflexivity.
  - reflexivity.
  - repeat constructor. discriminate.
  - exists m. split; [exact Hm|]. split; [exact Hcolor|].
    split; [exact Htransparent|]. rewrite Hopacity, Htransparent. reflexivity.
Defined.

(** ** Nodes of the same id *)

Lemma levels_child c n : c ∈ children n -> (levels c < levels n)%nat.
Proof.
  destruct n as [id t cs]. simpl. intros Hc.
  induction cs as [|c' cs IH]; [by apply elem_of_nil in Hc|].
  apply elem_of_cons in Hc as [->|Hc]; [lia|].
  specialize (IH Hc). lia.
Qed.

Lemma tree_of_chunks_child env state modelID (chunks : Chunks) c n :
  c ∈ children n ->
  tree_of_chunks env state modelID chunks n ->
  tree_of_chunks env state modelID chunks c.
Proof.
  intros Hc Htree m Hm. apply Htree. by eapply subnode_child.
Qed.

(** In the tree of the chunks, two nodes of the same id and of the type of
    the id are the same tree. *)
Lemma tree_of_chunks_unique env state modelID (chunks : Chunks) bound n1 n2 :
  (levels n1 <= bound)%nat ->
  tree_of_chunks env state modelID chunks n1 ->
  tree_of_chunks env state modelID chunks n2 ->
  expressID n1 = expressID n2 ->
  type n1 = type n2 ->
  n1 = n2.
Proof.
  revert n1 n2. induction bound as [|bound IH]; intros n1 n2 Hbound H1 H2 Hid Htype.
  - destruct n1. simpl in Hbound. lia.
  - assert (Hchildren : children n1 = children n2).
    { pose proof (H1 n1 (subnode_refl n1)) as Hs1.
      pose proof (H2 n2 (subnode_refl n2)) as Hs2.
      rewrite <- Hid in Hs2.
      destruct (chunks !! toPropertyKey (expressID n1)) as [ids|]; [|congruence].
      assert (Hsub1 : forall c, c ∈ children n1 ->
                (levels c <= bound)%nat /\ tree_of_chunks env state modelID chunks c).
      { intros c Hc. split; [|by eapply tree_of_chunks_child].
        pose proof (levels_child _ _ Hc). lia. }
      assert (Hsub2 : forall c, c ∈ children n2 ->
                tree_of_chunks env state modelID chunks c).
      { intros c Hc. by eapply tree_of_chunks_child. }
      revert Hs1 Hs2 Hsub1 Hsub2. generalize (children n1), (children n2).
      clear -IH. intros cs1 cs2 Hs1. revert cs2.
      induction Hs1 as [|id c1 ids cs1 [He1 Ht1] _ IHs]; intros cs2 Hs2 Hsub1 Hsub2.
      - by inversion Hs2.
      - inversion Hs2 as [|id' c2 ids' cs2' [He2 Ht2] Hrest]; subst.
        f_equal.
        + destruct (Hsub1 c1) as [Hl Htree1]; [by left|].
          apply IH; [done|done|apply Hsub2; by left|congruence|congruence].
        + apply IHs; [done|intros c Hc; apply Hsub1; by right
                     |intros c Hc; apply Hsub2; by right]. }
    destruct n1, n2. simpl in *. by subst.
Qed.

(** X21: an id that the chunks reach by several ways gives as many nodes
    in the spatial structure, and these nodes are copies of each other: two
    nodes of the tree, below the root, that have the same id have the same
    type and the same tree of children. *)
Theorem getSpatialStructure_copies env state modelID includeProperties (chunks : Chunks)
    rootID depth :
  key (spatial (PropsNames env)) = "children" ->
  PropertyManager.getSpatialTreeChunks env state modelID = Ok chunks ->
  projectID env state modelID = Ok rootID ->
  chunk_ids_known state modelID chunks ->
  within_depth chunks depth rootID ->
  exists root,
    PropertyManager.getSpatialStructure env state depth modelID includeProperties = Ok root
    /\ forall parent1 node1 parent2 node2,
         subnode parent1 root -> node1 ∈ children parent1 ->
         subnode parent2 root -> node2 ∈ children parent2 ->
         expressID node1 = expressID node2 ->
         node1 = node2.
Proof.
  intros Hkey Hchunks Hroot Hknown Hdepth.
  rewrite getSpatialStructure_projectID, Hchunks, Hroot. simpl.
  destruct (getSpatialNode_total env state depth modelID (PropertyManager.newIfcProject rootID)
              chunks includeProperties Hknown Hdepth) as [root Hrun].
  exists root. split; [done|].
  apply getSpatialNode_tree in Hrun as (_ & _ & Htree); [|done..].
  intros parent1 node1 parent2 node2 Hp1 Hn1 Hp2 Hn2 Hid.
  assert (Hnode : forall parent node,
            subnode parent root -> node ∈ children parent ->
            tree_of_chunks env state modelID chunks node
            /\ PropertyManager.getNodeType env state modelID (expressID node)
               = Ok (type node)).
  { intros parent node Hp Hn. split.
    - eapply tree_of_chunks_child; [done|]. intros m Hm. apply Htree.
      by eapply subnode_trans.
    - specialize (Htree parent Hp).
      destruct (chunks !! toPropertyKey (expressID parent)) as [ids|];
        [|rewrite Htree in Hn; by apply elem_of_nil in Hn].
      apply list_elem_of_lookup in Hn as [i Hi].
      by destruct (Forall2_lookup_r _ _ _ _ _ Htree Hi) as (id & _ & <- & Htype). }
  destruct (Hnode _ _ Hp1 Hn1) as [Htree1 Htype1].
  destruct (Hnode _ _ Hp2 Hn2) as [Htree2 Htype2].
  apply (tree_of_chunks_unique env state modelID chunks (levels node1)); [done..|].
  rewrite Hid in Htype1. congruence.
Qed.

Lemma getSpatialStructure_copies_witness :
  exists root first second,
    PropertyManager.getSpatialStructure Fixture.env (Fixture.jsonState Fixture.building)
      3 0 false = Ok root
    /\ children root !! 1%nat = Some first
    /\ children root !! 2%nat = Some second
    /\ first = second.
Proof.
  destruct (getSpatialStructure_copies Fixture.env (Fixture.jsonState Fixture.building) 0
              false Fixture4.treeChunks (JSNumber 1) 3%nat eq_refl
              (proj1 building_chunks) (proj2 building_chunks)
              building_ids_known building_within_depth) as (root & Hroot & Hcopies).
  pose proof Hroot as Hrun. vm_compute in Hrun. injection Hrun as Hrun.
  assert (H1 : children root !! 1%nat = Some (mkNode (JSNumber 3) (JSString "IfcWall") []))
    by (by rewrite <- Hrun).
  assert (H2 : children root !! 2%nat = Some (mkNode (JSNumber 3) (JSString "IfcWall") []))
    by (by rewrite <- Hrun).
  exists root, (mkNode (JSNumber 3) (JSString "IfcWall") []),
    (mkNode (JSNumber 3) (JSString "IfcWall") []).
  split; [exact Hroot|]. split; [exact H1|]. split; [exact H2|].
  apply (Hcopies root _ root _ (subnode_refl root) (list_elem_of_lookup_2 _ _ _ H1)
           (subnode_refl root) (list_elem_of_lookup_2 _ _ _ H2) eq_refl).
Defined.

(** ** Relations that name an id without record *)

Lemma bind_OutOfFuel {A B} (r : Result A) (k : A -> Result B) :
  bind r k = OutOfFuel -> r = OutOfFuel \/ exists a, r = Ok a /\ k a = OutOfFuel.
Proof. destruct r; simpl; intros H; try discriminate; eauto. Qed.

Lemma mapM_OutOfFuel {A B} (f : A -> Result B) (l : list A) :
  mapM f l = OutOfFuel -> exists a, a ∈ l /\ f a = OutOfFuel.
Proof.
  induction l as [|a l IH]; simpl; [discriminate|]. intros H.
  apply bind_OutOfFuel in H as [H|(b & Hb & H)].
  - exists a. split; [left|done].
  - apply bind_OutOfFuel in H as [H|(bs & _ & H)]; [|discriminate].
    destruct (IH H) as (a' & Hin & Ha'). exists a'. split; [by right|done].
Qed.

Lemma newNode_fuel env state modelID id :
  PropertyManager.newNode env state modelID id <> OutOfFuel.
Proof.
  unfold PropertyManager.newNode, PropertyManager.getNodeType, PropertyManager.getModel.
  destruct (models state !! modelID) as [m|]; simpl; [|done].
  destruct (useJSON state).
  - by destruct (PropertyManager.jsonData_get (jsonData m) id).
  - by destruct (types m !! toPropertyKey id).
Qed.

(** Within the depth of the chunks the fuel is enough, whether the tree can
    be built or not. *)
Lemma getSpatialNode_within_depth env state depth modelID node (chunks : Chunks)
    includeProperties :
  within_depth chunks depth (expressID node) ->
  PropertyManager.getSpatialNode env state depth modelID node chunks includeProperties
  <> OutOfFuel.
Proof.
  revert node. induction depth as [|depth IH]; intros node Hdepth; [done|].
  simpl in Hdepth.
  assert (Hchildren : forall n propNames, expressID n = expressID node ->
            PropertyManager.getChildren env state
              (fun n0 => PropertyManager.getSpatialNode env state depth modelID n0 chunks
                           includeProperties)
              modelID n chunks propNames includeProperties <> OutOfFuel).
  { intros n propNames Hn H. unfold PropertyManager.getChildren in H. rewrite Hn in H.
    destruct (chunks !! toPropertyKey (expressID node)) as [ids|] eqn:Hids; [|discriminate].
    apply bind_OutOfFuel in H as [H|(nodes & _ & H)]; [|discriminate].
    apply mapM_OutOfFuel in H as (child & Hchild & H). simpl in H.
    apply bind_OutOfFuel in H as [H|(n0 & Hn0 & H)]; [by apply newNode_fuel in H|].
    apply newNode_Ok in Hn0 as [Hid0 _].
    pose proof (Hdepth _ eq_refl) as Hd. rewrite Forall_forall in Hd.
    unfold PropertyManager.spread_promise in H.
    destruct includeProperties; apply IH in H; try done; rewrite Hid0; by apply Hd. }
  simpl. intros H. apply bind_OutOfFuel in H as [H|(node1 & H1 & H)].
  - by apply Hchildren in H.
  - apply Hchildren in H; [done|]. by eapply getChildren_expressID.
Qed.

(** No tree is built over an id for which no node can be made. *)
Lemma getSpatialNode_unknown_id env state fuel modelID node (chunks : Chunks)
    includeProperties parent ids id e :
  rtc (chunk_edge chunks) (toPropertyKey (expressID node)) parent ->
  chunks !! parent = Some ids ->
  id ∈ ids ->
  PropertyManager.newNode env state modelID id = Throw e ->
  forall node',
    PropertyManager.getSpatialNode env state fuel modelID node chunks includeProperties
    <> Ok node'.
Proof.
  intros Hpath Hids Hid Hbad. revert node Hpath.
  induction fuel as [|fuel IH]; intros node Hpath node' H; [discriminate|].
  simpl in H. apply bind_Ok in H as (node1 & H1 & _).
  apply getChildren_Ok in H1 as [[Hnone _]|(ids' & nodes & Hids' & Hnodes & _)].
  - apply rtc_inv in Hpath as [<-|(k1 & (ids1 & id1 & Hids1 & _) & _)]; congruence.
  - apply rtc_inv in Hpath as [<-|(k1 & (ids1 & id1 & Hids1 & Hid1 & <-) & Hpath)].
    + rewrite Hids in Hids'. injection Hids' as <-.
      apply list_elem_of_lookup in Hid as [i Hi].
      destruct (Forall2_lookup_l _ _ _ _ _ Hnodes Hi) as (n & _ & n0 & Hn0 & _).
      congruence.
    + rewrite Hids1 in Hids'. injection Hids' as <-.
      apply list_elem_of_lookup in Hid1 as [i Hi].
      destruct (Forall2_lookup_l _ _ _ _ _ Hnodes Hi) as (n & _ & n0 & Hn0 & Hn).
      apply newNode_Ok in Hn0 as [<- _]. by apply IH in Hn.
Qed.

(** X22: with JSON data, a relation that can be reached from the project
    and names an id for which the model holds no record makes the spatial
    structure fail: no tree is returned, and within the depth of the chunks
    the failure is a [TypeError]. *)
Theorem getSpatialStructure_unknown_id env state modelID includeProperties (chunks : Chunks)
    rootID depth m parent ids id :
  useJSON state = true ->
  models state !! modelID = Some m ->
  PropertyManager.getSpatialTreeChunks env state modelID = Ok chunks ->
  projectID env state modelID = Ok rootID ->
  within_depth chunks depth rootID ->
  rtc (chunk_edge chunks) (toPropertyKey rootID) parent ->
  chunks !! parent = Some ids ->
  id ∈ ids ->
  PropertyManager.jsonData_get (jsonData m) id = None ->
  PropertyManager.getSpatialStructure env state depth modelID includeProperties
  = Throw TypeError
  /\ forall fuel root,
       PropertyManager.getSpatialStructure env state fuel modelID includeProperties
       <> Ok root.
Proof.
  intros Hjson Hm Hchunks Hroot Hdepth Hpath Hids Hid Hnone.
  assert (Hbad : PropertyManager.newNode env state modelID id = Throw TypeError).
  { unfold PropertyManager.newNode, PropertyManager.getNodeType, PropertyManager.getModel.
    by rewrite Hm, Hjson; simpl; rewrite Hnone. }
  assert (Hnever : forall fuel root,
            PropertyManager.getSpatialNode env state fuel modelID
              (PropertyManager.newIfcProject rootID) chunks includeProperties <> Ok root).
  { intros fuel root. by eapply getSpatialNode_unknown_id. }
  split.
  - rewrite getSpatialStructure_projectID, Hchunks, Hroot. simpl.
    destruct (PropertyManager.getSpatialNode env state depth modelID
                (PropertyManager.newIfcProject rootID) chunks includeProperties)
      as [root|e|] eqn:Hrun.
    + by apply Hnever in Hrun.
    + by rewrite (throws_only_getSpatialNode (fun e => e = TypeError) eq_refl
                    _ _ _ _ _ _ _ _ Hrun).
    + by apply getSpatialNode_within_depth in Hrun.
  - intros fuel root. rewrite getSpatialStructure_projectID, Hchunks, Hroot. simpl.
    apply Hnever.
Qed.

Lemma getSpatialStructure_unknown_id_witness :
  PropertyManager.getSpatialStructure Fixture.env (Fixture.jsonState Fixture13.missingChild)
    2 0 false
  = Throw TypeError.
Proof.
  refine (proj1 (getSpatialStructure_unknown_id Fixture.env
                   (Fixture.jsonState Fixture13.missingChild) 0 false Fixture13.chunks
                   (JSNumber 1) 2%nat (Fixture2.modelOf Fixture13.missingChild)
                   "1" [JSNumber 2; JSNumber 5] (JSNumber 5)
                   eq_refl eq_refl _ _ _ _ eq_refl _ eq_refl)).
  - vm_compute. reflexivity.
  - vm_compute. reflexivity.
  - cbn [within_depth]. intros ids1 H1. vm_compute in H1. injection H1 as <-.
    repeat constructor; intros ids H; vm_compute in H; discriminate.
  - apply rtc_refl.
  - repeat constructor.
Defined.

(** ** Records related through several relations *)

Lemma related_to_app propNames id rels1 rels2 :
  related_to propNames id (rels1 ++ rels2)
  = related_to propNames id rels1 ++ related_to propNames id rels2.
Proof. unfold related_to. by rewrite List.filter_app, flat_map_app. Qed.

Lemma related_to_cons propNames id rel rels :
  related_contains propNames id rel = true ->
  related_to propNames id (rel :: rels)
  = relating_values propNames rel ++ related_to propNames id rels.
Proof. intros Hrel. unfold related_to. simpl. by rewrite Hrel. Qed.

(** X23: the related records are not made unique: a record that two
    relations of the element name as relating is returned twice, once for
    each relation, in the order of the relations. *)
Theorem getProperty_twice env state fuel model elementID propName m lines
    i j line1 line2 id :
  useJSON state = true ->
  models state !! model = Some m ->
  PropertyManager.getAllItemsOfTypeJSON env state model (name propName) true = Ok lines ->
  Forall (relation_readable propName elementID) lines ->
  (i < j)%nat ->
  lines !! i = Some line1 ->
  lines !! j = Some line2 ->
  related_contains propName elementID line1 = true ->
  related_contains propName elementID line2 = true ->
  id ∈ relating_values propName line1 ->
  id ∈ relating_values propName line2 ->
  exists result i' j',
    PropertyManager.getProperty env state fuel model elementID false propName = Ok result
    /\ (i' < j')%nat
    /\ result !! i' = Some (full_record (jsonData m) id)
    /\ result !! j' = Some (full_record (jsonData m) id).
Proof.
  intros Hjson Hm Hlines Hread Hij Hi Hj Hrel1 Hrel2 Hid1 Hid2.
  unfold PropertyManager.getProperty. rewrite Hjson.
  rewrite (getPropertyJSON_flat_total env state fuel model elementID propName m lines)
    by done.
  apply list_elem_of_lookup in Hid1 as [p1 Hp1]. apply list_elem_of_lookup in Hid2 as [p2 Hp2].
  assert (Hsplit : exists before between after,
            lines = before ++ line1 :: between ++ line2 :: after).
  { exists (take i lines), (take (j - S i) (drop (S i) lines)),
      (drop (S (j - S i)) (drop (S i) lines)).
    rewrite (take_drop_middle (drop (S i) lines) (j - S i) line2).
    - by rewrite take_drop_middle.
    - rewrite lookup_drop. by replace (S i + (j - S i))%nat with j by lia. }
  destruct Hsplit as (before & between & after & ->).
  rewrite related_to_app, related_to_cons, related_to_app, related_to_cons by done.
  set (A := related_to propName elementID before).
  set (B := related_to propName elementID between).
  set (C := related_to propName elementID after).
  eexists. exists (length A + p1)%nat,
    (length A + (length (relating_values propName line1) + (length B + p2)))%nat.
  split; [done|].
  pose proof (lookup_lt_Some _ _ _ Hp1) as Hlt.
  split; [lia|].
  split; rewrite list_lookup_fmap.
  - rewrite lookup_app_r, Nat.add_comm, Nat.add_sub by lia.
    by rewrite lookup_app_l, Hp1 by lia.
  - rewrite lookup_app_r by lia.
    replace (length A + (length (relating_values propName line1) + (length B + p2))
             - length A)%nat
      with (length (relating_values propName line1) + (length B + p2))%nat by lia.
    rewrite lookup_app_r by lia.
    replace (length (relating_values propName line1) + (length B + p2)
             - length (relating_values propName line1))%nat
      with (length B + p2)%nat by lia.
    rewrite lookup_app_r by lia.
    replace (length B + p2 - length B)%nat with p2 by lia.
    by rewrite lookup_app_l, Hp2 by (by eapply lookup_lt_Some).
Qed.

Lemma getProperty_twice_witness :
  exists result i' j',
    PropertyManager.getProperty Fixture.env (Fixture.jsonState Fixture7.properties) 0 0 4 false
      (psets Fixture.names) = Ok result
    /\ (i' < j')%nat
    /\ result !! i' = Some (JSObject Fixture7.sharedProperties)
    /\ result !! j' = Some (JSObject Fixture7.sharedProperties).
Proof.
  assert (Hread : Forall (relation_readable (psets Fixture.names) 4)
                    [JSObject Fixture7.definesWall; JSObject Fixture7.definesBoth;
                     JSObject Fixture7.definesSlab]).
  { repeat (apply Forall_cons; split); try apply Forall_nil.
    all: unfold relation_readable; eexists; split.
    all: try (intros _; eexists); vm_compute; reflexivity. }
  apply (getProperty_twice Fixture.env (Fixture.jsonState Fixture7.properties) 0 0 4
           (psets Fixture.names) (Fixture2.modelOf Fixture7.properties)
           [JSObject Fixture7.definesWall; JSObject Fixture7.definesBoth;
            JSObject Fixture7.definesSlab]
           1 2 (JSObject Fixture7.definesBoth) (JSObject Fixture7.definesSlab) (JSNumber 21)
           eq_refl eq_refl);
    [vm_compute; reflexivity | exact Hread | lia | reflexivity | reflexivity
    | reflexivity | reflexivity | vm_compute; repeat constructor
    | vm_compute; repeat constructor].
Defined.
